(** * Vietnamese PDF ebook generator: the sheet-processing pipeline

    A shallow embedding of [src/content_processor.py], [src/thread_manager.py],
    [src/pdf_generator.py], [src/style_manager.py], [src/pdf_merger.py] and
    [main.py], with the properties the specification states about them.

    Python [str] values are sequences of Unicode code points; they are
    modelled as lists of [N].  Python exceptions are modelled by a result
    type with an explicit [try ... except Exception] combinator. *)

From Stdlib Require Import ZArith NArith List String Ascii Bool Lia Permutation.
From stdpp Require Import base option list gmap.
Import ListNotations.

Local Open Scope N_scope.
Local Open Scope list_scope.

(** ** Python strings *)

Module Py.

Abbreviation char := N (only parsing).
Abbreviation str := (list N) (only parsing).

(** An ASCII literal as a [str]. *)
Definition lit (s : string) : str :=
  List.map N_of_ascii (list_ascii_of_string s).

(** Code points used by the source literals. *)
Definition c_newline : N := 10.
Definition c_space : N := 32.
Definition c_dquote : N := 34.       (* U+0022 QUOTATION MARK *)
Definition c_squote : N := 39.       (* U+0027 APOSTROPHE *)
Definition c_dot : N := 46.
Definition c_underscore : N := 95.
Definition c_en_dash : N := 8211.    (* U+2013 *)
Definition c_em_dash : N := 8212.    (* U+2014 *)
Definition c_ellipsis : N := 8230.   (* U+2026 *)

(** [s.startswith(p)] *)
Fixpoint startswith (p s : str) : bool :=
  match p, s with
  | [], _ => true
  | _ :: _, [] => false
  | a :: p', b :: s' => (a =? b) && startswith p' s'
  end.

(** [p in s] for strings: [p] occurs as a contiguous substring of [s]. *)
Fixpoint contains (p s : str) : bool :=
  startswith p s ||
  match s with
  | [] => false
  | _ :: s' => contains p s'
  end.

(** [c in s] for a single character. *)
Definition has_char (c : N) (s : str) : bool := existsb (N.eqb c) s.

(** [s.replace(old, new)] for a non-empty [old]: scan from the left; at an
    occurrence of [old] emit [new] and skip the occurrence, otherwise copy
    one character.  [skip] counts the characters of the current occurrence
    still to be skipped. *)
Fixpoint replace_go (old new : str) (skip : nat) (s : str) : str :=
  match s with
  | [] => []
  | c :: s' =>
      match skip with
      | S k => replace_go old new k s'
      | O =>
          if startswith old s
          then new ++ replace_go old new (Nat.pred (length old)) s'
          else c :: replace_go old new O s'
      end
  end.

(** [s.replace(old, new)]; with an empty [old] Python inserts [new] before
    every character and at the end. *)
Definition replace (old new s : str) : str :=
  match old with
  | [] => new ++ flat_map (fun c => c :: new) s
  | _ :: _ => replace_go old new O s
  end.

(** [str.isspace] on one character (the code points CPython treats as
    whitespace). *)
Definition isspace (c : N) : bool :=
  ((9 <=? c) && (c <=? 13)) || ((28 <=? c) && (c <=? 32)) ||
  (c =? 133) || (c =? 160) || (c =? 5760) ||
  ((8192 <=? c) && (c <=? 8202)) || (c =? 8232) || (c =? 8233) ||
  (c =? 8239) || (c =? 8287) || (c =? 12288).

Fixpoint lstrip (s : str) : str :=
  match s with
  | [] => []
  | c :: s' => if isspace c then lstrip s' else s
  end.

Fixpoint rstrip (s : str) : str :=
  match s with
  | [] => []
  | c :: s' =>
      match rstrip s' with
      | [] => if isspace c then [] else [c]
      | r => c :: r
      end
  end.

(** [s.strip()] *)
Definition strip (s : str) : str := rstrip (lstrip s).

(** Truth value of a string: [not s] holds for the empty string only. *)
Definition truthy (s : str) : bool :=
  match s with [] => false | _ :: _ => true end.

(** The Unicode character database functions the source calls:
    [unicodedata.normalize('NFC', s)], [s.isupper()] and [s.lower()]. *)
Class UnicodeData := {
  normalize_NFC : str -> str;
  isupper : str -> bool;
  lower : str -> str
}.

(** The database restricted to Basic Latin text (code points below U+0080):
    such text is already in NFC, and only the letters A-Z and a-z are cased. *)
Definition is_ascii_upper (c : N) : bool := (65 <=? c) && (c <=? 90).
Definition is_ascii_lower (c : N) : bool := (97 <=? c) && (c <=? 122).

Definition basic_latin : UnicodeData := {|
  normalize_NFC := fun s => s;
  isupper := fun s => existsb is_ascii_upper s && negb (existsb is_ascii_lower s);
  lower := List.map (fun c => if is_ascii_upper c then c + 32 else c)
|}.

End Py.

Import Py.

(** Levels of the [logging] module. *)
Inductive log_level := DEBUG | INFO | WARNING | ERROR.

(** ** [src/content_processor.py] *)

Module ContentProcessor.

Inductive content_type := empty | dialog | header | paragraph.

(** A content block, the dictionary built by [process_sheet_content]. *)
Record block := {
  type : content_type;
  content : str;
  original_index : nat;
  original_length : nat
}.

(** [self.paragraph_min_length] *)
Definition paragraph_min_length : nat := 10.

(** The [replacements] dictionary of [clean_vietnamese_text], in insertion
    order.  In the source the four quote entries are written with plain
    ASCII quotes: the first two are the same key, U+0022, mapped to itself,
    and the text between the three apostrophes that open the third entry
    and the three that open the fourth is one triple-quoted key: colon,
    space, U+0022, U+0027, U+0022, comma, a newline and twelve spaces.  Its
    value is the single character U+0027. *)
Definition triple_quoted_key : str :=
  lit ": " ++ [c_dquote; c_squote; c_dquote] ++ lit "," ++ [c_newline] ++
  repeat c_space 12.

Definition replacements : list (str * str) :=
  [ ([c_dquote], [c_dquote]);
    (triple_quoted_key, [c_squote]);
    ([c_en_dash], [c_em_dash]);
    (lit "...", [c_ellipsis]);
    ([c_space; c_space], [c_space]) ].

(** [for old, new in replacements.items(): text = text.replace(old, new)] *)
Definition apply_replacements (table : list (str * str)) (text : str) : str :=
  fold_left (fun t kv => replace (fst kv) (snd kv) t) table text.

Section WithUnicode.
Context {U : UnicodeData}.

Definition clean_vietnamese_text (text : str) : str :=
  if negb (truthy text) then []
  else strip (apply_replacements replacements (normalize_NFC text)).

(** The keywords 'chương', 'phần', 'mục'. *)
Definition header_keywords : list str :=
  [ [99; 104; 432; 417; 110; 103];
    [112; 104; 7847; 110];
    [109; 7909; 99] ].

Definition detect_content_type (text : str) : content_type :=
  if negb (truthy text) then empty
  else
    let text_clean := strip text in
    if has_char c_dquote text_clean
       || startswith [c_dquote] text_clean
       || startswith [c_em_dash] text_clean
    then dialog
    else if (length text_clean <? 100)%nat
            && (isupper text_clean
                || existsb (fun keyword => contains keyword (lower text_clean))
                     header_keywords)
    then header
    else paragraph.

(** One iteration of the loop of [process_sheet_content]: the block appended
    for row [i], if any. *)
Definition process_row (i : nat) (raw_text : str) : option block :=
  if negb (truthy raw_text) || negb (truthy (strip raw_text)) then None
  else
    let cleaned_text := clean_vietnamese_text raw_text in
    if (length cleaned_text <? paragraph_min_length)%nat then None
    else Some {| type := detect_content_type cleaned_text;
                 content := cleaned_text;
                 original_index := i;
                 original_length := length raw_text |}.

Fixpoint process_rows (i : nat) (rows : list str) : list block :=
  match rows with
  | [] => []
  | raw_text :: rest =>
      match process_row i raw_text with
      | Some b => b :: process_rows (S i) rest
      | None => process_rows (S i) rest
      end
  end.

(** The records [process_sheet_content] writes to its logger. *)
Inductive log_message :=
  | msg_no_content
  | msg_processed (n : nat).

Definition process_sheet_content (raw_content_list : list str)
  : list block * list (log_level * log_message) :=
  match raw_content_list with
  | [] => ([], [(WARNING, msg_no_content)])
  | _ :: _ =>
      let processed_blocks := process_rows 0 raw_content_list in
      (processed_blocks, [(INFO, msg_processed (length processed_blocks))])
  end.

End WithUnicode.

End ContentProcessor.

(** ** Exceptions, and a state-and-exception monad for effectful code *)

Module Eff.

(** The exception classes the modelled code can meet.  All but
    [KeyboardInterrupt] are subclasses of [Exception]. *)
Inductive exn :=
  | AttributeError | KeyError | TypeError | ValueError | OSError
  | PdfError | KeyboardInterrupt.

Definition is_Exception (e : exn) : bool :=
  match e with KeyboardInterrupt => false | _ => true end.

Inductive result (A : Type) :=
  | Ok (a : A)
  | Raise (e : exn).
Arguments Ok {A} a.
Arguments Raise {A} e.

(** A computation over a state [S] that returns a value or raises. *)
Definition M (S A : Type) : Type := S -> result A * S.

Definition ret {S A} (a : A) : M S A := fun s => (Ok a, s).
Definition raise {S A} (e : exn) : M S A := fun s => (Raise e, s).
Definition bind {S A B} (m : M S A) (k : A -> M S B) : M S B :=
  fun s => match m s with
           | (Ok a, s') => k a s'
           | (Raise e, s') => (Raise e, s')
           end.
Definition lift {S A} (r : result A) : M S A := fun s => (r, s).
Definition get {S} : M S S := fun s => (Ok s, s).
Definition modify {S} (f : S -> S) : M S unit := fun s => (Ok tt, f s).

(** [try: body  except Exception: handler]; an exception that is not an
    [Exception] passes through. *)
Definition try_except {S A} (body : M S A) (handler : exn -> M S A) : M S A :=
  fun s => match body s with
           | (Ok a, s') => (Ok a, s')
           | (Raise e, s') => if is_Exception e then handler e s'
                              else (Raise e, s')
           end.

Declare Scope eff_scope.
Delimit Scope eff_scope with eff.
Notation "'let*' x := m 'in' k" := (bind m (fun x => k))
  (at level 10, x name, m at level 100, k at level 200) : eff_scope.
Notation "'do' m 'then' k" := (bind m (fun _ => k))
  (at level 10, m at level 100, k at level 200) : eff_scope.

End Eff.

Import Eff.

(** ** [src/style_manager.py] *)

Module StyleManager.

Local Open Scope string_scope.

Inductive alignment := TA_LEFT | TA_CENTER | TA_RIGHT | TA_JUSTIFY.

(** A ReportLab [ParagraphStyle], with the attributes the source sets.
    Lengths are in points ([inch] is 72 points). *)
Record ParagraphStyle := {
  name : string;
  fontName : string;
  fontSize : Z;
  leading : Z;
  align : alignment;
  spaceBefore : Z;
  spaceAfter : Z;
  firstLineIndent : Z;
  leftIndent : Z;
  textColor : string;
  wordWrap : option string
}.

(** ReportLab's defaults for the attributes a [ParagraphStyle] is not
    given. *)
Definition default_style (n : string) : ParagraphStyle := {|
  name := n; fontName := "Helvetica"; fontSize := 10; leading := 12;
  align := TA_LEFT; spaceBefore := 0; spaceAfter := 0;
  firstLineIndent := 0; leftIndent := 0; textColor := "#000000";
  wordWrap := None
|}.

(** [StyleSheet1.add]: a name already in the sheet raises [KeyError]. *)
Definition add (styles : gmap string ParagraphStyle) (st : ParagraphStyle)
  : result (gmap string ParagraphStyle) :=
  match styles !! name st with
  | Some _ => Raise KeyError
  | None => Ok (<[name st := st]> styles)
  end.

(** [styles[key]] *)
Definition getitem (styles : gmap string ParagraphStyle) (key : string)
  : result ParagraphStyle :=
  match styles !! key with
  | Some st => Ok st
  | None => Raise KeyError
  end.

Definition rbind {A B} (r : result A) (k : A -> result B) : result B :=
  match r with Ok a => k a | Raise e => Raise e end.

Definition BusinessChapter (bold_font : string) : ParagraphStyle := {|
  name := "BusinessChapter"; fontSize := 24; textColor := "#1a1a1a";
  spaceAfter := 24; spaceBefore := 12; align := TA_LEFT;
  fontName := bold_font; leading := 30;
  firstLineIndent := 0; leftIndent := 0; wordWrap := None
|}.

Definition BusinessBody (base_font : string) : ParagraphStyle := {|
  name := "BusinessBody"; fontSize := 12; leading := 16;
  align := TA_JUSTIFY; spaceAfter := 8; spaceBefore := 0;
  firstLineIndent := 0; fontName := base_font; textColor := "#1a1a1a";
  wordWrap := Some "CJK"; leftIndent := 0
|}.

(** [ParagraphStyle(name='BusinessDialog', parent=..., leftIndent=0.25*inch,
    fontName=italic_font, textColor=...)]: the parent's attributes, then the
    keywords. *)
Definition BusinessDialog (parent : ParagraphStyle) (italic_font : string)
  : ParagraphStyle := {|
  name := "BusinessDialog"; leftIndent := 18; fontName := italic_font;
  textColor := "#2a2a2a";
  fontSize := fontSize parent; leading := leading parent;
  align := align parent; spaceAfter := spaceAfter parent;
  spaceBefore := spaceBefore parent;
  firstLineIndent := firstLineIndent parent; wordWrap := wordWrap parent
|}.

Definition BusinessFirst (parent : ParagraphStyle) : ParagraphStyle := {|
  name := "BusinessFirst"; spaceBefore := 0;
  leftIndent := leftIndent parent; fontName := fontName parent;
  textColor := textColor parent;
  fontSize := fontSize parent; leading := leading parent;
  align := align parent; spaceAfter := spaceAfter parent;
  firstLineIndent := firstLineIndent parent; wordWrap := wordWrap parent
|}.

(** [_create_business_styles], on the sheet [styles] and with the font
    [base_font] that [_register_vietnamese_fonts] returned. *)
Definition _create_business_styles (styles : gmap string ParagraphStyle)
    (base_font : string) : result (gmap string ParagraphStyle) :=
  let bold_font :=
    if String.eqb base_font "Helvetica" then "Helvetica-Bold"
    else base_font ++ "-Bold" in
  let italic_font :=
    if String.eqb base_font "Helvetica" then "Helvetica-Oblique"
    else base_font ++ "-Italic" in
  rbind (add styles (BusinessChapter bold_font)) (fun s1 =>
  rbind (add s1 (BusinessBody base_font)) (fun s2 =>
  rbind (getitem s2 "BusinessBody") (fun body =>
  rbind (add s2 (BusinessDialog body italic_font)) (fun s3 =>
  rbind (getitem s3 "BusinessBody") (fun body' =>
  add s3 (BusinessFirst body')))))).

(** [BusinessStyleManager()]: [sample] is ReportLab's sample style sheet. *)
Definition BusinessStyleManager (sample : gmap string ParagraphStyle)
    (base_font : string) : result (gmap string ParagraphStyle) :=
  _create_business_styles sample base_font.

(** [get_style]; the fallback [self.styles['BusinessBody']] can itself
    raise [KeyError]. *)
Definition get_style (styles : gmap string ParagraphStyle)
    (style_name : string) : result ParagraphStyle :=
  match styles !! style_name with
  | Some st => Ok st
  | None => getitem styles "BusinessBody"
  end.

End StyleManager.

(** ** The file system, the external collaborators and [os.path] *)

Module Sys.

(** A flowable of a ReportLab story.  A [Spacer] height is in hundredths of
    an inch: [0.2*inch] is 20. *)
Inductive flowable :=
  | Paragraph (text : str) (style : StyleManager.ParagraphStyle)
  | Spacer (width : Z) (height : Z).

(** What a PDF file holds: a rendered sheet, or the merged ebook as the
    list of appended files, each with its outline item if one was given. *)
Inductive document :=
  | SheetPDF (title : str) (story : list flowable)
  | MergedPDF (parts : list (str * option str)).

Record file := { nbytes : N; doc : document }.

(** Values interpolated into printed lines and stored in the statistics
    dictionary.  [VRound2 n d] stands for [round(n / d, 2)]. *)
Inductive pyval :=
  | VStr (s : str)
  | VInt (z : Z)
  | VRound2 (n d : N).

(** What a run emits: logger records and printed lines. *)
Inductive event :=
  | Log (level : log_level) (message : string) (arg : str)
  | Print (text : string) (args : list pyval).

Record State := {
  fs : gmap (list N) file;
  out : list event
}.

(** The state after one more event, and after a file was written. *)
Definition logged (e : event) (st : State) : State :=
  {| fs := fs st; out := out st ++ [e] |}.

Definition written (path : str) (f : file) (st : State) : State :=
  {| fs := <[path := f]> (fs st); out := out st |}.

Definition logged_all (events : list event) (st : State) : State :=
  {| fs := fs st; out := out st ++ events |}.

Definition emit (e : event) : M State unit := modify (logged e).

Definition write_file (path : str) (f : file) : M State unit :=
  modify (written path f).

(** [os.path.exists] and [os.path.getsize] *)
Definition exists_ (st : State) (path : str) : bool :=
  match fs st !! path with Some _ => true | None => false end.

Definition getsize (path : str) : M State N :=
  fun st => match fs st !! path with
            | Some f => (Ok (nbytes f), st)
            | None => (Raise OSError, st)
            end.

(** The behaviour of the collaborators outside the repository. *)
Record World := {
  (** [os.path.exists(config['credentials_path'])] *)
  credentials_exist : bool;
  (** [int(os.getenv('MAX_THREADS', '4'))] *)
  env_max_threads : Z;
  (** [os.getenv('OUTPUT_DIR', 'output')] *)
  env_output_dir : str;
  (** [os.cpu_count()] *)
  cpu_count : option Z;
  (** [SheetsReader(credentials_path)], which re-raises on failure *)
  reader_init : result unit;
  (** [get_spreadsheet_info]: title and sheet names, or re-raised failure *)
  spreadsheet_info : result (str * list str);
  (** [read_column_d]: the non-blank cells, [[]] after three failures *)
  read_column_d : str -> list str;
  (** ReportLab's sample style sheet and the registered base font *)
  sample_styles : gmap string StyleManager.ParagraphStyle;
  base_font : string;
  (** [doc.build(story)]: the size of the file written, or a failure *)
  doc_build : str -> list flowable -> result N;
  (** [Paragraph(text, style)]: the failure on ill-formed markup, if any *)
  paragraph_error : str -> option exn;
  (** [merger.append(f, outline_item=...)], [merger.append(f, bookmark=...)]
      and [merger.append(f)]: the failure each raises, if any *)
  append_outline_item : str -> option exn;
  append_bookmark : str -> option exn;
  append_plain : str -> option exn;
  (** [merger.write(output_path)]: the size written, or a failure *)
  merger_write : list (str * option str) -> result N;
  (** [len(PdfReader(path).pages)], or a failure *)
  pdf_reader : str -> result nat
}.

Definition c_slash : N := 47.

(** [os.path.join(a, b)] of [posixpath] *)
Definition join (a b : str) : str :=
  if startswith [c_slash] b then b
  else match a with
       | [] => b
       | _ :: _ => if N.eqb (List.last a 0) c_slash then a ++ b
                   else a ++ [c_slash] ++ b
       end.

(** [s.rfind(c)]: the last index of [c], or -1. *)
Fixpoint rfind_from (c : N) (s : str) (i acc : Z) : Z :=
  match s with
  | [] => acc
  | x :: s' => rfind_from c s' (i + 1)%Z (if x =? c then i else acc)
  end.
Definition rfind (c : N) (s : str) : Z := rfind_from c s 0%Z (-1)%Z.

(** [s[i:]] and [s[:i]] for [i >= 0]. *)
Definition slice_from (i : Z) (s : str) : str := skipn (Z.to_nat i) s.
Definition slice_to (i : Z) (s : str) : str := firstn (Z.to_nat i) s.

(** [os.path.basename] *)
Definition basename (p : str) : str := slice_from (rfind c_slash p + 1)%Z p.

(** [os.path.splitext(p)[0]]: cut at the last dot, unless that dot is before
    the last slash or only dots stand between the slash and it. *)
Definition splitext_root (p : str) : str :=
  let sepIndex := rfind c_slash p in
  let dotIndex := rfind c_dot p in
  if (sepIndex <? dotIndex)%Z then
    let before := slice_to (dotIndex - (sepIndex + 1))%Z
                    (slice_from (sepIndex + 1)%Z p) in
    if forallb (N.eqb c_dot) before then p else slice_to dotIndex p
  else p.

End Sys.

Import Sys.

(** ** [src/pdf_generator.py] *)

Module PDFGenerator.

Import ContentProcessor StyleManager.

Section WithWorld.
Context {U : UnicodeData} (W : World).

(** [self.style_manager.styles] and [self.output_dir] *)
Variable styles : gmap string ParagraphStyle.
Variable output_dir : str.

(** The keywords 'chương', 'chapter', 'phần'. *)
Definition chapter_keywords : list str :=
  [ [99; 104; 432; 417; 110; 103];
    lit "chapter";
    [112; 104; 7847; 110] ].

Definition _is_chapter_title (text : str) : bool :=
  if negb (truthy text) then false
  else existsb (fun keyword => contains keyword (lower text)) chapter_keywords.

(** The characters of the class in [re.sub]: less-than, greater-than, colon,
    U+0022, slash, backslash, bar, question mark, asterisk. *)
Definition unsafe_char (c : N) : bool :=
  existsb (N.eqb c) [60; 62; 58; 34; 47; 92; 124; 63; 42].

Definition _sanitize_filename (filename : str) : str :=
  let safe_name :=
    List.map (fun c => if unsafe_char c then c_underscore else c) filename in
  if (50 <? length safe_name)%nat then firstn 50 safe_name else safe_name.

(** The style name chosen for a block in the loop of [_build_story]. *)
Definition block_style_name (content_type : content_type) : string :=
  match content_type with
  | dialog => "BusinessDialog"
  | _ => "BusinessBody"
  end.

Definition make_paragraph (text : str) (style : ParagraphStyle)
  : result flowable :=
  match paragraph_error W text with
  | Some e => Raise e
  | None => Ok (Paragraph text style)
  end.

(** The loop of [_build_story] over the content blocks. *)
Fixpoint build_blocks (content_blocks : list block) : result (list flowable) :=
  match content_blocks with
  | [] => Ok []
  | b :: rest =>
      if negb (truthy (strip (content b))) then build_blocks rest
      else
        rbind (get_style styles (block_style_name (type b))) (fun style =>
        rbind (make_paragraph (content b) style) (fun para =>
        rbind (build_blocks rest) (fun story =>
        Ok (para :: Spacer 1 5 :: story))))
  end.

Definition _build_story (sheet_name : str) (content_blocks : list block)
  : result (list flowable) :=
  rbind (if _is_chapter_title sheet_name
         then rbind (get_style styles "BusinessChapter") (fun style =>
              rbind (make_paragraph sheet_name style) (fun title_para =>
              Ok [title_para; Spacer 1 20]))
         else Ok []) (fun head =>
  rbind (build_blocks content_blocks) (fun body =>
  Ok (head ++ body))).

Local Open Scope eff_scope.

Definition generate_sheet_pdf (sheet_name : str) (content_blocks : list block)
  : M State (option str) :=
  match content_blocks with
  | [] => do emit (Log WARNING "No content blocks for" sheet_name)
          then ret None
  | _ :: _ =>
      let safe_filename := _sanitize_filename sheet_name in
      let output_path := join output_dir (safe_filename ++ lit ".pdf") in
      do emit (Log INFO "Generating PDF" sheet_name) then
      try_except
        (let* story := lift (_build_story sheet_name content_blocks) in
         let* written := lift (doc_build W output_path story) in
         do write_file output_path
              {| nbytes := written; doc := SheetPDF sheet_name story |} then
         do emit (Log INFO "PDF generated" output_path) then
         ret (Some output_path))
        (fun e =>
           do emit (Log ERROR "Failed to generate PDF for" sheet_name) then
           ret None)
  end.

End WithWorld.

End PDFGenerator.

(** ** [src/pdf_merger.py] *)

Module PDFMerger.

Section WithWorld.
Context (W : World).

(** [self.output_dir] *)
Variable output_dir : str.

Local Open Scope eff_scope.

Definition _extract_chapter_name (pdf_file : str) : str :=
  let filename := basename pdf_file in
  let name := splitext_root filename in
  replace [c_underscore] [c_space] name.

Definition raise_if {S} (e : option exn) : M S unit :=
  match e with Some x => raise x | None => ret tt end.

(** One [merger.append(...)] of the loop: the entry added to the merger. *)
Definition append (add_bookmarks : bool) (pdf_file chapter_name : str)
  : M State (str * option str) :=
  if add_bookmarks then
    fun st =>
      match raise_if (append_outline_item W pdf_file) st with
      | (Raise TypeError, st') =>
          (do raise_if (append_bookmark W pdf_file) then
           ret (pdf_file, Some chapter_name)) st'
      | (Raise e, st') => (Raise e, st')
      | (Ok _, st') => (Ok (pdf_file, Some chapter_name), st')
      end
  else
    do raise_if (append_plain W pdf_file) then ret (pdf_file, None).

Fixpoint append_all (add_bookmarks : bool) (existing_files : list str)
  : M State (list (str * option str)) :=
  match existing_files with
  | [] => ret []
  | pdf_file :: rest =>
      let chapter_name := _extract_chapter_name pdf_file in
      let* part := append add_bookmarks pdf_file chapter_name in
      do emit (Log INFO "Added" chapter_name) then
      let* parts := append_all add_bookmarks rest in
      ret (part :: parts)
  end.

Definition merge_sheets_to_ebook (pdf_files : list str) (output_filename : str)
    (add_bookmarks : bool) : M State (option str) :=
  match pdf_files with
  | [] => do emit (Log ERROR "No PDF files to merge" []) then ret None
  | _ :: _ =>
      let* st := get in
      let existing_files := List.filter (exists_ st) pdf_files in
      match existing_files with
      | [] => do emit (Log ERROR "No valid PDF files found" []) then ret None
      | _ :: _ =>
          let output_path := join output_dir output_filename in
          do emit (Log INFO "Merging PDFs into ebook" []) then
          try_except
            (let* parts := append_all add_bookmarks existing_files in
             let* written := lift (merger_write W parts) in
             do write_file output_path
                  {| nbytes := written; doc := MergedPDF parts |} then
             do emit (Log INFO "Ebook created" output_path) then
             ret (Some output_path))
            (fun e =>
               do emit (Log ERROR "Failed to merge PDFs" []) then ret None)
      end
  end.

Definition validate_ebook (ebook_path : str) : M State bool :=
  let* st := get in
  if exists_ st ebook_path
  then let* n := getsize ebook_path in ret (0 <? n)
  else ret false.

Local Open Scope string_scope.

Definition get_ebook_stats (ebook_path : str)
  : M State (option (gmap string pyval)) :=
  let* valid := validate_ebook ebook_path in
  if negb valid then ret None
  else
    try_except
      (let* pages := lift (pdf_reader W ebook_path) in
       let* file_size := getsize ebook_path in
       ret (Some (<["file_path" := VStr ebook_path]>
                 (<["file_size_kb" := VRound2 file_size 1024]>
                 (<["file_size_mb" := VRound2 file_size (1024 * 1024)]>
                 (<["num_pages" := VInt (Z.of_nat pages)]>
                 (<["title" := VStr (lit "Vietnamese Business Ebook")]>
                  ∅)))))))
      (fun e =>
         let* file_size := getsize ebook_path in
         ret (Some (<["file_path" := VStr ebook_path]>
                   (<["file_size_kb" := VRound2 file_size 1024]>
                   (<["num_pages" := VStr (lit "Unknown")]> ∅))))).

End WithWorld.

End PDFMerger.

(** ** [src/thread_manager.py] *)

Module ThreadManager.

Import ContentProcessor.

Local Open Scope eff_scope.

(** [x or 4] for [os.cpu_count()]: [None] and 0 are false. *)
Definition or_default (x : option Z) (d : Z) : Z :=
  match x with
  | None => d
  | Some n => if (n =? 0)%Z then d else n
  end.

(** [ThreadManager.__init__]: the value stored in [self.max_workers]. *)
Definition __init__ (cpu_count : option Z) (max_workers : option Z) : Z :=
  match max_workers with
  | None => Z.min (or_default cpu_count 4) 6
  | Some n => n
  end.

(** The methods the class [ThreadManager] defines, and attribute lookup of a
    method on an instance. *)
Definition methods : list string :=
  ["__init__"; "process_sheets_parallel"]%string.

Definition getattr (name : string) : result string :=
  if existsb (String.eqb name) methods then Ok name else Raise AttributeError.

(** Truth value of a task result: [None] and the empty string are false. *)
Definition truthy_result (r : option str) : bool :=
  match r with Some p => truthy p | None => false end.

(** [future_to_sheet]: one [executor.submit] per element of [sheets]; the
    future of the [i]-th submitted task is [i]. *)
Definition future_to_sheet (sheets : list str) : gmap nat (list N) :=
  map_seq 0 sheets.

(** The body of the loop over [as_completed(future_to_sheet)] for the
    future of [sheet_name]: the task's result is recorded when it is true,
    and an [Exception] it raised is logged. *)
Definition record_result (processor_func : str -> M State (option str))
    (sheet_name : str) (results : gmap (list N) (list N))
  : M State (gmap (list N) (list N)) :=
  try_except
    (let* result := processor_func sheet_name in
     if truthy_result result
     then do emit (Log INFO "Completed" sheet_name) then
          ret (<[sheet_name := default [] result]> results)
     else do emit (Log WARNING "No result for" sheet_name) then
          ret results)
    (fun e => do emit (Log ERROR "Failed" sheet_name) then ret results).

(** The loop over [as_completed(future_to_sheet)]; [completed] lists the
    futures in their order of completion.  A task runs to its end before
    the next one of [completed] does, and [future.result] returns or
    re-raises what it did. *)
Fixpoint collect (futures : gmap nat (list N))
    (processor_func : str -> M State (option str))
    (completed : list nat) (results : gmap (list N) (list N))
  : M State (gmap (list N) (list N)) :=
  match completed with
  | [] => ret results
  | future :: rest =>
      match futures !! future with
      | None => collect futures processor_func rest results
      | Some sheet_name =>
          let* results' := record_result processor_func sheet_name results in
          collect futures processor_func rest results'
      end
  end.

(** The bound the pool is created with,
    [ThreadPoolExecutor(max_workers=self.max_workers)]: the manager's
    [max_workers], whatever [sheets] is. *)
Definition executor_max_workers (self_max_workers : Z) (sheets : list str)
  : Z := self_max_workers.

(** [process_sheets_parallel]; [ThreadPoolExecutor(max_workers=n)] raises
    [ValueError] unless [n] is positive. *)
Definition process_sheets_parallel (max_workers : Z) (sheets : list str)
    (processor_func : str -> M State (option str)) (completed : list nat)
  : M State (gmap (list N) (list N)) :=
  match sheets with
  | [] => ret ∅
  | _ :: _ =>
      if (executor_max_workers max_workers sheets <=? 0)%Z
      then raise ValueError
      else
        let* results :=
          collect (future_to_sheet sheets) processor_func completed ∅ in
        do emit (Log INFO "Processing completed" []) then
        ret results
  end.

(** The orders in which [as_completed] can yield the futures of [sheets]:
    each of them once. *)
Definition completion_order (sheets : list str) (completed : list nat) : Prop :=
  Permutation completed (seq 0 (length sheets)).

(** [process_single_sheet], over the three collaborators it is handed. *)
Definition process_single_sheet
    (read_column_d : str -> M State (list str))
    (process_sheet_content : list str -> M State (list block))
    (generate_sheet_pdf : str -> list block -> M State (option str))
    (sheet_name : str) : M State (option str) :=
  try_except
    (let* raw_content := read_column_d sheet_name in
     match raw_content with
     | [] => ret None
     | _ :: _ =>
         let* content_blocks := process_sheet_content raw_content in
         match content_blocks with
         | [] => ret None
         | _ :: _ =>
             let* pdf_path := generate_sheet_pdf sheet_name content_blocks in
             ret pdf_path
         end
     end)
    (fun e => do emit (Log ERROR "Error processing" sheet_name) then
              ret None).

End ThreadManager.

(** ** [main.py] *)

Module Main.

Import ContentProcessor.

Record Args := {
  spreadsheet_id : str;
  output : str;
  sheets : option (list str);
  threads : option Z;
  verbose : bool;
  no_bookmarks : bool
}.

Section WithWorld.
Context {U : UnicodeData} (W : World).

Local Open Scope eff_scope.

(** [config['max_threads']] after the command-line override:
    [if args.threads:] is false for 0 as well as for [None]. *)
Definition max_threads (args : Args) : Z :=
  match threads args with
  | Some n => if (n =? 0)%Z then env_max_threads W else n
  | None => env_max_threads W
  end.

Definition validate_setup (args : Args) : bool :=
  credentials_exist W && truthy (spreadsheet_id args).

Definition elem (s : str) (l : list str) : bool :=
  existsb (fun x => bool_decide (x = s)) l.

(** The sheets to process, before the emptiness test. *)
Definition select_sheets (args : Args) (sheet_names : list str)
  : M State (list str) :=
  match sheets args with
  | Some ((_ :: _) as sheets_to_process) =>
      if existsb (fun s => negb (elem s sheet_names)) sheets_to_process
      then do emit (Log WARNING "Sheets not found" []) then
           ret (List.filter (fun s => elem s sheet_names) sheets_to_process)
      else ret sheets_to_process
  | _ => ret sheet_names
  end.

(** The records of the content processor as events of the run. *)
Definition content_log (records : list (log_level * log_message))
  : list event :=
  List.map (fun lm =>
    match snd lm with
    | msg_no_content => Log (fst lm) "No content to process" []
    | msg_processed n => Log (fst lm) "Processed content blocks" []
    end) records.

(** The task [main] hands to the scheduler: [process_single_sheet] with the
    reader, the content processor and the PDF generator. *)
Definition sheet_task (styles : gmap string StyleManager.ParagraphStyle)
  : str -> M State (option str) :=
  ThreadManager.process_single_sheet
    (fun sheet_name => ret (read_column_d W sheet_name))
    (fun raw_content =>
       let r := process_sheet_content raw_content in
       do modify (logged_all (content_log (snd r))) then
       ret (fst r))
    (PDFGenerator.generate_sheet_pdf W styles
       (join (env_output_dir W) (lit "temp"))).

(** The PDF files to merge, in the order of [sheets_to_process]. *)
Definition pdf_files_of (sheets_to_process : list str)
    (results : gmap (list N) (list N)) : list str :=
  flat_map (fun sheet_name =>
    match results !! sheet_name with
    | Some path => if truthy path then [path] else []
    | None => []
    end) sheets_to_process.

(** [ebook_stats[key]] *)
Definition subscript (ebook_stats : option (gmap string pyval)) (key : string)
  : M State pyval :=
  match ebook_stats with
  | None => raise TypeError
  | Some d => match d !! key with
              | Some v => ret v
              | None => raise KeyError
              end
  end.

Definition summary (final_ebook_path : str)
    (ebook_stats : option (gmap string pyval))
    (chapters succeeded requested : nat) : M State unit :=
  do emit (Print "EBOOK GENERATION COMPLETE!" []) then
  do emit (Print "Ebook" [VStr final_ebook_path]) then
  do emit (Print "Statistics" []) then
  let* pages := subscript ebook_stats "num_pages" in
  do emit (Print "Pages" [pages]) then
  let* mb := subscript ebook_stats "file_size_mb" in
  do emit (Print "File size MB" [mb]) then
  do emit (Print "Chapters" [VInt (Z.of_nat chapters)]) then
  do emit (Print "Processing time" []) then
  do emit (Print "Success rate"
             [VInt (Z.of_nat succeeded); VInt (Z.of_nat requested)]) then
  let* title := subscript ebook_stats "title" in
  emit (Print "Title" [title]).

(** From [pdf_merger.validate_ebook] to [return 0]. *)
Definition finish (final_ebook_path : str)
    (chapters succeeded requested : nat) : M State Z :=
  let* valid := PDFMerger.validate_ebook final_ebook_path in
  if negb valid
  then do emit (Log ERROR "Final ebook validation failed" []) then ret 1%Z
  else
    let* ebook_stats := PDFMerger.get_ebook_stats W final_ebook_path in
    do summary final_ebook_path ebook_stats chapters succeeded requested then
    ret 0%Z.

(** From the test of [results] to [return 0]. *)
Definition merge_and_report (args : Args) (sheets_to_process : list str)
    (results : gmap (list N) (list N)) : M State Z :=
  if bool_decide (results = ∅)
  then do emit (Log ERROR "No PDFs were generated successfully" []) then
       ret 1%Z
  else
    let pdf_files := pdf_files_of sheets_to_process results in
    match pdf_files with
    | [] => do emit (Log ERROR "No valid PDFs to merge" []) then ret 1%Z
    | _ :: _ =>
        let* final_ebook_path :=
          PDFMerger.merge_sheets_to_ebook W
            (join (env_output_dir W) (lit "final"))
            pdf_files (output args) (negb (no_bookmarks args)) in
        if negb (ThreadManager.truthy_result final_ebook_path)
        then do emit (Log ERROR "Failed to create final ebook" []) then
             ret 1%Z
        else finish (default [] final_ebook_path) (length pdf_files)
               (size results) (length sheets_to_process)
    end.

(** From [thread_manager.process_sheets_parallel] to [return 0]. *)
Definition pipeline (args : Args)
    (styles : gmap string StyleManager.ParagraphStyle) (max_workers : Z)
    (sheets_to_process : list str) (completed : list nat) : M State Z :=
  do emit (Log INFO "Starting multi-threaded processing" []) then
  let* results :=
    ThreadManager.process_sheets_parallel max_workers sheets_to_process
      (sheet_task styles) completed in
  merge_and_report args sheets_to_process results.

(** The body of the [try] block of [main]. *)
Definition run (args : Args) (completed : list nat) : M State Z :=
  do lift (reader_init W) then
  let* styles :=
    lift (StyleManager.BusinessStyleManager (sample_styles W) (base_font W)) in
  let max_workers :=
    ThreadManager.__init__ (cpu_count W) (Some (max_threads args)) in
  let* info := lift (spreadsheet_info W) in
  let sheet_names := snd info in
  let* sheets_to_process := select_sheets args sheet_names in
  match sheets_to_process with
  | [] => ret 1%Z
  | _ :: _ =>
      let sheets_to_process :=
        List.filter (fun s => elem s sheet_names) sheets_to_process in
      do (if (1 <? length sheets_to_process)%nat
          then let* estimate_processing_time :=
                 lift (ThreadManager.getattr "estimate_processing_time") in
               (* no method of the class takes these arguments *)
               raise TypeError
          else ret tt) then
      pipeline args styles max_workers sheets_to_process completed
  end.

(** The name of an exception class, as logged. *)
Definition exn_name (e : exn) : string :=
  match e with
  | AttributeError => "AttributeError" | KeyError => "KeyError"
  | TypeError => "TypeError" | ValueError => "ValueError"
  | OSError => "OSError" | PdfError => "PdfError"
  | KeyboardInterrupt => "KeyboardInterrupt"
  end.

(** [main]: the exit code.  Both [except] clauses return 1. *)
Definition main (args : Args) (completed : list nat) : M State Z :=
  do emit (Print "Vietnamese PDF Ebook Generator" []) then
  if negb (validate_setup args)
  then do emit (Print "Setup validation failed" []) then ret 1%Z
  else
    fun st =>
      match run args completed st with
      | (Ok code, st') => (Ok code, st')
      | (Raise KeyboardInterrupt, st') =>
          (do emit (Log INFO "Process interrupted by user" []) then ret 1%Z) st'
      | (Raise e, st') =>
          (do emit (Log ERROR "Unexpected error" (lit (exn_name e))) then
           ret 1%Z) st'
      end.

End WithWorld.

End Main.

(** ** The specification's statements and concrete runs *)

Module Scenarios.

Import ContentProcessor.

(** Two patterns of the replacement table. *)
Definition two_spaces : str := [c_space; c_space].
Definition three_dots : str := lit "...".

(** A computation that never returns the exit code 0: it returns 1 or
    raises. *)
Definition never_zero (m : M State Z) : Prop :=
  forall st, fst (m st) = Ok 1%Z \/ exists e, fst (m st) = Raise e.

(** A statistics dictionary without the key file_size_mb, or none at all. *)
Definition lacks_size_mb (ebook_stats : option (gmap string pyval)) : Prop :=
  match ebook_stats with
  | None => True
  | Some d => d !! "file_size_mb"%string = None
  end.

(** Cleaning is idempotent at [text]. *)
Definition clean_idempotent_at (U : UnicodeData) (text : str) : Prop :=
  clean_vietnamese_text (clean_vietnamese_text text)
  = clean_vietnamese_text text.

(** The letters a and b with three spaces between them. *)
Definition a_3_spaces_b : str := lit "a   b".

(** A row that cleans to exactly ten characters, and rows around it. *)
Definition ten_chars : str := lit "  0123456789 ".
Definition nine_chars : str := lit "012345678".
Definition some_rows : list str :=
  [lit "Mot dong van ban binh thuong."; nine_chars; ten_chars].

(** Upper-case text that opens with U+0022. *)
Definition quoted_upper : str := [c_dquote] ++ lit "XIN CHAO" ++ [c_dquote].

(** The pool size the specification states: the least of the number of
    requested sheets, the available parallelism and the hard cap. *)
Definition stated_pool_size (requested parallelism cap : Z) : Z :=
  Z.min requested (Z.min parallelism cap).

(** The three content kinds of the specification's renderer contract each
    get a style of their own. *)
Definition style_per_kind (styles : gmap string StyleManager.ParagraphStyle)
  : Prop :=
  forall k1 k2,
    In k1 [dialog; paragraph; header] -> In k2 [dialog; paragraph; header] ->
    k1 <> k2 ->
    StyleManager.get_style styles (PDFGenerator.block_style_name k1)
    <> StyleManager.get_style styles (PDFGenerator.block_style_name k2).

(** The style sheet of a manager built on an empty sample sheet with the
    fallback font. *)
Definition helvetica_styles : gmap string StyleManager.ParagraphStyle :=
  match StyleManager.BusinessStyleManager ∅ "Helvetica" with
  | Ok styles => styles
  | Raise _ => ∅
  end.

(** A spreadsheet with the sheets A, B and C, where the reader finds rows
    in A and in C and none in B, and every collaborator works. *)
Definition sheet_A : str := lit "A".
Definition sheet_B : str := lit "B".
Definition sheet_C : str := lit "C".

Definition two_rows : list str :=
  [lit "Xin chao cac ban, day la dong thu nhat.";
   lit "Dong thu hai cua trang tinh nay."].

Definition world_ABC : World := {|
  credentials_exist := true;
  env_max_threads := 4;
  env_output_dir := lit "output";
  cpu_count := Some 8%Z;
  reader_init := Ok tt;
  spreadsheet_info := Ok (lit "Book", [sheet_A; sheet_B; sheet_C]);
  read_column_d := fun s => if bool_decide (s = sheet_B) then [] else two_rows;
  sample_styles := ∅;
  base_font := "Helvetica";
  paragraph_error := fun _ => None;
  doc_build := fun _ _ => Ok 1000;
  append_outline_item := fun _ => None;
  append_bookmark := fun _ => None;
  append_plain := fun _ => None;
  merger_write := fun _ => Ok 5000;
  pdf_reader := fun _ => Ok 7%nat
|}.

(** The same with the single sheet A, and a merged file whose pages cannot
    be read. *)
Definition world_A_unreadable : World := {|
  credentials_exist := true;
  env_max_threads := 4;
  env_output_dir := lit "output";
  cpu_count := Some 8%Z;
  reader_init := Ok tt;
  spreadsheet_info := Ok (lit "Book", [sheet_A]);
  read_column_d := fun _ => two_rows;
  sample_styles := ∅;
  base_font := "Helvetica";
  paragraph_error := fun _ => None;
  doc_build := fun _ _ => Ok 1000;
  append_outline_item := fun _ => None;
  append_bookmark := fun _ => None;
  append_plain := fun _ => None;
  merger_write := fun _ => Ok 5000;
  pdf_reader := fun _ => Raise PdfError
|}.

Definition args_all (requested : option (list str)) : Main.Args := {|
  Main.spreadsheet_id := lit "1BxiMVs";
  Main.output := lit "book.pdf";
  Main.sheets := requested;
  Main.threads := None;
  Main.verbose := false;
  Main.no_bookmarks := false
|}.

Definition empty_state : State := {| fs := ∅; out := [] |}.

Definition ebook_path : str := lit "output/final/book.pdf".

(** Every requested sheet has an entry in the scheduler's mapping. *)
Definition every_task_recorded (sheets : list str)
    (results : gmap (list N) (list N)) : Prop :=
  forall s, In s sheets -> is_Some (results !! s).

(** Sheet names that occur more than once are submitted as one task. *)
Definition one_task_per_name (sheets : list str) : Prop :=
  size (ThreadManager.future_to_sheet sheets) = length (remove_dups sheets).

(** The scheduler of [main], run by itself on [sheets] from the empty
    state. *)
Definition schedule (W : World) (sheets : list str) (completed : list nat)
  : result (gmap (list N) (list N)) * State :=
  ThreadManager.process_sheets_parallel 4 sheets
    (Main.sheet_task (U:=basic_latin) W helvetica_styles) completed
    empty_state.

(** The PDF file of a sheet whose task succeeds, and the files of the
    requested sheets whose tasks succeed, in the requested order. *)
Definition task_artifact {U : UnicodeData} (W : World)
    (styles : gmap string StyleManager.ParagraphStyle) (sheet_name : str)
  : option str :=
  match fst (Main.sheet_task W styles sheet_name empty_state) with
  | Ok (Some path) => if truthy path then Some path else None
  | _ => None
  end.

Definition successful_artifacts {U : UnicodeData} (W : World)
    (styles : gmap string StyleManager.ParagraphStyle) (sheets : list str)
  : list str :=
  omap (task_artifact W styles) sheets.

(** The entry of the merged file for one appended PDF. *)
Definition chapter_entry (add_bookmarks : bool) (pdf_file : str)
  : str * option str :=
  (pdf_file,
   if add_bookmarks then Some (PDFMerger._extract_chapter_name pdf_file)
   else None).

(** The three sheets, all with rows. *)
Definition world_ABC_full : World := {|
  credentials_exist := true;
  env_max_threads := 4;
  env_output_dir := lit "output";
  cpu_count := Some 8%Z;
  reader_init := Ok tt;
  spreadsheet_info := Ok (lit "Book", [sheet_A; sheet_B; sheet_C]);
  read_column_d := fun _ => two_rows;
  sample_styles := ∅;
  base_font := "Helvetica";
  paragraph_error := fun _ => None;
  doc_build := fun _ _ => Ok 1000;
  append_outline_item := fun _ => None;
  append_bookmark := fun _ => None;
  append_plain := fun _ => None;
  merger_write := fun _ => Ok 5000;
  pdf_reader := fun _ => Ok 7%nat
|}.

(** How many times the PDF generator was entered for [sheet_name]. *)
Definition generator_runs (sheet_name : str) (events : list event) : nat :=
  length (List.filter (fun e =>
    match e with
    | Log INFO message arg =>
        String.eqb message "Generating PDF" && bool_decide (arg = sheet_name)
    | _ => false
    end) events).

End Scenarios.

(** ** [src/sheets_reader.py] *)

Module SheetsReader.

Local Open Scope eff_scope.

(** [max_retries] of [read_column_d] *)
Definition max_retries : nat := 3.

(** The range asked for: the sheet name between apostrophes, then [!D:D]. *)
Definition range_name (sheet_name : str) : str :=
  [c_squote] ++ sheet_name ++ [c_squote] ++ lit "!D:D".

(** [[row[0] for row in values if row and len(row) > 0 and row[0].strip()]] *)
Definition first_cells (values : list (list str)) : list str :=
  flat_map (fun row =>
    match row with
    | [] => []
    | cell :: _ => if truthy (strip cell) then [cell] else []
    end) values.

Section WithService.

(** [service.spreadsheets().values().get(spreadsheetId=..., range=...)
    .execute()] at the attempt of the given number: the rows under the key
    of the values in the answer, [None] when the answer has no such key, or
    the failure raised. *)
Variable execute : str -> str -> nat -> result (option (list (list str))).

(** The body of the [try] block of one attempt.  The random delay before a
    retry is not modelled beyond the record logged for it. *)
Definition attempt_body (spreadsheet_id sheet_name : str) (attempt : nat)
  : M State (list str) :=
  do emit (Log INFO "Reading Column D" sheet_name) then
  do (if (0 <? attempt)%nat
      then emit (Log INFO "Retry, waiting" sheet_name)
      else ret tt) then
  let* result := lift (execute spreadsheet_id (range_name sheet_name) attempt) in
  let values := default [] result in
  let content_blocks := first_cells values in
  match content_blocks with
  | [] => do emit (Log WARNING "No content found in Column D" sheet_name) then
          ret []
  | _ :: _ => do emit (Log INFO "Retrieved content blocks" sheet_name) then
              ret content_blocks
  end.

(** [for attempt in range(max_retries)], from [attempt] on, with
    [remaining] iterations left; [return []] after the loop. *)
Fixpoint read_loop (spreadsheet_id sheet_name : str) (attempt remaining : nat)
  : M State (list str) :=
  match remaining with
  | O => ret []
  | S remaining' =>
      try_except (attempt_body spreadsheet_id sheet_name attempt)
        (fun e =>
           if (attempt =? max_retries - 1)%nat
           then do emit (Log ERROR "Failed to read" sheet_name) then ret []
           else do emit (Log WARNING "Attempt failed" sheet_name) then
                read_loop spreadsheet_id sheet_name (S attempt) remaining')
  end.

Definition read_column_d (spreadsheet_id sheet_name : str)
  : M State (list str) :=
  read_loop spreadsheet_id sheet_name 0 max_retries.

End WithService.

End SheetsReader.

(** ** Derived quantities and further concrete inputs *)

Module Derived.

Import ContentProcessor.

(** The sheets [main] processes: the requested names, or all names when
    none is requested, that the spreadsheet has. *)
Definition sheets_to_process (args : Main.Args) (sheet_names : list str)
  : list str :=
  List.filter (fun s => Main.elem s sheet_names)
    (match Main.sheets args with
     | Some ((_ :: _) as requested) => requested
     | _ => sheet_names
     end).

(** A computation that returns the exit code 0 or 1, or raises. *)
Definition exit_code_or_raise (m : M State Z) : Prop :=
  forall st, fst (m st) = Ok 0%Z \/ fst (m st) = Ok 1%Z \/
             exists e, fst (m st) = Raise e.

(** What [_sanitize_filename] makes of one character. *)
Definition safe_char (c : N) : N :=
  if PDFGenerator.unsafe_char c then c_underscore else c.

(** A service whose first two answers fail and whose third has rows. *)
Definition flaky_service (spreadsheet_id range : str) (attempt : nat)
  : result (option (list (list str))) :=
  match attempt with
  | 2%nat => Ok (Some [[lit "Dong thu nhat."]; []; [lit "  "]; [lit "Hai"; lit "x"]])
  | _ => Raise OSError
  end.

(** A sheet name with unsafe characters. *)
Definition slashed_name : str := lit "Chuong 1: Mo dau/ket_thuc?".

(** The texts of the paragraphs of a story, in order. *)
Definition paragraph_texts (story : list flowable) : list str :=
  flat_map (fun fl =>
    match fl with
    | Paragraph text _ => [text]
    | Spacer _ _ => []
    end) story.

(** The rows [process_sheet_content] makes a block of: those that are not
    blank and clean to at least [paragraph_min_length] characters. *)
Definition kept_row {U : UnicodeData} (raw_text : str) : bool :=
  truthy raw_text && truthy (strip raw_text) &&
  negb (length (clean_vietnamese_text raw_text) <? paragraph_min_length)%nat.

(** The characters the replacement table can put into a text. *)
Definition replacement_chars : list N :=
  [c_dquote; c_squote; c_em_dash; c_ellipsis; c_space].

(** The answer of the service at an attempt is a failure the reader
    catches. *)
Definition caught
    (execute : str -> str -> nat -> result (option (list (list str))))
    (spreadsheet_id sheet_name : str) (attempt : nat) : Prop :=
  exists e,
    execute spreadsheet_id (SheetsReader.range_name sheet_name) attempt
    = Raise e /\
    is_Exception e = true.


(** The file the task of a sheet writes when it succeeds: the rendered story
    of the sheet's blocks, at the path made of the sanitised sheet name. *)
Definition task_file {U : UnicodeData} (W : World)
    (styles : gmap string StyleManager.ParagraphStyle) (sheet_name : str)
  : option (str * file) :=
  let content_blocks :=
    fst (process_sheet_content (read_column_d W sheet_name)) in
  let output_path :=
    join (join (env_output_dir W) (lit "temp"))
      (PDFGenerator._sanitize_filename sheet_name ++ lit ".pdf") in
  match content_blocks with
  | [] => None
  | _ :: _ =>
      match PDFGenerator._build_story W styles sheet_name content_blocks with
      | Ok story =>
          match doc_build W output_path story with
          | Ok written =>
              Some (output_path,
                    {| nbytes := written;
                       doc := SheetPDF sheet_name story |})
          | Raise _ => None
          end
      | Raise _ => None
      end
  end.

(** Two sheets whose names differ after their fiftieth character only, with
    different rows. *)
Definition long_prefix : str := repeat 120%N 50.
Definition sheet_long_1 : str := long_prefix ++ lit "1".
Definition sheet_long_2 : str := long_prefix ++ lit "2".
Definition long_path : str := lit "output/temp/" ++ long_prefix ++ lit ".pdf".

Definition world_long : World := {|
  credentials_exist := true;
  env_max_threads := 4;
  env_output_dir := lit "output";
  cpu_count := Some 8%Z;
  reader_init := Ok tt;
  spreadsheet_info := Ok (lit "Book", [sheet_long_1; sheet_long_2]);
  read_column_d := fun s =>
    if bool_decide (s = sheet_long_1)
    then [lit "Noi dung cua trang tinh thu nhat."]
    else [lit "Noi dung cua trang tinh thu hai."];
  sample_styles := ∅;
  base_font := "Helvetica";
  paragraph_error := fun _ => None;
  doc_build := fun _ _ => Ok 1000;
  append_outline_item := fun _ => None;
  append_bookmark := fun _ => None;
  append_plain := fun _ => None;
  merger_write := fun _ => Ok 5000;
  pdf_reader := fun _ => Ok 7%nat
|}.

(** The chapter order of the specification: the chapters of the merged
    ebook are the rendered files of the requested sheets, each holding the
    content of its own sheet. *)
Definition chapter_holds (st : State) (pdf_file sheet_name : str) : Prop :=
  exists n story,
    fs st !! pdf_file
    = Some {| nbytes := n; doc := SheetPDF sheet_name story |}.

(** The names of the styles [_create_business_styles] adds. *)
Definition business_style_names : list string :=
  ["BusinessChapter"; "BusinessBody"; "BusinessDialog"; "BusinessFirst"]%string.

End Derived.

(** * Properties *)

(** ** Python string operations *)

Module PyFacts.

Lemma startswith_app (p s t : str) :
  startswith p s = true -> startswith p (s ++ t) = true.
Proof.
  revert s; induction p as [|a p IH]; intros [|b s]; simpl; try easy.
  intros H; apply andb_true_iff in H as [Hab Hp].
  rewrite Hab; simpl; auto.
Qed.

Lemma startswith_self_app (p t : str) : startswith p (p ++ t) = true.
Proof.
  induction p as [|a p IH]; simpl; [reflexivity|].
  rewrite N.eqb_refl; exact IH.
Qed.

Lemma startswith_spec (p s : str) :
  startswith p s = true <-> exists t, s = p ++ t.
Proof.
  split.
  - revert s; induction p as [|a p IH]; intros s H.
    + exists s; reflexivity.
    + destruct s as [|b s]; simpl in H; [discriminate|].
      apply andb_true_iff in H as [Hab Hp].
      apply N.eqb_eq in Hab; subst b.
      destruct (IH _ Hp) as [t ->]. exists t; reflexivity.
  - intros [t ->]; apply startswith_self_app.
Qed.

Lemma startswith_length (p s : str) :
  startswith p s = true -> (length p <= length s)%nat.
Proof.
  intros H; apply startswith_spec in H as [t ->].
  rewrite length_app; lia.
Qed.

Lemma contains_startswith (p s : str) :
  startswith p s = true -> contains p s = true.
Proof. intros H; destruct s; simpl; rewrite H; reflexivity. Qed.

(** [contains p s] holds exactly when [p] is an infix of [s]. *)
Lemma contains_spec (p s : str) :
  contains p s = true <-> exists a b, s = a ++ p ++ b.
Proof.
  split.
  - induction s as [|x s IH]; simpl; intros H.
    + apply orb_true_iff in H as [H|H]; [|discriminate].
      apply startswith_spec in H as [t Ht]. exists [], t; exact Ht.
    + apply orb_true_iff in H as [H|H].
      * apply startswith_spec in H as [t Ht]. exists [], t; exact Ht.
      * destruct (IH H) as (a & b & ->). exists (x :: a), b; reflexivity.
  - intros (a & b & ->).
    induction a as [|x a IH]; simpl.
    + apply contains_startswith, startswith_self_app.
    + rewrite IH; apply orb_true_r.
Qed.

Lemma contains_trans (q p s : str) :
  contains q p = true -> contains p s = true -> contains q s = true.
Proof.
  intros Hq Hp.
  apply contains_spec in Hq as (a & b & ->).
  apply contains_spec in Hp as (c & d & ->).
  apply contains_spec. exists (c ++ a), (b ++ d).
  rewrite <- !app_assoc; reflexivity.
Qed.

Lemma contains_cons_false (p : str) (x : N) (s : str) :
  contains p (x :: s) = false ->
  startswith p (x :: s) = false /\ contains p s = false.
Proof. simpl; intros H; apply orb_false_iff in H; exact H. Qed.

Lemma has_char_In (c : N) (s : str) : has_char c s = true <-> In c s.
Proof.
  unfold has_char; rewrite existsb_exists; split.
  - intros (x & Hx & E); apply N.eqb_eq in E; subst; exact Hx.
  - intros H; exists c; split; [exact H | apply N.eqb_refl].
Qed.

Lemma contains_single (c : N) (s : str) :
  contains [c] s = true <-> In c s.
Proof.
  rewrite contains_spec; split.
  - intros (a & b & ->); apply in_or_app; right; left; reflexivity.
  - intros H; apply in_split in H as (a & b & ->); exists a, b; reflexivity.
Qed.

(** *** [replace] *)

Lemma replace_go_same_char (c : N) (s : str) :
  replace_go [c] [c] 0 s = s.
Proof.
  induction s as [|x s IH]; [reflexivity|].
  cbn [replace_go length Nat.pred].
  destruct (startswith [c] (x :: s)) eqn:E.
  - simpl in E; rewrite andb_true_r in E; apply N.eqb_eq in E; subst x.
    simpl; rewrite IH; reflexivity.
  - rewrite IH; reflexivity.
Qed.

(** Where [old] does not occur, [replace] changes nothing. *)
Lemma replace_go_absent (old new s : str) :
  contains old s = false -> replace_go old new 0 s = s.
Proof.
  induction s as [|x s IH]; intros H; [reflexivity|].
  apply contains_cons_false in H as [Hs Hc].
  cbn [replace_go]; rewrite Hs, (IH Hc); reflexivity.
Qed.

Lemma replace_absent (old new s : str) :
  old <> [] -> contains old s = false -> replace old new s = s.
Proof.
  intros Hne H; destruct old as [|a old]; [contradiction|].
  apply replace_go_absent; exact H.
Qed.

(** Every character of the result comes from the text or from [new]. *)
Lemma replace_go_In (old new : str) (c : N) (s : str) (k : nat) :
  In c (replace_go old new k s) -> In c s \/ In c new.
Proof.
  revert k; induction s as [|x s IH]; intros k H; [contradiction|].
  cbn [replace_go] in H; destruct k as [|k].
  - destruct (startswith old (x :: s)).
    + apply in_app_or in H as [H|H]; [right; exact H|].
      destruct (IH _ H); [left; right|right]; assumption.
    + destruct H as [->|H]; [left; left; reflexivity|].
      destruct (IH _ H); [left; right|right]; assumption.
  - destruct (IH _ H); [left; right|right]; assumption.
Qed.

(** Replacing a character removes every occurrence of it. *)
Lemma replace_go_char_gone (a : N) (new s : str) :
  ~ In a new -> ~ In a (replace_go [a] new 0 s).
Proof.
  intros Hn; induction s as [|x s IH]; [easy|].
  cbn [replace_go length Nat.pred].
  destruct (startswith [a] (x :: s)) eqn:E.
  - intros H; apply in_app_or in H as [H|H]; [exact (Hn H) | exact (IH H)].
  - simpl in E; rewrite andb_true_r in E; apply N.eqb_neq in E.
    intros [H|H]; [congruence | exact (IH H)].
Qed.

(** With a one-character [new] that is not in [p], a result that starts with
    [p] comes from a text that starts with [p]. *)
Lemma startswith_replace_go (old p : str) (n : N) (s : str) :
  ~ In n p ->
  startswith p (replace_go old [n] 0 s) = true -> startswith p s = true.
Proof.
  revert s; induction p as [|a p IH]; intros s Hn H; [reflexivity|].
  destruct s as [|x s]; [simpl in H; discriminate|].
  cbn [replace_go] in H.
  destruct (startswith old (x :: s)).
  - simpl in H. apply andb_true_iff in H as [E _].
    apply N.eqb_eq in E; subst n. exfalso; apply Hn; left; reflexivity.
  - simpl in H; simpl. apply andb_true_iff in H as [E H].
    rewrite E; simpl. apply IH; [|exact H].
    intros Hin; apply Hn; right; exact Hin.
Qed.

(** Replacing every occurrence of [p], from the left, by one character that
    is not in [p] leaves no occurrence of [p]. *)
Lemma replace_go_removes (p : str) (n : N) (s : str) (k : nat) :
  p <> [] -> ~ In n p ->
  contains p (replace_go p [n] k s) = false.
Proof.
  intros Hne Hn; revert k; induction s as [|x s IH]; intros k.
  - destruct p; [contradiction|reflexivity].
  - cbn [replace_go]; destruct k as [|k]; [|apply IH].
    destruct (startswith p (x :: s)) eqn:E.
    + cbn [app contains]. rewrite IH, orb_false_r.
      destruct p as [|a p]; [contradiction|]. simpl.
      destruct (N.eqb_spec a n) as [->|_]; [|reflexivity].
      exfalso; apply Hn; left; reflexivity.
    + cbn [contains]. rewrite IH, orb_false_r.
      destruct p as [|a p]; [contradiction|].
      simpl in E; simpl.
      destruct (a =? x); [|reflexivity]. simpl in E; simpl.
      destruct (startswith p (replace_go (a :: p) [n] 0 s)) eqn:E2;
        [|reflexivity].
      apply startswith_replace_go in E2; [congruence|].
      intros Hin; apply Hn; right; exact Hin.
Qed.

(** A pattern that avoids the inserted character and is absent from the text
    is absent from the result. *)
Lemma replace_go_preserves_absent (old p : str) (n : N) (s : str) (k : nat) :
  p <> [] -> ~ In n p ->
  contains p s = false -> contains p (replace_go old [n] k s) = false.
Proof.
  intros Hne Hn; revert k; induction s as [|x s IH]; intros k H.
  - destruct p; [contradiction|reflexivity].
  - apply contains_cons_false in H as [Hs Hc].
    cbn [replace_go]; destruct k as [|k]; [|apply IH; exact Hc].
    destruct (startswith old (x :: s)).
    + cbn [app contains]. rewrite (IH _ Hc), orb_false_r.
      destruct p as [|a p]; [contradiction|]. simpl.
      destruct (N.eqb_spec a n) as [->|_]; [|reflexivity].
      exfalso; apply Hn; left; reflexivity.
    + cbn [contains]. rewrite (IH _ Hc), orb_false_r.
      destruct p as [|a p]; [contradiction|].
      simpl in Hs; simpl.
      destruct (a =? x); [|reflexivity]. simpl in Hs; simpl.
      destruct (startswith p (replace_go old [n] 0 s)) eqn:E2; [|reflexivity].
      apply startswith_replace_go in E2; [congruence|].
      intros Hin; apply Hn; right; exact Hin.
Qed.

(** [replace] does not lengthen the text when [new] is no longer than
    [old], and shortens it where a longer [old] occurs. *)
Lemma replace_go_length_le (old new s : str) (k : nat) :
  (length new <= length old)%nat -> (k <= length s)%nat ->
  (length (replace_go old new k s) + k <= length s)%nat.
Proof.
  intros Hlen; revert k; induction s as [|x s IH]; intros k Hk.
  - simpl in *; lia.
  - cbn [replace_go]; destruct k as [|k].
    + destruct (startswith old (x :: s)) eqn:E.
      * apply startswith_length in E. simpl in E.
        rewrite length_app.
        specialize (IH (Nat.pred (length old))). simpl. lia.
      * specialize (IH 0%nat). simpl. lia.
    + specialize (IH k). simpl in *. lia.
Qed.

Lemma replace_go_length_le0 (old new s : str) :
  (length new <= length old)%nat ->
  (length (replace_go old new 0 s) <= length s)%nat.
Proof.
  intros H. pose proof (replace_go_length_le old new s 0 H). lia.
Qed.

Lemma replace_go_length_lt (old new s : str) :
  (length new < length old)%nat -> contains old s = true ->
  (length (replace_go old new 0 s) < length s)%nat.
Proof.
  intros Hlen; induction s as [|x s IH]; intros H.
  - simpl in H. rewrite orb_false_r in H.
    apply startswith_length in H. simpl in H. lia.
  - cbn [replace_go]. destruct (startswith old (x :: s)) eqn:E.
    + apply startswith_length in E. simpl in E.
      rewrite length_app.
      pose proof (replace_go_length_le old new s (Nat.pred (length old))).
      simpl. lia.
    + simpl in H. simpl in E. rewrite E in H. simpl in H.
      specialize (IH H). simpl. lia.
Qed.

(** *** [strip] *)

Lemma rstrip_cons_nonspace (c : N) (s : str) :
  isspace c = false -> rstrip (c :: s) = c :: rstrip s.
Proof. intros H; cbn [rstrip]; rewrite H; destruct (rstrip s); reflexivity. Qed.

Lemma rstrip_idem (s : str) : rstrip (rstrip s) = rstrip s.
Proof.
  induction s as [|x s IH]; [reflexivity|].
  cbn [rstrip]. destruct (rstrip s) as [|y r] eqn:E.
  - destruct (isspace x) eqn:Ex; [reflexivity|].
    cbn [rstrip]; rewrite Ex; reflexivity.
  - cbn [rstrip]. cbn [rstrip] in IH.
    destruct (rstrip r) as [|z r'] eqn:Er.
    + destruct (isspace y) eqn:Ey; [discriminate|].
      injection IH as <-. reflexivity.
    + injection IH as <-. reflexivity.
Qed.

Lemma lstrip_head (s : str) :
  lstrip s = [] \/ exists c r, lstrip s = c :: r /\ isspace c = false.
Proof.
  induction s as [|x s IH]; [left; reflexivity|].
  cbn [lstrip]. destruct (isspace x) eqn:E; [exact IH|].
  right; exists x, s; split; [reflexivity | exact E].
Qed.

Lemma lstrip_cons_nonspace (c : N) (s : str) :
  isspace c = false -> lstrip (c :: s) = c :: s.
Proof. intros H; cbn [lstrip]; rewrite H; reflexivity. Qed.

Lemma strip_cons_nonspace (c : N) (s : str) :
  isspace c = false -> strip (c :: s) = c :: rstrip s.
Proof.
  intros H; unfold strip.
  rewrite (lstrip_cons_nonspace _ _ H). apply rstrip_cons_nonspace, H.
Qed.

Lemma strip_idem (s : str) : strip (strip s) = strip s.
Proof.
  unfold strip. destruct (lstrip_head s) as [->|(c & r & -> & Hc)].
  - reflexivity.
  - rewrite (rstrip_cons_nonspace _ _ Hc), (lstrip_cons_nonspace _ _ Hc).
    rewrite (rstrip_cons_nonspace _ _ Hc), rstrip_idem; reflexivity.
Qed.

Lemma lstrip_suffix (s : str) : exists a, s = a ++ lstrip s.
Proof.
  induction s as [|x s [a IH]]; [exists []; reflexivity|].
  cbn [lstrip]. destruct (isspace x).
  - exists (x :: a); simpl; rewrite <- IH; reflexivity.
  - exists []; reflexivity.
Qed.

Lemma rstrip_prefix (s : str) : exists b, s = rstrip s ++ b.
Proof.
  induction s as [|x s [b IH]]; [exists []; reflexivity|].
  cbn [rstrip]. destruct (rstrip s) as [|y r] eqn:E.
  - destruct (isspace x).
    + exists (x :: s); reflexivity.
    + exists b; simpl; rewrite IH at 1; reflexivity.
  - exists b; simpl; rewrite IH at 1; reflexivity.
Qed.

(** The stripped text is an infix of the text. *)
Lemma strip_infix (s : str) : exists a b, s = a ++ strip s ++ b.
Proof.
  destruct (lstrip_suffix s) as [a Ha].
  destruct (rstrip_prefix (lstrip s)) as [b Hb].
  exists a, b. unfold strip. rewrite <- Hb; exact Ha.
Qed.

Lemma contains_strip (p s : str) :
  contains p (strip s) = true -> contains p s = true.
Proof.
  intros H; apply contains_spec in H as (c & d & E).
  destruct (strip_infix s) as (a & b & Hs).
  apply contains_spec. exists (a ++ c), (d ++ b).
  rewrite Hs at 1. rewrite E, <- !app_assoc. reflexivity.
Qed.

Lemma In_strip (c : N) (s : str) : In c (strip s) -> In c s.
Proof.
  intros H. destruct (strip_infix s) as (a & b & Hs). rewrite Hs.
  apply in_or_app; right; apply in_or_app; left; exact H.
Qed.

Lemma strip_length (s : str) : (length (strip s) <= length s)%nat.
Proof.
  destruct (strip_infix s) as (a & b & Hs). rewrite Hs at 2.
  rewrite !length_app; lia.
Qed.

(** Blank text strips to the empty string. *)
Lemma lstrip_blank (s : str) : forallb isspace s = true -> lstrip s = [].
Proof.
  induction s as [|x s IH]; [reflexivity|]. simpl.
  intros H; apply andb_true_iff in H as [Hx Hs]. rewrite Hx; auto.
Qed.

Lemma strip_blank (s : str) : forallb isspace s = true -> strip s = [].
Proof. intros H; unfold strip; rewrite (lstrip_blank _ H); reflexivity. Qed.

(** Text that strips to the empty string is blank. *)
Lemma strip_nil_blank (s : str) : strip s = [] -> forallb isspace s = true.
Proof.
  induction s as [|x s IH]; [reflexivity|].
  destruct (isspace x) eqn:E.
  - unfold strip in *. cbn [lstrip]. rewrite E. simpl. rewrite E. exact IH.
  - rewrite (strip_cons_nonspace _ _ E). discriminate.
Qed.

End PyFacts.

(** ** The content processor *)

Module ContentFacts.

Import ContentProcessor PyFacts Scenarios.

Lemma apply_replacements_eq (text : str) :
  apply_replacements replacements text =
  replace_go two_spaces [c_space] 0
    (replace_go three_dots [c_ellipsis] 0
      (replace_go [c_en_dash] [c_em_dash] 0
        (replace_go triple_quoted_key [c_squote] 0
          (replace_go [c_dquote] [c_dquote] 0 text)))).
Proof. reflexivity. Qed.

(** On text without two adjacent spaces, en dash and three dots, the table
    changes nothing. *)
Lemma apply_replacements_fixed (t : str) :
  contains two_spaces t = false ->
  ~ In c_en_dash t ->
  contains three_dots t = false ->
  apply_replacements replacements t = t.
Proof.
  intros Hsp Hen Hdots. rewrite apply_replacements_eq.
  rewrite replace_go_same_char.
  rewrite (replace_go_absent triple_quoted_key).
  2:{ destruct (contains triple_quoted_key t) eqn:E; [|reflexivity].
      rewrite <- Hsp. symmetry.
      apply (contains_trans _ triple_quoted_key); [reflexivity | exact E]. }
  rewrite (replace_go_absent [c_en_dash]).
  2:{ destruct (contains [c_en_dash] t) eqn:E; [|reflexivity].
      apply contains_single in E. contradiction. }
  rewrite (replace_go_absent three_dots) by exact Hdots.
  apply replace_go_absent; exact Hsp.
Qed.

(** The table never lengthens the text. *)
Lemma apply_replacements_length (t : str) :
  (length (apply_replacements replacements t) <= length t)%nat.
Proof.
  rewrite apply_replacements_eq, replace_go_same_char.
  etransitivity; [apply replace_go_length_le0; vm_compute; lia|].
  etransitivity; [apply replace_go_length_le0; vm_compute; lia|].
  etransitivity; [apply replace_go_length_le0; vm_compute; lia|].
  apply replace_go_length_le0; vm_compute; lia.
Qed.

(** It shortens text that holds two adjacent spaces and neither en dash nor
    three dots. *)
Lemma apply_replacements_length_lt (t : str) :
  ~ In c_en_dash t -> contains three_dots t = false ->
  contains two_spaces t = true ->
  (length (apply_replacements replacements t) < length t)%nat.
Proof.
  intros Hen Hdots Hsp.
  rewrite apply_replacements_eq, replace_go_same_char.
  destruct (contains triple_quoted_key t) eqn:E2.
  - eapply Nat.le_lt_trans; [apply replace_go_length_le0; vm_compute; lia|].
    eapply Nat.le_lt_trans; [apply replace_go_length_le0; vm_compute; lia|].
    eapply Nat.le_lt_trans; [apply replace_go_length_le0; vm_compute; lia|].
    apply replace_go_length_lt; [vm_compute; lia | exact E2].
  - rewrite (replace_go_absent triple_quoted_key) by exact E2.
    rewrite (replace_go_absent [c_en_dash]).
    2:{ destruct (contains [c_en_dash] t) eqn:E; [|reflexivity].
        apply contains_single in E. contradiction. }
    rewrite (replace_go_absent three_dots) by exact Hdots.
    apply replace_go_length_lt; [vm_compute; lia | exact Hsp].
Qed.

(** The result of the table holds no en dash and no three dots in a row. *)
Lemma apply_replacements_no_en_dash (t : str) :
  ~ In c_en_dash (apply_replacements replacements t).
Proof.
  rewrite apply_replacements_eq. intros H.
  apply replace_go_In in H as [H|H].
  2:{ simpl in H; destruct H as [H|[]]; discriminate. }
  apply replace_go_In in H as [H|H].
  2:{ simpl in H; destruct H as [H|[]]; discriminate. }
  revert H. apply replace_go_char_gone.
  simpl; intros [H|[]]; discriminate.
Qed.

Lemma apply_replacements_no_dots (t : str) :
  contains three_dots (apply_replacements replacements t) = false.
Proof.
  rewrite apply_replacements_eq.
  apply replace_go_preserves_absent.
  - discriminate.
  - simpl; intros [H|[H|[H|[]]]]; discriminate.
  - apply replace_go_removes.
    + discriminate.
    + simpl; intros [H|[H|[H|[]]]]; discriminate.
Qed.

(** Blank text holds no pattern with a character that is not whitespace. *)
Lemma blank_absent (p s : str) (c : N) :
  forallb isspace s = true -> In c p -> isspace c = false ->
  contains p s = false.
Proof.
  intros Hs Hc Hn. destruct (contains p s) eqn:E; [|reflexivity].
  assert (In c s) as Hin.
  { apply contains_single. apply (contains_trans _ p); [|exact E].
    apply contains_single; exact Hc. }
  rewrite forallb_forall in Hs. rewrite (Hs _ Hin) in Hn. discriminate.
Qed.

Lemma apply_replacements_blank (t : str) :
  forallb isspace t = true ->
  forallb isspace (apply_replacements replacements t) = true.
Proof.
  intros Hb. rewrite apply_replacements_eq, replace_go_same_char.
  rewrite (replace_go_absent triple_quoted_key)
    by (apply (blank_absent _ _ 58); [exact Hb | vm_compute; tauto | reflexivity]).
  rewrite (replace_go_absent [c_en_dash])
    by (apply (blank_absent _ _ c_en_dash); [exact Hb | left; reflexivity | reflexivity]).
  rewrite (replace_go_absent three_dots)
    by (apply (blank_absent _ _ c_dot); [exact Hb | left; reflexivity | reflexivity]).
  apply forallb_forall. intros c Hc.
  apply replace_go_In in Hc as [Hc|Hc].
  - rewrite forallb_forall in Hb; auto.
  - simpl in Hc; destruct Hc as [<-|[]]; reflexivity.
Qed.

Section WithUnicode.
Context {U : UnicodeData}.

Lemma clean_nil : clean_vietnamese_text [] = [].
Proof. reflexivity. Qed.

Lemma clean_cons (x : N) (s : str) :
  clean_vietnamese_text (x :: s) =
  strip (apply_replacements replacements (normalize_NFC (x :: s))).
Proof. reflexivity. Qed.

Lemma clean_strip_fixed (text : str) :
  strip (clean_vietnamese_text text) = clean_vietnamese_text text.
Proof. destruct text; [reflexivity|]. rewrite clean_cons. apply strip_idem. Qed.

Lemma clean_no_en_dash (text : str) :
  ~ In c_en_dash (clean_vietnamese_text text).
Proof.
  destruct text; [easy|]. rewrite clean_cons. intros H.
  apply In_strip in H. revert H. apply apply_replacements_no_en_dash.
Qed.

Lemma clean_no_dots (text : str) :
  contains three_dots (clean_vietnamese_text text) = false.
Proof.
  destruct text; [reflexivity|]. rewrite clean_cons.
  destruct (contains three_dots (strip _)) eqn:E; [|reflexivity].
  apply contains_strip in E. rewrite apply_replacements_no_dots in E.
  discriminate.
Qed.

(** Cleaning text that NFC leaves unchanged shortens it when it holds two
    adjacent spaces and neither en dash nor three dots. *)
Lemma clean_length_lt (t : str) :
  normalize_NFC t = t ->
  ~ In c_en_dash t -> contains three_dots t = false ->
  contains two_spaces t = true ->
  (length (clean_vietnamese_text t) < length t)%nat.
Proof.
  intros Hn Hen Hdots Hsp.
  destruct t as [|x t']; [discriminate|]. rewrite clean_cons, Hn.
  eapply Nat.le_lt_trans; [apply strip_length|].
  apply apply_replacements_length_lt; assumption.
Qed.

(** Blank rows clean to the empty string, when NFC keeps blank text blank. *)
Lemma clean_blank (raw : str) :
  (forall t, forallb isspace t = true ->
             forallb isspace (normalize_NFC t) = true) ->
  forallb isspace raw = true -> clean_vietnamese_text raw = [].
Proof.
  intros Hnfc Hb. destruct raw; [reflexivity|]. rewrite clean_cons.
  apply strip_blank, apply_replacements_blank, Hnfc, Hb.
Qed.

End WithUnicode.

End ContentFacts.

(** ** Rows and blocks *)

Module RowFacts.

Import ContentProcessor PyFacts ContentFacts.

Section WithUnicode.
Context {U : UnicodeData}.

Lemma process_row_Some (i : nat) (raw : str) (b : block) :
  process_row i raw = Some b ->
  original_index b = i /\ content b = clean_vietnamese_text raw /\
  (paragraph_min_length <= length (clean_vietnamese_text raw))%nat.
Proof.
  unfold process_row.
  destruct (negb (truthy raw) || negb (truthy (strip raw))); [discriminate|].
  destruct (length (clean_vietnamese_text raw) <? paragraph_min_length)%nat
    eqn:E; [discriminate|].
  intros [= <-]. apply Nat.ltb_ge in E. auto.
Qed.

Lemma process_row_short (i : nat) (raw : str) :
  (length (clean_vietnamese_text raw) < paragraph_min_length)%nat ->
  process_row i raw = None.
Proof.
  intros H. unfold process_row.
  destruct (negb (truthy raw) || negb (truthy (strip raw))); [reflexivity|].
  apply Nat.ltb_lt in H. rewrite H. reflexivity.
Qed.

(** The blocks of a sheet are the blocks of its rows. *)
Lemma process_rows_In (k : nat) (rows : list str) (b : block) :
  In b (process_rows k rows) <->
  exists j raw, rows !! j = Some raw /\ process_row (k + j) raw = Some b.
Proof.
  revert k; induction rows as [|raw0 rest IH]; intros k.
  - simpl. split; [contradiction|]. intros (j & raw & H & _).
    destruct j; discriminate.
  - cbn [process_rows]. split.
    + intros H.
      assert (In b (process_rows (S k) rest) ->
              exists j raw, (raw0 :: rest) !! j = Some raw /\
                            process_row (k + j) raw = Some b) as Hrest.
      { intros Hin. apply IH in Hin as (j & raw & Hj & Hb).
        exists (S j), raw. split; [exact Hj|].
        rewrite Nat.add_succ_r. exact Hb. }
      destruct (process_row k raw0) as [b0|] eqn:E; [|auto].
      destruct H as [<-|H]; [|auto].
      exists 0%nat, raw0. rewrite Nat.add_0_r. auto.
    + intros (j & raw & Hj & Hb). destruct j as [|j].
      * injection Hj as ->. rewrite Nat.add_0_r in Hb. rewrite Hb.
        left; reflexivity.
      * assert (In b (process_rows (S k) rest)) as Hin.
        { apply IH. exists j, raw. split; [exact Hj|].
          rewrite Nat.add_succ_r in Hb. exact Hb. }
        destruct (process_row k raw0); [right|]; exact Hin.
Qed.

End WithUnicode.

End RowFacts.

(** ** The specification's statements about the content processor *)

Import ContentProcessor PyFacts ContentFacts RowFacts Scenarios.

(** Claim C5, as stated, fails: cleaning the text a, three spaces, b gives
    a, two spaces, b, and cleaning that again gives a, one space, b. *)
Lemma C5_three_spaces_not_idempotent :
  ~ clean_idempotent_at basic_latin a_3_spaces_b.
Proof. unfold clean_idempotent_at. vm_compute. discriminate. Qed.

(** Claim C5, amended: when the cleaned text is unchanged by NFC
    normalisation, cleaning it again gives the same text exactly when it
    holds no two adjacent spaces.  The double-space entry of the table
    halves a run of spaces once per pass; the other entries never apply to
    cleaned text that has no two adjacent spaces. *)
Theorem C5_clean_idempotent_iff (U : UnicodeData) (text : str) :
  normalize_NFC (clean_vietnamese_text text) = clean_vietnamese_text text ->
  clean_idempotent_at U text <->
  contains two_spaces (clean_vietnamese_text text) = false.
Proof.
  intros Hnfc. unfold clean_idempotent_at.
  set (t := clean_vietnamese_text text) in *.
  assert (strip t = t) as Hstrip by apply clean_strip_fixed.
  assert (~ In c_en_dash t) as Hen by apply clean_no_en_dash.
  assert (contains three_dots t = false) as Hdots by apply clean_no_dots.
  split.
  - intros Hidem. destruct (contains two_spaces t) eqn:E; [|reflexivity].
    pose proof (clean_length_lt t Hnfc Hen Hdots E) as Hlt.
    rewrite Hidem in Hlt. lia.
  - intros Hsp. destruct t as [|x t'] eqn:Et; [reflexivity|].
    rewrite clean_cons, Hnfc.
    rewrite apply_replacements_fixed by assumption. exact Hstrip.
Qed.

Lemma C5_clean_idempotent_iff_witness :
  clean_idempotent_at basic_latin (lit " Xin  chao... ") <->
  contains two_spaces
    (clean_vietnamese_text (U:=basic_latin) (lit " Xin  chao... ")) = false.
Proof.
  apply (C5_clean_idempotent_iff basic_latin (lit " Xin  chao... ")).
  reflexivity.
Defined.

(** Claim C7: a row whose cleaned text is shorter than the minimum length of
    10 characters gives no block, a row whose cleaned text has exactly the
    minimum length gives a block with that text, and the processing of a
    sheet with rows logs neither an error nor a warning.  The boundary case
    uses that NFC normalisation keeps blank text blank. *)
Theorem C7_minimum_length (U : UnicodeData) (rows : list str) (i : nat)
    (raw : str) :
  (forall t, forallb isspace t = true ->
             forallb isspace (normalize_NFC t) = true) ->
  rows !! i = Some raw ->
  paragraph_min_length = 10%nat /\
  ((length (clean_vietnamese_text raw) < paragraph_min_length)%nat ->
   forall b, In b (fst (process_sheet_content rows)) -> original_index b <> i) /\
  (length (clean_vietnamese_text raw) = paragraph_min_length ->
   exists b, In b (fst (process_sheet_content rows)) /\
             original_index b = i /\
             content b = clean_vietnamese_text raw) /\
  (forall level message,
     In (level, message) (snd (process_sheet_content rows)) ->
     level = INFO).
Proof.
  intros Hblank Hi.
  assert (process_sheet_content rows =
          (process_rows 0 rows,
           [(INFO, msg_processed (length (process_rows 0 rows)))])) as Hp.
  { destruct rows; [discriminate|reflexivity]. }
  rewrite Hp. cbn [fst snd].
  split; [reflexivity|]. split; [|split].
  - intros Hshort b Hb Hidx.
    apply process_rows_In in Hb as (j & raw' & Hj & Hrow).
    pose proof (process_row_Some _ _ _ Hrow) as (Ho & _ & _).
    simpl in Ho. assert (j = i) by congruence. subst j.
    assert (raw' = raw) by congruence. subst raw'.
    rewrite (process_row_short _ _ Hshort) in Hrow. discriminate.
  - intros Hlen.
    assert (process_row i raw <> None) as Hne.
    { unfold process_row.
      destruct raw as [|x raw']; [rewrite clean_nil in Hlen; discriminate|].
      cbn [truthy negb orb].
      destruct (strip (x :: raw')) as [|y r] eqn:Es.
      - apply strip_nil_blank in Es.
        rewrite (clean_blank _ Hblank Es) in Hlen. discriminate.
      - cbn [truthy negb]. rewrite Hlen.
        rewrite Nat.ltb_irrefl. discriminate. }
    destruct (process_row i raw) as [b|] eqn:Hrow; [|contradiction].
    exists b. pose proof (process_row_Some _ _ _ Hrow) as (Ho & Hc & _).
    split; [|auto]. apply process_rows_In. exists i, raw. auto.
  - intros level message [H|[]]. congruence.
Qed.

Lemma C7_minimum_length_witness :
  some_rows !! 2%nat = Some ten_chars /\
  exists b, In b (fst (process_sheet_content (U:=basic_latin) some_rows)) /\
            original_index b = 2%nat /\
            content b = clean_vietnamese_text (U:=basic_latin) ten_chars.
Proof.
  split; [reflexivity|].
  apply (C7_minimum_length basic_latin some_rows 2 ten_chars);
    [intros t Ht; exact Ht | reflexivity | reflexivity].
Defined.

(** ** The style sheet and the story *)

Module StyleFacts.

Import StyleManager PDFGenerator.

Local Open Scope string_scope.

Lemma rbind_Ok {A B} (r : result A) (k : A -> result B) (b : B) :
  rbind r k = Ok b -> exists a, r = Ok a /\ k a = Ok b.
Proof. destruct r as [a|e]; simpl; [eauto | discriminate]. Qed.

Lemma add_Ok (styles styles' : gmap string ParagraphStyle) (st : ParagraphStyle) :
  add styles st = Ok styles' ->
  styles !! name st = None /\ styles' = <[name st := st]> styles.
Proof.
  unfold add. destruct (styles !! name st); [discriminate|].
  intros [= <-]. auto.
Qed.

(** What [_create_business_styles] adds to the sheet. *)
Lemma create_business_styles_Ok (sample styles : gmap string ParagraphStyle)
    (base_font : string) :
  _create_business_styles sample base_font = Ok styles ->
  exists bold_font italic_font,
    styles !! "BusinessChapter" = Some (BusinessChapter bold_font) /\
    styles !! "BusinessBody" = Some (BusinessBody base_font) /\
    styles !! "BusinessDialog"
      = Some (BusinessDialog (BusinessBody base_font) italic_font).
Proof.
  unfold _create_business_styles.
  set (bold_font := if String.eqb base_font "Helvetica" then _ else _).
  set (italic_font := if String.eqb base_font "Helvetica" then _ else _).
  intros H.
  apply rbind_Ok in H as (s1 & H1 & H). apply add_Ok in H1 as [_ ->].
  apply rbind_Ok in H as (s2 & H2 & H). apply add_Ok in H2 as [_ ->].
  apply rbind_Ok in H as (body & Hb & H).
  unfold getitem in Hb. simpl name in Hb.
  rewrite lookup_insert_eq in Hb. injection Hb as <-.
  apply rbind_Ok in H as (s3 & H3 & H). apply add_Ok in H3 as [_ ->].
  apply rbind_Ok in H as (body' & _ & H). apply add_Ok in H as [_ ->].
  exists bold_font, italic_font. simpl name.
  repeat split.
  - rewrite !lookup_insert_ne by discriminate. apply lookup_insert_eq.
  - rewrite !lookup_insert_ne by discriminate. apply lookup_insert_eq.
  - rewrite !lookup_insert_ne by discriminate. apply lookup_insert_eq.
Qed.

(** On a sheet without the four names, the styles are created. *)
Lemma create_business_styles_fresh (sample : gmap string ParagraphStyle)
    (base_font : string) :
  sample !! "BusinessChapter" = None -> sample !! "BusinessBody" = None ->
  sample !! "BusinessDialog" = None -> sample !! "BusinessFirst" = None ->
  exists styles, _create_business_styles sample base_font = Ok styles.
Proof.
  intros Hc Hb Hd Hf. unfold _create_business_styles.
  set (bold_font := if String.eqb base_font "Helvetica" then _ else _).
  set (italic_font := if String.eqb base_font "Helvetica" then _ else _).
  unfold add at 1. simpl name. rewrite Hc. cbn [rbind].
  unfold add at 1. simpl name.
  rewrite lookup_insert_ne, Hb by discriminate. cbn [rbind].
  unfold getitem at 1. rewrite lookup_insert_eq. cbn [rbind].
  unfold add at 1. simpl name.
  rewrite !lookup_insert_ne, Hd by discriminate. cbn [rbind].
  unfold getitem at 1.
  rewrite lookup_insert_ne, lookup_insert_eq by discriminate. cbn [rbind].
  unfold add at 1. simpl name.
  rewrite !lookup_insert_ne, Hf by discriminate.
  eexists; reflexivity.
Qed.

Lemma helvetica_styles_eq :
  BusinessStyleManager ∅ "Helvetica" = Ok Scenarios.helvetica_styles.
Proof.
  unfold Scenarios.helvetica_styles.
  destruct (create_business_styles_fresh ∅ "Helvetica") as [styles E];
    try apply lookup_empty.
  unfold BusinessStyleManager. rewrite E. reflexivity.
Qed.

Lemma get_style_Some (styles : gmap string ParagraphStyle) (n : string)
    (st : ParagraphStyle) :
  styles !! n = Some st -> get_style styles n = Ok st.
Proof. intros H; unfold get_style; rewrite H; reflexivity. Qed.

End StyleFacts.

(** ** The specification's statements about the renderer and the pool *)

Import StyleManager PDFGenerator StyleFacts.

(** Claim C9, as stated, fails: a header block and a paragraph block get the
    same style. *)
Lemma C9_header_styled_as_paragraph : ~ style_per_kind helvetica_styles.
Proof.
  intros H. apply (H paragraph header).
  - right; left; reflexivity.
  - right; right; left; reflexivity.
  - discriminate.
  - reflexivity.
Qed.

(** Claim C9, amended: the style sheet of the style manager holds three
    pairwise different styles, BusinessChapter, BusinessBody and
    BusinessDialog.  The story of a sheet gives a dialog block the dialog
    style and a block of any other kind, headers included, the body style;
    the chapter style goes to the title paragraph made from the sheet name,
    which opens the story when the name reads as a chapter title. *)
Theorem C9_three_styles (U : UnicodeData) (W : World)
    (sample styles : gmap string ParagraphStyle) (base_font : string) :
  BusinessStyleManager sample base_font = Ok styles ->
  exists chapter body dlg,
    get_style styles "BusinessChapter" = Ok chapter /\
    get_style styles "BusinessBody" = Ok body /\
    get_style styles "BusinessDialog" = Ok dlg /\
    chapter <> body /\ chapter <> dlg /\ body <> dlg /\
    (forall b,
       truthy (strip (content b)) = true ->
       paragraph_error W (content b) = None ->
       build_blocks W styles [b]
       = Ok [Paragraph (content b)
               (match type b with dialog => dlg | _ => body end);
             Spacer 1 5]) /\
    (forall sheet_name content_blocks story,
       _is_chapter_title sheet_name = true ->
       _build_story W styles sheet_name content_blocks = Ok story ->
       exists rest,
         story = Paragraph sheet_name chapter :: Spacer 1 20 :: rest).
Proof.
  intros H. apply create_business_styles_Ok in H
    as (bold_font & italic_font & Hc & Hb & Hd).
  exists (BusinessChapter bold_font), (BusinessBody base_font),
    (BusinessDialog (BusinessBody base_font) italic_font).
  pose proof (get_style_Some _ _ _ Hc) as Gc.
  pose proof (get_style_Some _ _ _ Hb) as Gb.
  pose proof (get_style_Some _ _ _ Hd) as Gd.
  repeat split; try assumption.
  - intros E. apply (f_equal name) in E. discriminate.
  - intros E. apply (f_equal name) in E. discriminate.
  - intros E. apply (f_equal name) in E. discriminate.
  - intros b Hne Hpe. cbn [build_blocks]. rewrite Hne. cbn [negb].
    unfold make_paragraph. rewrite Hpe.
    destruct (type b); cbn [block_style_name];
      rewrite ?Gb, ?Gd; reflexivity.
  - intros sheet_name content_blocks story Ht Hs.
    unfold _build_story in Hs. rewrite Ht, Gc in Hs.
    apply rbind_Ok in Hs as (head & Hh & Hs).
    apply rbind_Ok in Hs as (body & _ & Hs). injection Hs as <-.
    cbn [rbind] in Hh. unfold make_paragraph in Hh.
    destruct (paragraph_error W sheet_name); [discriminate|].
    injection Hh as <-. exists body. reflexivity.
Qed.

Lemma C9_three_styles_witness :
  exists chapter body dlg,
    get_style helvetica_styles "BusinessChapter" = Ok chapter /\
    get_style helvetica_styles "BusinessBody" = Ok body /\
    get_style helvetica_styles "BusinessDialog" = Ok dlg /\
    chapter <> body /\ chapter <> dlg /\ body <> dlg.
Proof.
  destruct (C9_three_styles basic_latin
              {| credentials_exist := true; env_max_threads := 4;
                 env_output_dir := lit "output"; cpu_count := None;
                 reader_init := Ok tt; spreadsheet_info := Raise OSError;
                 read_column_d := fun _ => [];
                 sample_styles := ∅; base_font := "Helvetica";
                 paragraph_error := fun _ => None;
                 doc_build := fun _ _ => Ok 1;
                 append_outline_item := fun _ => None;
                 append_bookmark := fun _ => None;
                 append_plain := fun _ => None;
                 merger_write := fun _ => Ok 1;
                 pdf_reader := fun _ => Ok 1%nat |}
              ∅ helvetica_styles "Helvetica" helvetica_styles_eq)
    as (chapter & body & dlg & H1 & H2 & H3 & H4 & H5 & H6 & _).
  exists chapter, body, dlg. auto 10.
Defined.

(** Claim C6, as stated, fails: a default manager on a machine with eight
    processors creates the pool for a single sheet with the bound 6, not
    with the least of 1, 8 and 6. *)
Lemma C6_pool_ignores_sheet_count :
  ThreadManager.executor_max_workers
    (ThreadManager.__init__ (Some 8%Z) None) [lit "A"]
  <> stated_pool_size 1 8 6.
Proof. vm_compute. discriminate. Qed.

(** Claim C6, amended: the pool is created with the manager's bound, which
    does not depend on the requested sheets.  Without an override the bound
    is the least of the processor count (4 when unknown) and 6, so between
    1 and 6; an override replaces it as given, and [main] always overrides:
    with [--threads] when that is not 0, else with MAX_THREADS.  A bound
    below 1 makes the creation of the pool raise ValueError. *)
Theorem C6_pool_bound (cpu override : option Z) (sheets : list str) :
  (forall n, cpu = Some n -> (0 <= n)%Z) ->
  let bound := ThreadManager.__init__ cpu override in
  ThreadManager.executor_max_workers bound sheets = bound /\
  (override = None ->
   bound = Z.min (ThreadManager.or_default cpu 4) 6 /\ (1 <= bound <= 6)%Z) /\
  (forall n, override = Some n -> bound = n) /\
  (forall W args,
     Main.max_threads W args
     = match Main.threads args with
       | Some n => if (n =? 0)%Z then env_max_threads W else n
       | None => env_max_threads W
       end) /\
  (forall processor_func completed st,
     sheets <> [] -> (bound <= 0)%Z ->
     fst (ThreadManager.process_sheets_parallel bound sheets processor_func
            completed st) = Raise ValueError).
Proof.
  intros Hcpu bound. split; [reflexivity|]. split; [|split; [|split]].
  - intros ->. subst bound. cbn [ThreadManager.__init__].
    split; [reflexivity|].
    unfold ThreadManager.or_default. destruct cpu as [n|]; [|lia].
    specialize (Hcpu n eq_refl). destruct (Z.eqb_spec n 0); lia.
  - intros n ->. reflexivity.
  - reflexivity.
  - intros processor_func completed st Hne Hle.
    unfold ThreadManager.process_sheets_parallel.
    destruct sheets; [contradiction|].
    unfold ThreadManager.executor_max_workers.
    apply Z.leb_le in Hle. rewrite Hle. reflexivity.
Qed.

Lemma C6_pool_bound_witness :
  ThreadManager.__init__ (Some 8%Z) None
  = Z.min (ThreadManager.or_default (Some 8%Z) 4) 6 /\
  (1 <= ThreadManager.__init__ (Some 8%Z) None <= 6)%Z.
Proof.
  apply (C6_pool_bound (Some 8%Z) None [lit "A"]).
  - intros n [= <-]. lia.
  - reflexivity.
Defined.

(** ** Exit codes of [main] *)

Module MainFacts.

Import Main PDFMerger Scenarios.

Local Open Scope string_scope.

Lemma never_zero_ret_1 : never_zero (ret 1%Z).
Proof. intros st; left; reflexivity. Qed.

Lemma never_zero_raise (e : exn) : never_zero (raise e).
Proof. intros st; right; exists e; reflexivity. Qed.

Lemma never_zero_bind_post {A} (m : M State A) (k : A -> M State Z)
    (P : A -> Prop) :
  (forall st a st', m st = (Ok a, st') -> P a) ->
  (forall a, P a -> never_zero (k a)) ->
  never_zero (bind m k).
Proof.
  intros Hm Hk st. unfold bind.
  destruct (m st) as [[a|e] st'] eqn:E.
  - apply (Hk a), (Hm _ _ _ E).
  - right; exists e; reflexivity.
Qed.

Lemma never_zero_bind {A} (m : M State A) (k : A -> M State Z) :
  (forall a, never_zero (k a)) -> never_zero (bind m k).
Proof.
  intros Hk. apply (never_zero_bind_post m k (fun _ => True)); auto.
Qed.

Section WithWorld.
Context {U : UnicodeData} (W : World).

Lemma summary_raises (final_ebook_path : str)
    (ebook_stats : option (gmap string pyval))
    (chapters succeeded requested : nat) (st : State) :
  lacks_size_mb ebook_stats ->
  exists e,
    fst (summary final_ebook_path ebook_stats chapters succeeded requested st)
    = Raise e.
Proof.
  intros H. unfold summary, bind, emit, modify. cbn [fst snd].
  destruct ebook_stats as [d|]; cbn [subscript].
  - destruct (d !! "num_pages"); cbn [ret raise fst].
    + simpl in H. rewrite H. simpl. eauto.
    + eauto.
  - simpl. eauto.
Qed.

Lemma validate_ebook_eq (path : str) (st : State) :
  validate_ebook path st
  = (Ok (match fs st !! path with
         | Some f => (0 <? nbytes f)%N
         | None => false
         end), st).
Proof.
  unfold validate_ebook, bind, get, exists_, getsize, ret.
  destruct (fs st !! path) eqn:E; [rewrite E|]; reflexivity.
Qed.

(** The fallback dictionary of [get_ebook_stats]. *)
Lemma get_ebook_stats_fallback (path : str) (st : State) (f : file) (e : exn) :
  fs st !! path = Some f -> (0 < nbytes f)%N ->
  pdf_reader W path = Raise e -> is_Exception e = true ->
  get_ebook_stats W path st
  = (Ok (Some (<["file_path" := VStr path]>
              (<["file_size_kb" := VRound2 (nbytes f) 1024]>
              (<["num_pages" := VStr (lit "Unknown")]> ∅)))), st).
Proof.
  intros Hf Hsz Hr He.
  unfold get_ebook_stats, bind. rewrite validate_ebook_eq, Hf.
  apply N.ltb_lt in Hsz. rewrite Hsz. cbn [negb].
  unfold try_except, bind, lift, getsize, ret. rewrite Hr, He, Hf.
  reflexivity.
Qed.

(** Whatever [get_ebook_stats] returns when the page count cannot be read
    lacks the key file_size_mb. *)
Lemma get_ebook_stats_lacks (path : str) (st st' : State)
    (ebook_stats : option (gmap string pyval)) :
  (exists e, pdf_reader W path = Raise e) ->
  get_ebook_stats W path st = (Ok ebook_stats, st') ->
  lacks_size_mb ebook_stats.
Proof.
  intros [e Hr].
  unfold get_ebook_stats, bind. rewrite validate_ebook_eq.
  destruct (fs st !! path) as [f|] eqn:Hf.
  - destruct (0 <? nbytes f)%N; cbn [negb].
    + unfold try_except, bind, lift, getsize, ret. rewrite Hr.
      destruct (is_Exception e).
      * rewrite Hf. intros [= <- _]. simpl.
        rewrite !lookup_insert_ne by discriminate. apply lookup_empty.
      * discriminate.
    + intros [= <- _]. exact I.
  - cbn [negb]. intros [= <- _]. exact I.
Qed.

Lemma never_zero_emit_then (e : event) (m : M State Z) :
  never_zero m -> never_zero (bind (emit e) (fun _ => m)).
Proof. intros H. apply never_zero_bind. intros _. exact H. Qed.

Lemma never_zero_finish (final_ebook_path : str)
    (chapters succeeded requested : nat) :
  (forall p, exists e, pdf_reader W p = Raise e) ->
  never_zero (finish W final_ebook_path chapters succeeded requested).
Proof.
  intros Hr. unfold finish. apply never_zero_bind. intros valid.
  destruct valid; cbn [negb].
  - apply (never_zero_bind_post _ _ lacks_size_mb).
    + intros st a st' E. exact (get_ebook_stats_lacks _ _ _ _ (Hr _) E).
    + intros stats Hs st. unfold bind.
      destruct (summary_raises final_ebook_path stats chapters succeeded
                  requested st Hs) as [e He].
      destruct (summary _ _ _ _ _ st) as [[u|e'] st']; simpl in *;
        [discriminate He | right; eauto].
  - apply never_zero_emit_then, never_zero_ret_1.
Qed.

Lemma never_zero_merge_and_report (args : Args) (sheets_to_process : list str)
    (results : gmap (list N) (list N)) :
  (forall p, exists e, pdf_reader W p = Raise e) ->
  never_zero (merge_and_report W args sheets_to_process results).
Proof.
  intros Hr. unfold merge_and_report.
  destruct (bool_decide (results = ∅)).
  - apply never_zero_emit_then, never_zero_ret_1.
  - destruct (pdf_files_of sheets_to_process results).
    + apply never_zero_emit_then, never_zero_ret_1.
    + apply never_zero_bind. intros final.
      destruct (negb (ThreadManager.truthy_result final)).
      * apply never_zero_emit_then, never_zero_ret_1.
      * apply never_zero_finish, Hr.
Qed.

Lemma never_zero_run (args : Args) (completed : list nat) :
  (forall p, exists e, pdf_reader W p = Raise e) ->
  never_zero (run W args completed).
Proof.
  intros Hr. unfold run.
  apply never_zero_bind; intros _.
  apply never_zero_bind; intros styles.
  apply never_zero_bind; intros info.
  apply never_zero_bind; intros sheets_to_process.
  destruct sheets_to_process; [apply never_zero_ret_1|].
  apply never_zero_bind; intros _.
  unfold pipeline. apply never_zero_emit_then.
  apply never_zero_bind; intros results.
  apply never_zero_merge_and_report, Hr.
Qed.

(** [main] returns the exit code of [run], and 1 when [run] raises or the
    setup is not valid. *)
Lemma main_exit_1 (args : Args) (completed : list nat) (st : State) :
  never_zero (run W args completed) ->
  fst (main W args completed st) = Ok 1%Z.
Proof.
  intros Hrun. unfold main, bind. cbn [emit modify fst snd].
  destruct (negb (validate_setup W args)); [reflexivity|].
  match goal with |- context [run W args completed ?s] =>
    specialize (Hrun s);
    destruct (run W args completed s) as [[code|e] st'] end.
  - destruct Hrun as [H|[e H]]; simpl in H; [|discriminate].
    injection H as ->. reflexivity.
  - destruct e; reflexivity.
Qed.

(** With the fallback dictionary the summary stops at the file size: the
    run raises [KeyError] after the merged file was written and checked. *)
Lemma finish_fallback (path : str) (st : State) (f : file) (e : exn)
    (chapters succeeded requested : nat) :
  fs st !! path = Some f -> (0 < nbytes f)%N ->
  pdf_reader W path = Raise e -> is_Exception e = true ->
  fst (finish W path chapters succeeded requested st) = Raise KeyError /\
  fs (snd (finish W path chapters succeeded requested st)) = fs st.
Proof.
  intros Hf Hsz Hr He. unfold finish, bind.
  rewrite validate_ebook_eq, Hf.
  pose proof Hsz as Hsz'. apply N.ltb_lt in Hsz'. rewrite Hsz'. cbn [negb].
  rewrite (get_ebook_stats_fallback _ _ _ _ Hf Hsz Hr He).
  unfold summary, bind, emit, modify, subscript. cbn [fst snd].
  rewrite !lookup_insert_ne by discriminate. rewrite lookup_insert_eq.
  cbn [ret fst snd].
  rewrite !lookup_insert_ne by discriminate. rewrite lookup_empty.
  split; reflexivity.
Qed.

End WithWorld.

End MainFacts.

(** ** The specification's statements about the exit code *)

Import MainFacts.

(** Claim C1: for three requested sheets of which B has no rows, [main]
    looks up the method estimate_processing_time, which the class
    ThreadManager does not define; the AttributeError is caught by the
    handler of [main], the exit code is 1 and no ebook is written, in
    whatever order tasks would have completed. *)
Theorem C1_three_sheets_exit_1 (completed : list nat) :
  fst (Main.run (U:=basic_latin) world_ABC
         (args_all (Some [sheet_A; sheet_B; sheet_C])) completed
         (snd (emit (Print "Vietnamese PDF Ebook Generator" []) empty_state)))
  = Raise AttributeError /\
  fst (Main.main (U:=basic_latin) world_ABC
         (args_all (Some [sheet_A; sheet_B; sheet_C])) completed empty_state)
  = Ok 1%Z /\
  fs (snd (Main.main (U:=basic_latin) world_ABC
             (args_all (Some [sheet_A; sheet_B; sheet_C])) completed
             empty_state)) !! ebook_path = None.
Proof. split; [|split]; vm_compute; reflexivity. Qed.

(** The stages after the estimate, run on the same input with B completing
    first and A last, do what the specification states: exit code 0, an
    ebook made of A and C, and a success rate of 2 out of 3. *)
Lemma pipeline_three_sheets_partial_success :
  let r := Main.pipeline (U:=basic_latin) world_ABC
             (args_all (Some [sheet_A; sheet_B; sheet_C])) helvetica_styles 4
             [sheet_A; sheet_B; sheet_C] [1; 2; 0]%nat empty_state in
  fst r = Ok 0%Z /\
  In (Print "Success rate" [VInt 2; VInt 3]) (out (snd r)) /\
  fs (snd r) !! ebook_path
  = Some {| nbytes := 5000;
            doc := MergedPDF [(lit "output/temp/A.pdf", Some (lit "A"));
                              (lit "output/temp/C.pdf", Some (lit "C"))] |}.
Proof.
  vm_compute. repeat split. do 22 right. left. reflexivity.
Qed.

(** Claim C10: when the page count of the merged ebook cannot be read,
    [get_ebook_stats] returns a dictionary with the three keys file_path,
    file_size_kb and num_pages (the text Unknown) and without the keys
    file_size_mb and title; the summary of [main] then raises KeyError at
    the file size, with the merged file still in place, and [main] returns
    the exit code 1. *)
Theorem C10_unreadable_ebook_exit_1 (U : UnicodeData) (W : World) :
  (forall p, exists e, pdf_reader W p = Raise e /\ is_Exception e = true) ->
  (forall path st f,
     fs st !! path = Some f -> (0 < nbytes f)%N ->
     exists d,
       PDFMerger.get_ebook_stats W path st = (Ok (Some d), st) /\
       d !! "file_path"%string = Some (VStr path) /\
       d !! "file_size_kb"%string = Some (VRound2 (nbytes f) 1024) /\
       d !! "num_pages"%string = Some (VStr (lit "Unknown")) /\
       size d = 3%nat /\
       d !! "file_size_mb"%string = None /\
       d !! "title"%string = None /\
       forall chapters succeeded requested,
         fst (Main.finish W path chapters succeeded requested st)
         = Raise KeyError /\
         fs (snd (Main.finish W path chapters succeeded requested st))
         = fs st) /\
  (forall args completed st,
     fst (Main.main W args completed st) = Ok 1%Z).
Proof.
  intros Hr. split.
  - intros path st f Hf Hsz. destruct (Hr path) as (e & He & Hex).
    eexists. split; [apply (get_ebook_stats_fallback W _ _ _ _ Hf Hsz He Hex)|].
    split; [apply lookup_insert_eq|].
    split; [rewrite lookup_insert_ne by discriminate; apply lookup_insert_eq|].
    split; [rewrite !lookup_insert_ne by discriminate; apply lookup_insert_eq|].
    split.
    { rewrite !map_size_insert_None, map_size_empty; [reflexivity|..];
        rewrite ?lookup_insert_ne by discriminate; apply lookup_empty. }
    split; [rewrite !lookup_insert_ne by discriminate; apply lookup_empty|].
    split; [rewrite !lookup_insert_ne by discriminate; apply lookup_empty|].
    intros chapters succeeded requested.
    apply (finish_fallback W _ _ _ _ _ _ _ Hf Hsz He Hex).
  - intros args completed st. apply main_exit_1, never_zero_run.
    intros p. destruct (Hr p) as (e & He & _). eauto.
Qed.

Lemma C10_unreadable_ebook_exit_1_witness :
  fst (Main.main (U:=basic_latin) world_A_unreadable (args_all None)
         [0%nat] empty_state) = Ok 1%Z /\
  (exists f,
     fs (snd (Main.main (U:=basic_latin) world_A_unreadable (args_all None)
                [0%nat] empty_state)) !! ebook_path = Some f /\
     (0 < nbytes f)%N).
Proof.
  split.
  - apply (C10_unreadable_ebook_exit_1 basic_latin world_A_unreadable).
    intros p. exists PdfError. split; reflexivity.
  - eexists. split; [vm_compute; reflexivity | reflexivity].
Defined.

(** ** The scheduler *)

Module SchedulerFacts.

Import ThreadManager.

Lemma record_result_eq (f : str -> M State (option str)) (s : str)
    (results : gmap (list N) (list N)) (st : State) :
  record_result f s results st =
  match f s st with
  | (Ok o, st') =>
      if truthy_result o
      then (Ok (<[s := default [] o]> results),
            logged (Log INFO "Completed" s) st')
      else (Ok results, logged (Log WARNING "No result for" s) st')
  | (Raise e, st') =>
      if is_Exception e
      then (Ok results, logged (Log ERROR "Failed" s) st')
      else (Raise e, st')
  end.
Proof.
  unfold record_result, try_except, bind.
  destruct (f s st) as [[o|e] st'].
  - destruct (truthy_result o); reflexivity.
  - destruct (is_Exception e); reflexivity.
Qed.

Lemma collect_cons (futures : gmap nat (list N))
    (f : str -> M State (option str)) (i : nat) (rest : list nat)
    (results : gmap (list N) (list N)) (st : State) :
  collect futures f (i :: rest) results st =
  match futures !! i with
  | None => collect futures f rest results st
  | Some s =>
      match record_result f s results st with
      | (Ok results', st') => collect futures f rest results' st'
      | (Raise e, st') => (Raise e, st')
      end
  end.
Proof. cbn [collect]. destruct (futures !! i); reflexivity. Qed.

Section Collect.
Variable futures : gmap nat (list N).
Variable f : str -> M State (option str).

(** Only an exception that is not an [Exception], raised by a task, leaves
    the loop. *)
Lemma collect_raise (completed : list nat) (results : gmap (list N) (list N))
    (st : State) (e : exn) :
  fst (collect futures f completed results st) = Raise e ->
  is_Exception e = false /\ exists s st1, fst (f s st1) = Raise e.
Proof.
  revert results st; induction completed as [|i rest IH]; intros results st.
  - simpl. discriminate.
  - rewrite collect_cons. destruct (futures !! i) as [s|]; [|apply IH].
    rewrite record_result_eq.
    destruct (f s st) as [[o|e'] st'] eqn:E.
    + destruct (truthy_result o); apply IH.
    + destruct (is_Exception e') eqn:Ee; [apply IH|].
      simpl. intros [= <-]. split; [exact Ee|].
      exists s, st. rewrite E. reflexivity.
Qed.

(** When the tasks raise nothing but [Exception]s, the loop returns a
    mapping. *)
Lemma collect_returns (completed : list nat) (results : gmap (list N) (list N))
    (st : State) :
  (forall s st1 e, fst (f s st1) = Raise e -> is_Exception e = true) ->
  exists res, fst (collect futures f completed results st) = Ok res.
Proof.
  intros Hf.
  destruct (fst (collect futures f completed results st)) as [res|e] eqn:E.
  - exists res; reflexivity.
  - apply collect_raise in E as (He & s & st1 & Hs).
    rewrite (Hf _ _ _ Hs) in He. discriminate.
Qed.

(** An entry of the returned mapping was there before, or is the true
    result of the task of a completed future for that sheet. *)
Lemma collect_lookup (completed : list nat) (results : gmap (list N) (list N))
    (st : State) (res : gmap (list N) (list N)) (s p : str) :
  fst (collect futures f completed results st) = Ok res ->
  res !! s = Some p ->
  results !! s = Some p \/
  exists i st1, In i completed /\ futures !! i = Some s /\
                fst (f s st1) = Ok (Some p) /\ truthy p = true.
Proof.
  revert results st; induction completed as [|i rest IH]; intros results st.
  - simpl. intros [= <-] H. left; exact H.
  - rewrite collect_cons.
    assert (forall results' st',
              fst (collect futures f rest results' st') = Ok res ->
              res !! s = Some p ->
              results' !! s = Some p \/
              exists j st1, In j (i :: rest) /\ futures !! j = Some s /\
                            fst (f s st1) = Ok (Some p) /\ truthy p = true)
      as IH'.
    { intros results' st' H1 H2.
      destruct (IH _ _ H1 H2) as [H|(j & st1 & Hj & H)]; [left; exact H|].
      right. exists j, st1. split; [right; exact Hj | exact H]. }
    destruct (futures !! i) as [s'|] eqn:Ei; [|apply IH'].
    rewrite record_result_eq.
    destruct (f s' st) as [[o|e'] st'] eqn:E.
    + destruct (truthy_result o) eqn:Et; [|apply IH'].
      intros H1 H2. destruct (IH' _ _ H1 H2) as [H|H]; [|right; exact H].
      destruct (decide (s' = s)) as [->|Hne].
      * rewrite lookup_insert_eq in H. right. exists i, st.
        destruct o as [q|]; [|discriminate]. simpl in H, Et.
        injection H as ->. rewrite E. repeat split; auto. left; reflexivity.
      * rewrite lookup_insert_ne in H by exact Hne. left; exact H.
    + destruct (is_Exception e'); [apply IH'|]. simpl. discriminate.
Qed.

End Collect.

Lemma future_to_sheet_lookup (sheets : list str) (i : nat) :
  future_to_sheet sheets !! i = sheets !! i.
Proof. apply lookup_map_seq_0. Qed.

(** One task is submitted for every element of [sheets]. *)
Lemma future_to_sheet_size (sheets : list str) :
  size (future_to_sheet sheets) = length sheets.
Proof.
  unfold future_to_sheet. generalize 0%nat.
  induction sheets as [|s sheets IH]; intros k.
  - apply map_size_empty.
  - cbn [map_seq]. rewrite map_size_insert_None; [rewrite IH; reflexivity|].
    apply lookup_map_seq_None. left. lia.
Qed.

(** [process_sheets_parallel] with sheets and a positive bound is the loop
    over the completed futures followed by one log record. *)
Lemma process_sheets_parallel_eq (max_workers : Z) (sheets : list str)
    (f : str -> M State (option str)) (completed : list nat) (st : State) :
  sheets <> [] -> (0 < max_workers)%Z ->
  process_sheets_parallel max_workers sheets f completed st =
  match collect (future_to_sheet sheets) f completed ∅ st with
  | (Ok res, st') => (Ok res, logged (Log INFO "Processing completed" []) st')
  | (Raise e, st') => (Raise e, st')
  end.
Proof.
  intros Hne Hpos. unfold process_sheets_parallel, executor_max_workers.
  destruct sheets; [contradiction|].
  destruct (Z.leb_spec max_workers 0); [lia|].
  unfold bind. destruct (collect _ f completed ∅ st) as [[res|e] st'];
    reflexivity.
Qed.

(** Every entry of the returned mapping is the non-empty result of a task
    of that sheet. *)
Lemma process_sheets_parallel_entries (max_workers : Z) (sheets : list str)
    (f : str -> M State (option str)) (completed : list nat) (st : State)
    (res : gmap (list N) (list N)) (s p : str) :
  (0 < max_workers)%Z ->
  fst (process_sheets_parallel max_workers sheets f completed st) = Ok res ->
  res !! s = Some p ->
  In s sheets /\ truthy p = true /\ exists st1, fst (f s st1) = Ok (Some p).
Proof.
  intros Hpos Hres Hp. destruct sheets as [|s0 sheets'].
  - simpl in Hres. injection Hres as <-.
    rewrite lookup_empty in Hp. discriminate.
  - rewrite process_sheets_parallel_eq in Hres by (discriminate || lia).
    destruct (collect _ _ _ _ _) as [[res'|e'] st'] eqn:Ec; [|discriminate].
    injection Hres as ->. apply (f_equal fst) in Ec. cbn [fst] in Ec.
    destruct (collect_lookup _ _ _ _ _ _ _ _ Ec Hp)
      as [H0|(i & st1 & _ & Hi & Hf & Ht)].
    + rewrite lookup_empty in H0. discriminate.
    + rewrite future_to_sheet_lookup in Hi.
      split; [|split; [exact Ht | exists st1; exact Hf]].
      apply list_elem_of_In, list_elem_of_lookup. exists i; exact Hi.
Qed.

End SchedulerFacts.

(** ** The sheet task of [main] *)

Module TaskFacts.

Import ContentProcessor StyleManager PDFGenerator.

Section WithWorld.
Context {U : UnicodeData} (W : World).
Variable styles : gmap string ParagraphStyle.

Lemma generate_sheet_pdf_eq (dir s : str) (b : block) (blocks : list block)
    (st : State) :
  generate_sheet_pdf W styles dir s (b :: blocks) st =
  let path := join dir (_sanitize_filename s ++ lit ".pdf") in
  let st1 := logged (Log INFO "Generating PDF" s) st in
  match _build_story W styles s (b :: blocks) with
  | Ok story =>
      match doc_build W path story with
      | Ok n =>
          (Ok (Some path),
           logged (Log INFO "PDF generated" path)
             (written path {| nbytes := n; doc := SheetPDF s story |} st1))
      | Raise e =>
          if is_Exception e
          then (Ok None,
                logged (Log ERROR "Failed to generate PDF for" s) st1)
          else (Raise e, st1)
      end
  | Raise e =>
      if is_Exception e
      then (Ok None, logged (Log ERROR "Failed to generate PDF for" s) st1)
      else (Raise e, st1)
  end.
Proof.
  unfold generate_sheet_pdf, try_except, bind, lift, emit, write_file,
    modify, ret.
  cbn zeta.
  destruct (_build_story W styles s (b :: blocks)) as [story|e].
  - destruct (doc_build W _ story) as [n|e].
    + reflexivity.
    + destruct (is_Exception e); reflexivity.
  - destruct (is_Exception e); reflexivity.
Qed.

Lemma sheet_task_eq (s : str) (st : State) :
  Main.sheet_task W styles s st =
  match read_column_d W s with
  | [] => (Ok None, st)
  | r0 :: rows =>
      let st1 :=
        logged_all
          (Main.content_log (snd (process_sheet_content (r0 :: rows)))) st in
      match fst (process_sheet_content (r0 :: rows)) with
      | [] => (Ok None, st1)
      | b :: blocks =>
          match generate_sheet_pdf W styles
                  (join (env_output_dir W) (lit "temp")) s (b :: blocks) st1
          with
          | (Ok p, st2) => (Ok p, st2)
          | (Raise e, st2) =>
              if is_Exception e
              then (Ok None, logged (Log ERROR "Error processing" s) st2)
              else (Raise e, st2)
          end
      end
  end.
Proof.
  unfold Main.sheet_task, ThreadManager.process_single_sheet, try_except,
    bind, ret, modify, emit.
  destruct (read_column_d W s) as [|r0 rows]; [reflexivity|].
  cbn zeta.
  destruct (fst (process_sheet_content (r0 :: rows))) as [|b blocks];
    [reflexivity|].
  destruct (generate_sheet_pdf _ _ _ _ _ _) as [[p|e] st2]; [reflexivity|].
  destruct (is_Exception e); reflexivity.
Qed.

(** Unfold the task down to the results of the collaborators. *)
Ltac task_cases s :=
  rewrite !sheet_task_eq;
  destruct (read_column_d W s) as [|r0 rows]; [|
    cbn zeta;
    destruct (fst (process_sheet_content (r0 :: rows))) as [|b blocks]; [|
      rewrite !generate_sheet_pdf_eq; cbn zeta;
      destruct (_build_story W styles s (b :: blocks)) as [story|e]; [
        destruct (doc_build W _ story) as [n|e];
          [|destruct (is_Exception e) eqn:Ee; cbn beta iota; rewrite ?Ee]
      | destruct (is_Exception e) eqn:Ee; cbn beta iota; rewrite ?Ee ] ] ].

Lemma get_style_raise (n : string) (e : exn) :
  get_style styles n = Raise e -> e = KeyError.
Proof.
  unfold get_style, getitem. destruct (styles !! n); [discriminate|].
  destruct (styles !! "BusinessBody"%string); [discriminate|].
  intros [= <-]. reflexivity.
Qed.

Lemma make_paragraph_raise (t : str) (style : ParagraphStyle) (e : exn) :
  make_paragraph W t style = Raise e -> paragraph_error W t = Some e.
Proof.
  unfold make_paragraph. destruct (paragraph_error W t); [|discriminate].
  intros [= <-]. reflexivity.
Qed.

(** The story fails on a missing style or on a paragraph that ReportLab
    refuses. *)
Lemma build_blocks_raise (blocks : list block) (e : exn) :
  build_blocks W styles blocks = Raise e ->
  e = KeyError \/ exists t, paragraph_error W t = Some e.
Proof.
  induction blocks as [|b rest IH]; [discriminate|].
  cbn [build_blocks].
  destruct (negb (truthy (strip (content b)))); [exact IH|].
  destruct (get_style styles _) as [style|e1] eqn:Es; cbn [rbind].
  - destruct (make_paragraph W (content b) style) as [para|e2] eqn:Ep;
      cbn [rbind].
    + destruct (build_blocks W styles rest) as [story|e3]; cbn [rbind];
        [discriminate|].
      intros [= <-]. apply IH. reflexivity.
    + intros [= <-]. right. exists (content b).
      exact (make_paragraph_raise _ _ _ Ep).
  - intros [= <-]. left. exact (get_style_raise _ _ Es).
Qed.

Lemma build_story_raise (s : str) (blocks : list block) (e : exn) :
  _build_story W styles s blocks = Raise e ->
  e = KeyError \/ exists t, paragraph_error W t = Some e.
Proof.
  unfold _build_story.
  destruct (_is_chapter_title s).
  - destruct (get_style styles "BusinessChapter") as [style|e1] eqn:Es;
      cbn [rbind].
    + destruct (make_paragraph W s style) as [para|e2] eqn:Ep; cbn [rbind].
      * destruct (build_blocks W styles blocks) as [story|e3] eqn:Eb;
          cbn [rbind]; [discriminate|].
        intros [= <-]. exact (build_blocks_raise _ _ Eb).
      * intros [= <-]. right. exists s. exact (make_paragraph_raise _ _ _ Ep).
    + intros [= <-]. left. exact (get_style_raise _ _ Es).
  - cbn [rbind].
    destruct (build_blocks W styles blocks) as [story|e3] eqn:Eb;
      cbn [rbind]; [discriminate|].
    intros [= <-]. exact (build_blocks_raise _ _ Eb).
Qed.

(** The task raises only what is not an [Exception], and only when
    ReportLab raised it. *)
Lemma sheet_task_raise (s : str) (st : State) (e : exn) :
  fst (Main.sheet_task W styles s st) = Raise e ->
  is_Exception e = false /\
  ((exists t, paragraph_error W t = Some e) \/
   exists path story, doc_build W path story = Raise e).
Proof.
  rewrite sheet_task_eq.
  destruct (read_column_d W s) as [|r0 rows]; [discriminate|].
  cbn zeta.
  destruct (fst (process_sheet_content (r0 :: rows))) as [|b blocks];
    [discriminate|].
  rewrite generate_sheet_pdf_eq. cbn zeta.
  destruct (_build_story W styles s (b :: blocks)) as [story|e1] eqn:Es.
  - destruct (doc_build W _ story) as [n|e2] eqn:Ed; [discriminate|].
    destruct (is_Exception e2) eqn:Ee; [discriminate|].
    cbn beta iota. rewrite Ee. cbn [fst]. intros [= <-].
    split; [exact Ee|]. right. eauto.
  - destruct (is_Exception e1) eqn:Ee; [discriminate|].
    cbn beta iota. rewrite Ee. cbn [fst]. intros [= <-].
    split; [exact Ee|]. left.
    destruct (build_story_raise _ _ _ Es) as [->|H]; [discriminate|exact H].
Qed.

(** What the task returns does not depend on the state it starts from. *)
Lemma sheet_task_result_independent (s : str) (st1 st2 : State) :
  fst (Main.sheet_task W styles s st1) = fst (Main.sheet_task W styles s st2).
Proof. task_cases s; reflexivity. Qed.

(** The task removes no file. *)
Lemma sheet_task_keeps_files (s : str) (st : State) (q : str) :
  exists_ st q = true -> exists_ (snd (Main.sheet_task W styles s st)) q = true.
Proof.
  intros H. task_cases s; try exact H.
  unfold exists_ in *. cbn [snd logged written fs].
  destruct (decide (join (join (env_output_dir W) (lit "temp"))
                      (_sanitize_filename s ++ lit ".pdf") = q)) as [->|Hne].
  - rewrite lookup_insert_eq. reflexivity.
  - rewrite lookup_insert_ne by exact Hne. exact H.
Qed.

(** The file a task returns exists when the task is done. *)
Lemma sheet_task_writes (s : str) (st : State) (p : str) :
  fst (Main.sheet_task W styles s st) = Ok (Some p) ->
  exists_ (snd (Main.sheet_task W styles s st)) p = true.
Proof.
  task_cases s; cbn [fst]; try discriminate.
  intros [= <-]. unfold exists_. cbn [snd logged written fs].
  rewrite lookup_insert_eq. reflexivity.
Qed.

End WithWorld.

End TaskFacts.

(** ** The specification's statements about the scheduler *)

Import ThreadManager SchedulerFacts.

(** Claim C2, as stated, fails: with the sheets A, B and C, where B has no
    rows, the scheduler returns a mapping that has no entry for B, although
    the task of B completed. *)
Lemma C2_failed_sheet_not_recorded :
  exists res,
    fst (schedule world_ABC [sheet_A; sheet_B; sheet_C] [0; 1; 2]%nat) = Ok res /\
    ~ every_task_recorded [sheet_A; sheet_B; sheet_C] res.
Proof.
  destruct (fst (schedule world_ABC [sheet_A; sheet_B; sheet_C] [0; 1; 2]%nat))
    as [res|e] eqn:E.
  - exists res. split; [reflexivity|]. intros H.
    destruct (H sheet_B) as [p Hp]; [right; left; reflexivity|].
    unfold schedule in E.
    rewrite process_sheets_parallel_eq in E by (discriminate || lia).
    destruct (collect _ _ _ _ _) as [[res'|e'] st'] eqn:Ec; [|discriminate].
    injection E as ->.
    apply (f_equal fst) in Ec. cbn [fst] in Ec.
    destruct (collect_lookup _ _ _ _ _ _ _ _ Ec Hp)
      as [H0|(i & st1 & _ & _ & Hf & _)].
    + rewrite lookup_empty in H0. discriminate.
    + vm_compute in Hf. discriminate.
  - vm_compute in E. discriminate.
Qed.

(** Claim C3, as stated, fails: for the sequence A, A two tasks are
    submitted, and the PDF generator runs twice for A. *)
Lemma C3_duplicates_submitted_twice :
  ~ one_task_per_name [sheet_A; sheet_A] /\
  generator_runs sheet_A
    (out (snd (schedule world_ABC [sheet_A; sheet_A] [0; 1]%nat))) = 2%nat.
Proof.
  split.
  - unfold one_task_per_name. rewrite future_to_sheet_size.
    vm_compute. discriminate.
  - vm_compute. reflexivity.
Qed.

(** Claim C3, amended: with a positive pool bound and tasks that raise
    nothing but [Exception]s, [process_sheets_parallel] returns, for every
    sequence of sheet names and every order of completion, a mapping with
    at most one entry per name whose keys are among the input names.  One
    task is submitted per element of the sequence, so a name that occurs
    twice is processed twice and keeps one entry.  For the empty sequence
    the empty mapping is returned at once, whatever the bound, and the
    state is unchanged. *)
Theorem C3_scheduler_mapping (max_workers : Z) (sheets : list str)
    (f : str -> M State (option str)) (completed : list nat) (st : State) :
  (0 < max_workers)%Z ->
  (forall s st1 e, fst (f s st1) = Raise e -> is_Exception e = true) ->
  (exists res,
     fst (process_sheets_parallel max_workers sheets f completed st) = Ok res /\
     dom res ⊆ list_to_set sheets /\
     base.NoDup (map_to_list res).*1) /\
  size (future_to_sheet sheets) = length sheets /\
  (forall bound, process_sheets_parallel bound [] f completed st = (Ok ∅, st)).
Proof.
  intros Hpos Hf. split; [|split].
  - assert (exists res,
              fst (process_sheets_parallel max_workers sheets f completed st)
              = Ok res) as [res Hres].
    { destruct sheets as [|s0 sheets']; [exists ∅; reflexivity|].
      rewrite process_sheets_parallel_eq by (discriminate || lia).
      destruct (collect_returns (future_to_sheet (s0 :: sheets')) f completed
                  ∅ st Hf) as [res Hres].
      destruct (collect _ _ _ _ _) as [[res'|e'] st'];
        simpl in Hres; [|discriminate].
      exists res'. reflexivity. }
    exists res. split; [exact Hres|]. split.
    + intros s Hs. apply elem_of_dom in Hs as [p Hp].
      apply elem_of_list_to_set, list_elem_of_In.
      apply (process_sheets_parallel_entries _ _ _ _ _ _ _ _ Hpos Hres Hp).
    + apply NoDup_fst_map_to_list.
  - apply future_to_sheet_size.
  - intros bound. reflexivity.
Qed.

Lemma C3_scheduler_mapping_witness :
  (0 < 4)%Z /\
  exists res,
    fst (schedule world_ABC [sheet_A; sheet_A; sheet_B] [2; 0; 1]%nat) = Ok res /\
    dom res ⊆ list_to_set [sheet_A; sheet_A; sheet_B].
Proof.
  split; [lia|].
  destruct (C3_scheduler_mapping 4 [sheet_A; sheet_A; sheet_B]
              (Main.sheet_task (U:=basic_latin) world_ABC helvetica_styles)
              [2; 0; 1]%nat empty_state ltac:(lia))
    as [(res & Hres & Hdom & _) _].
  - intros s st1 e H.
    apply TaskFacts.sheet_task_raise in H as [_ [[t Ht]|(path & story & Hd)]];
      discriminate.
  - exists res. split; [exact Hres | exact Hdom].
Defined.

(** ** The order of the merged chapters *)

Module OrderFacts.

Import ThreadManager SchedulerFacts PDFMerger Scenarios.

Section Deterministic.
Variable futures : gmap nat (list N).
Variable f : str -> M State (option str).
Variable st0 : State.

(** What a task returns does not depend on the state it starts from. *)
Hypothesis result_independent :
  forall s st1 st2, fst (f s st1) = fst (f s st2).

(** The true result of a sheet's task, once recorded or still to be
    recorded by a completed future, is the sheet's entry at the end. *)
Lemma collect_keeps (s p : str) (completed : list nat)
    (results : gmap (list N) (list N)) (st : State)
    (res : gmap (list N) (list N)) :
  fst (f s st0) = Ok (Some p) -> truthy p = true ->
  fst (collect futures f completed results st) = Ok res ->
  results !! s = Some p \/
    (exists i, In i completed /\ futures !! i = Some s) ->
  res !! s = Some p.
Proof.
  intros Hs Ht. revert results st.
  induction completed as [|i rest IH]; intros results st Hres Hin.
  - simpl in Hres. injection Hres as <-.
    destruct Hin as [H|(i & [] & _)]. exact H.
  - rewrite collect_cons in Hres.
    destruct (futures !! i) as [s'|] eqn:Ei.
    + rewrite record_result_eq in Hres.
      assert (s' <> s ->
              results !! s = Some p \/
                (exists j, In j rest /\ futures !! j = Some s)) as Hother.
      { intros Hne. destruct Hin as [H|(j & [<-|Hj] & Hfj)].
        - left; exact H.
        - congruence.
        - right; exists j; auto. }
      destruct (f s' st) as [[o|e] st'] eqn:E.
      * destruct (truthy_result o) eqn:Eo.
        -- apply (IH _ _ Hres).
           destruct (decide (s' = s)) as [->|Hne].
           ++ left. rewrite lookup_insert_eq.
              pose proof (result_independent s st st0) as Hi.
              rewrite E, Hs in Hi. simpl in Hi. injection Hi as ->.
              reflexivity.
           ++ rewrite lookup_insert_ne by exact Hne.
              destruct (Hother Hne) as [H|H]; [left|right]; exact H.
        -- apply (IH _ _ Hres).
           destruct (decide (s' = s)) as [->|Hne]; [|exact (Hother Hne)].
           pose proof (result_independent s st st0) as Hi.
           rewrite E, Hs in Hi. simpl in Hi. injection Hi as ->.
           simpl in Eo. congruence.
      * destruct (is_Exception e); [|discriminate].
        apply (IH _ _ Hres).
        destruct (decide (s' = s)) as [->|Hne]; [|exact (Hother Hne)].
        pose proof (result_independent s st st0) as Hi.
        rewrite E, Hs in Hi. discriminate.
    + apply (IH _ _ Hres).
      destruct Hin as [H|(j & [<-|Hj] & Hfj)].
      * left; exact H.
      * congruence.
      * right; exists j; auto.
Qed.

(** A task removes no file, and the file it returns exists when it is
    done. *)
Hypothesis keeps_files :
  forall s st q, exists_ st q = true -> exists_ (snd (f s st)) q = true.
Hypothesis writes_result :
  forall s st p, fst (f s st) = Ok (Some p) -> exists_ (snd (f s st)) p = true.

Lemma collect_files (completed : list nat) (results : gmap (list N) (list N))
    (st : State) (res : gmap (list N) (list N)) :
  fst (collect futures f completed results st) = Ok res ->
  (forall q, exists_ st q = true ->
             exists_ (snd (collect futures f completed results st)) q = true) /\
  (forall s p, res !! s = Some p ->
     results !! s = Some p \/
     exists_ (snd (collect futures f completed results st)) p = true).
Proof.
  revert results st. induction completed as [|i rest IH]; intros results st.
  - simpl. intros [= <-]. split; auto.
  - rewrite collect_cons. destruct (futures !! i) as [s'|]; [|apply IH].
    rewrite record_result_eq.
    pose proof (keeps_files s' st) as Hk.
    pose proof (writes_result s' st) as Hw.
    destruct (f s' st) as [[o|e] st'] eqn:E; cbn [fst snd] in Hk, Hw.
    + destruct (truthy_result o) eqn:Eo.
      * intros Hres. destruct (IH _ _ Hres) as [IH1 IH2]. split.
        -- intros q Hq. apply IH1. exact (Hk _ Hq).
        -- intros s p Hp. destruct (IH2 _ _ Hp) as [H|H]; [|right; exact H].
           destruct (decide (s' = s)) as [->|Hne].
           ++ rewrite lookup_insert_eq in H. right. apply IH1.
              destruct o as [q|]; [|discriminate]. simpl in H.
              injection H as ->. exact (Hw _ eq_refl).
           ++ rewrite lookup_insert_ne in H by exact Hne. left; exact H.
      * intros Hres. destruct (IH _ _ Hres) as [IH1 IH2]. split.
        -- intros q Hq. apply IH1. exact (Hk _ Hq).
        -- exact IH2.
    + destruct (is_Exception e); [|discriminate].
      intros Hres. destruct (IH _ _ Hres) as [IH1 IH2]. split.
      * intros q Hq. apply IH1. exact (Hk _ Hq).
      * exact IH2.
Qed.

End Deterministic.

Section Merger.
Context (W : World).

Lemma append_Ok (add_bookmarks : bool) (pdf_file chapter_name : str)
    (st st' : State) (part : str * option str) :
  append W add_bookmarks pdf_file chapter_name st = (Ok part, st') ->
  part = (pdf_file, if add_bookmarks then Some chapter_name else None) /\
  st' = st.
Proof.
  unfold append, raise_if, bind, ret, raise.
  destruct add_bookmarks.
  - destruct (append_outline_item W pdf_file) as [e|].
    + destruct e; try discriminate.
      destruct (append_bookmark W pdf_file); [discriminate|].
      intros [= <- <-]. auto.
    + intros [= <- <-]. auto.
  - destruct (append_plain W pdf_file); [discriminate|].
    intros [= <- <-]. auto.
Qed.

Lemma append_all_Ok (add_bookmarks : bool) (files : list str)
    (st st' : State) (parts : list (str * option str)) :
  append_all W add_bookmarks files st = (Ok parts, st') ->
  parts = List.map (chapter_entry add_bookmarks) files /\ fs st' = fs st.
Proof.
  revert st st' parts. induction files as [|pdf_file rest IH];
    intros st st' parts.
  - simpl. intros [= <- <-]. auto.
  - cbn [append_all]. unfold bind at 1.
    destruct (append W _ _ _ st) as [[part|e] st1] eqn:Ea; [|discriminate].
    apply append_Ok in Ea as [-> ->].
    unfold bind at 1. cbn [emit modify].
    unfold bind at 1.
    destruct (append_all W _ rest _) as [[parts'|e] st2] eqn:Er;
      [|discriminate].
    apply IH in Er as [-> Hfs]. cbn [ret]. intros [= <- <-].
    split; [reflexivity | exact Hfs].
Qed.

(** A successful merge writes, at the output path, the existing files in
    the order given, each with its chapter name. *)
Lemma merge_sheets_to_ebook_Ok (output_dir : str) (pdf_files : list str)
    (output_filename : str) (add_bookmarks : bool) (st st' : State)
    (path : str) :
  merge_sheets_to_ebook W output_dir pdf_files output_filename add_bookmarks st
  = (Ok (Some path), st') ->
  path = join output_dir output_filename /\
  exists n,
    fs st' !! path
    = Some {| nbytes := n;
              doc := MergedPDF (List.map (chapter_entry add_bookmarks)
                                  (List.filter (exists_ st) pdf_files)) |}.
Proof.
  unfold merge_sheets_to_ebook.
  destruct pdf_files as [|f0 files]; [discriminate|].
  unfold bind at 1. cbn [get].
  destruct (List.filter (exists_ st) (f0 :: files)) as [|e0 existing] eqn:Ef;
    [discriminate|].
  unfold bind at 1. cbn [emit modify].
  unfold try_except, bind at 1.
  destruct (append_all W add_bookmarks (e0 :: existing) _)
    as [[parts|e] st1] eqn:Ea.
  - apply append_all_Ok in Ea as [-> Hfs].
    unfold lift, bind at 1.
    destruct (merger_write W _) as [n|e].
    + cbn. intros [= <- <-]. split; [reflexivity|].
      exists n. cbn [fs logged written]. apply lookup_insert_eq.
    + destruct (is_Exception e); discriminate.
  - destruct (is_Exception e); discriminate.
Qed.

End Merger.

Section Pipeline.
Context {U : UnicodeData} (W : World).
Variable styles : gmap string StyleManager.ParagraphStyle.

Lemma filter_all {A} (g : A -> bool) (l : list A) :
  (forall a, In a l -> g a = true) -> List.filter g l = l.
Proof.
  induction l as [|a l IH]; intros H; [reflexivity|].
  cbn [List.filter]. rewrite (H a) by (left; reflexivity).
  rewrite IH by (intros b Hb; apply H; right; exact Hb). reflexivity.
Qed.

Lemma flat_map_omap {A B} (g : A -> list B) (h : A -> option B) (l : list A) :
  (forall a, In a l -> g a = option_list (h a)) ->
  flat_map g l = omap h l.
Proof.
  induction l as [|a l IH]; intros H; [reflexivity|].
  cbn [flat_map omap list_omap]. rewrite (H a) by (left; reflexivity).
  rewrite IH by (intros b Hb; apply H; right; exact Hb).
  destruct (h a); reflexivity.
Qed.

(** The files [main] hands to the merger are those of the requested sheets
    whose tasks succeed, in the requested order, whatever the order in which
    the tasks completed. *)
Lemma pdf_files_of_scheduled (max_workers : Z) (sheets : list str)
    (completed : list nat) (st : State) (res : gmap (list N) (list N)) :
  (0 < max_workers)%Z -> completion_order sheets completed ->
  fst (process_sheets_parallel max_workers sheets (Main.sheet_task W styles)
         completed st) = Ok res ->
  Main.pdf_files_of sheets res = successful_artifacts W styles sheets.
Proof.
  intros Hpos Hperm Hres. unfold Main.pdf_files_of, successful_artifacts.
  apply flat_map_omap. intros s Hs.
  unfold task_artifact.
  destruct (fst (Main.sheet_task W styles s empty_state)) as [[p|]|e] eqn:E.
  - destruct (truthy p) eqn:Et.
    + assert (res !! s = Some p) as ->; [|rewrite Et; reflexivity].
      destruct sheets as [|s0 sheets']; [contradiction|].
      rewrite process_sheets_parallel_eq in Hres by (discriminate || lia).
      destruct (collect _ _ _ _ _) as [[res'|e'] st'] eqn:Ec; [|discriminate].
      injection Hres as ->. apply (f_equal fst) in Ec. cbn [fst] in Ec.
      apply (collect_keeps _ _ empty_state
               (TaskFacts.sheet_task_result_independent W styles)
               s p _ _ _ _ E Et Ec).
      right. apply list_elem_of_In, list_elem_of_lookup in Hs as [i Hi].
      exists i. split; [|rewrite future_to_sheet_lookup; exact Hi].
      apply (Permutation_in _ (Permutation_sym Hperm)).
      apply in_seq. apply lookup_lt_Some in Hi. lia.
    + destruct (res !! s) as [q|] eqn:Eq; [|reflexivity].
      destruct (process_sheets_parallel_entries _ _ _ _ _ _ _ _ Hpos Hres Eq)
        as (_ & Hq & st1 & Hf).
      rewrite (TaskFacts.sheet_task_result_independent W styles s st1
                 empty_state), E in Hf.
      injection Hf as ->. congruence.
  - destruct (res !! s) as [q|] eqn:Eq; [|reflexivity].
    destruct (process_sheets_parallel_entries _ _ _ _ _ _ _ _ Hpos Hres Eq)
      as (_ & Hq & st1 & Hf).
    rewrite (TaskFacts.sheet_task_result_independent W styles s st1
               empty_state), E in Hf. discriminate.
  - destruct (res !! s) as [q|] eqn:Eq; [|reflexivity].
    destruct (process_sheets_parallel_entries _ _ _ _ _ _ _ _ Hpos Hres Eq)
      as (_ & Hq & st1 & Hf).
    rewrite (TaskFacts.sheet_task_result_independent W styles s st1
               empty_state), E in Hf. discriminate.
Qed.

(** Every file of the returned mapping exists when the scheduler is done. *)
Lemma scheduled_files_exist (max_workers : Z) (sheets : list str)
    (completed : list nat) (st : State) (res : gmap (list N) (list N))
    (s p : str) :
  (0 < max_workers)%Z ->
  fst (process_sheets_parallel max_workers sheets (Main.sheet_task W styles)
         completed st) = Ok res ->
  res !! s = Some p ->
  exists_ (snd (process_sheets_parallel max_workers sheets
                  (Main.sheet_task W styles) completed st)) p = true.
Proof.
  intros Hpos Hres Hp. destruct sheets as [|s0 sheets'].
  - simpl in Hres. injection Hres as <-. rewrite lookup_empty in Hp.
    discriminate.
  - rewrite process_sheets_parallel_eq in * by (discriminate || lia).
    pose proof (collect_files (future_to_sheet (s0 :: sheets'))
                  (Main.sheet_task W styles)
                  (TaskFacts.sheet_task_keeps_files W styles)
                  (TaskFacts.sheet_task_writes W styles)
                  completed ∅ st) as Hfiles.
    destruct (collect _ _ _ _ _) as [[res'|e'] st'] eqn:Ec; [|discriminate].
    injection Hres as ->. cbn [fst snd] in *.
    destruct (Hfiles res eq_refl) as [_ H2].
    destruct (H2 _ _ Hp) as [H|H].
    + rewrite lookup_empty in H. discriminate.
    + exact H.
Qed.

Lemma get_ebook_stats_state (path : str) (st : State) :
  snd (get_ebook_stats W path st) = st.
Proof.
  unfold get_ebook_stats, bind. rewrite MainFacts.validate_ebook_eq.
  destruct (fs st !! path) as [f|] eqn:Hf; [|reflexivity].
  destruct (0 <? nbytes f)%N; cbn [negb]; [|reflexivity].
  unfold try_except, bind, lift, getsize, ret.
  destruct (pdf_reader W path) as [n|e].
  - rewrite Hf. reflexivity.
  - destruct (is_Exception e); [rewrite Hf|]; reflexivity.
Qed.

Lemma summary_fs (path : str) (stats : option (gmap string pyval))
    (a b c : nat) (st : State) :
  fs (snd (Main.summary path stats a b c st)) = fs st.
Proof.
  unfold Main.summary, bind, emit, modify, Main.subscript. cbn [fst snd].
  destruct stats as [d|]; [|reflexivity].
  destruct (d !! "num_pages"%string); [|reflexivity]. cbn [ret].
  destruct (d !! "file_size_mb"%string); [|reflexivity]. cbn [ret].
  destruct (d !! "title"%string); reflexivity.
Qed.

(** The last stage of [main] writes no file. *)
Lemma finish_fs (path : str) (a b c : nat) (st : State) :
  fs (snd (Main.finish W path a b c st)) = fs st.
Proof.
  unfold Main.finish, bind. rewrite MainFacts.validate_ebook_eq.
  match goal with |- context [negb ?v] => destruct v end; cbn [negb].
  - pose proof (get_ebook_stats_state path st) as Hs.
    destruct (get_ebook_stats W path st) as [[stats|e] st1]; cbn [snd] in Hs;
      subst st1; [|reflexivity].
    pose proof (summary_fs path stats a b c st) as Hsum.
    destruct (Main.summary path stats a b c st) as [[u|e] st2];
      cbn [snd] in Hsum; exact Hsum.
  - reflexivity.
Qed.

End Pipeline.

End OrderFacts.

(** ** The specification's statement about the chapter order *)

Import OrderFacts.

(** From the scheduler to the exit code 0: the merged ebook at the output
    path holds the PDF files of the requested sheets whose tasks succeed, in
    the requested order. *)
Lemma pipeline_chapters_in_requested_order (U : UnicodeData) (W : World)
    (args : Main.Args) (styles : gmap string ParagraphStyle)
    (max_workers : Z) (sheets : list str) (completed : list nat)
    (st : State) :
  completion_order sheets completed ->
  fst (Main.pipeline W args styles max_workers sheets completed st) = Ok 0%Z ->
  exists n,
    fs (snd (Main.pipeline W args styles max_workers sheets completed st))
      !! join (join (env_output_dir W) (lit "final")) (Main.output args)
    = Some {| nbytes := n;
              doc := MergedPDF
                       (List.map
                          (chapter_entry (negb (Main.no_bookmarks args)))
                          (successful_artifacts W styles sheets)) |}.
Proof.
  intros Hperm.
  destruct (Main.pipeline W args styles max_workers sheets completed st)
    as [code st'] eqn:Ep.
  cbn [fst snd]. intros ->.
  unfold Main.pipeline, bind at 1 in Ep. cbn [emit modify] in Ep.
  set (st1 := logged _ st) in Ep.
  destruct sheets as [|s0 sheets'] eqn:Es.
  { vm_compute in Ep. discriminate. }
  rewrite <- Es in *.
  assert (sheets <> []) as Hne by (rewrite Es; discriminate).
  destruct (Z.leb_spec max_workers 0) as [Hle|Hpos].
  { unfold bind, process_sheets_parallel, executor_max_workers in Ep.
    rewrite Es in Ep. apply Z.leb_le in Hle. rewrite Hle in Ep.
    discriminate. }
  unfold bind at 1 in Ep.
  pose proof (pdf_files_of_scheduled W styles max_workers sheets completed st1)
    as Hfiles.
  pose proof (scheduled_files_exist W styles max_workers sheets completed st1)
    as Hexist.
  destruct (process_sheets_parallel max_workers sheets _ completed st1)
    as [[res|e] st2]; [|discriminate].
  cbn [fst snd] in Hfiles, Hexist.
  specialize (Hfiles res Hpos Hperm eq_refl).
  specialize (fun s p => Hexist res s p Hpos eq_refl).
  unfold Main.merge_and_report in Ep.
  destruct (bool_decide (res = ∅)); [discriminate|].
  assert (forall p, In p (Main.pdf_files_of sheets res) ->
                    exists_ st2 p = true) as Hall.
  { intros p Hp. unfold Main.pdf_files_of in Hp.
    apply in_flat_map in Hp as (s & _ & Hp).
    destruct (res !! s) as [q|] eqn:Eq; [|contradiction].
    destruct (truthy q); [|contradiction].
    destruct Hp as [<-|[]]. exact (Hexist _ _ Eq). }
  rewrite Hfiles in Ep, Hall.
  destruct (successful_artifacts W styles sheets) as [|a0 arts] eqn:Ea;
    [discriminate|].
  rewrite <- Ea in *.
  unfold bind at 1 in Ep.
  destruct (PDFMerger.merge_sheets_to_ebook W _ _ _ _ st2)
    as [[final|e] st3] eqn:Em; [|discriminate].
  destruct final as [path|]; [|discriminate].
  destruct (negb (truthy_result (Some path))); [discriminate|].
  cbn [default] in Ep.
  apply (f_equal snd) in Ep. cbn [snd] in Ep. rewrite <- Ep, finish_fs.
  apply merge_sheets_to_ebook_Ok in Em as [-> [n Hn]].
  exists n. rewrite Hn, (filter_all _ _ Hall). reflexivity.
Qed.

(** Requested A, B, C; completed B, C, A; merged A, B, C. *)
Lemma pipeline_chapters_example :
  exists n,
    fs (snd (Main.pipeline (U:=basic_latin) world_ABC_full (args_all None)
               helvetica_styles 4 [sheet_A; sheet_B; sheet_C] [1; 2; 0]%nat
               empty_state)) !! ebook_path
    = Some {| nbytes := n;
              doc := MergedPDF
                       [(lit "output/temp/A.pdf", Some (lit "A"));
                        (lit "output/temp/B.pdf", Some (lit "B"));
                        (lit "output/temp/C.pdf", Some (lit "C"))] |}.
Proof.
  assert (completion_order [sheet_A; sheet_B; sheet_C] [1; 2; 0]%nat) as Hperm.
  { unfold completion_order. simpl.
    apply Permutation_sym, (Permutation_cons_app [1; 2]%nat []).
    apply Permutation_refl. }
  exact (pipeline_chapters_in_requested_order basic_latin world_ABC_full
           (args_all None) helvetica_styles 4 [sheet_A; sheet_B; sheet_C]
           [1; 2; 0]%nat empty_state Hperm
           ltac:(vm_compute; reflexivity)).
Qed.

(** ** File names and chapter names *)

Module NameFacts.

Import PDFGenerator PDFMerger PyFacts Derived.

Lemma rfind_from_absent (c : N) (s : str) (i acc : Z) :
  ~ In c s -> rfind_from c s i acc = acc.
Proof.
  revert i acc; induction s as [|x s IH]; intros i acc H; [reflexivity|].
  cbn [rfind_from]. destruct (N.eqb_spec x c) as [->|_].
  - exfalso; apply H; left; reflexivity.
  - apply IH. intros Hin; apply H; right; exact Hin.
Qed.

Lemma rfind_from_app (c : N) (a b : str) (i acc : Z) :
  rfind_from c (a ++ b) i acc =
  rfind_from c b (i + Z.of_nat (length a))%Z (rfind_from c a i acc).
Proof.
  revert i acc; induction a as [|x a IH]; intros i acc.
  - simpl. rewrite Z.add_0_r. reflexivity.
  - cbn [app rfind_from length]. rewrite IH. f_equal. lia.
Qed.

(** The last occurrence of a character followed by text without it. *)
Lemma rfind_last (c : N) (a b : str) :
  ~ In c b -> rfind c (a ++ c :: b) = Z.of_nat (length a).
Proof.
  intros H. unfold rfind. rewrite rfind_from_app. cbn [rfind_from].
  rewrite N.eqb_refl. rewrite rfind_from_absent by exact H. lia.
Qed.

Lemma rfind_absent (c : N) (s : str) : ~ In c s -> rfind c s = (-1)%Z.
Proof. apply rfind_from_absent. Qed.

Lemma basename_plain (x : str) : ~ In c_slash x -> basename x = x.
Proof. intros H. unfold basename. rewrite (rfind_absent _ _ H). reflexivity. Qed.

Lemma basename_after_slash (a x : str) :
  ~ In c_slash x -> basename (a ++ c_slash :: x) = x.
Proof.
  intros H. unfold basename, slice_from. rewrite (rfind_last _ _ _ H).
  replace (Z.to_nat (Z.of_nat (length a) + 1)) with (length a + 1)%nat by lia.
  rewrite skipn_app, skipn_all2 by lia.
  replace (length a + 1 - length a)%nat with 1%nat by lia. reflexivity.
Qed.

(** The base name of a joined path is the file name, when that holds no
    slash. *)
Lemma basename_join (dir x : str) :
  ~ In c_slash x -> basename (join dir x) = x.
Proof.
  intros H. unfold join.
  assert (startswith [c_slash] x = false) as ->.
  { destruct x as [|c x]; [reflexivity|]. cbn [startswith].
    rewrite andb_true_r. apply N.eqb_neq. intros <-. apply H. left; reflexivity. }
  destruct dir as [|d dir]; [apply basename_plain; exact H|].
  destruct (N.eqb_spec (List.last (d :: dir) 0%N) c_slash) as [E|_].
  - assert (d :: dir <> []) as Hne by discriminate.
    rewrite (app_removelast_last 0%N Hne), E, <- app_assoc.
    apply basename_after_slash. exact H.
  - cbn [app]. change (d :: dir ++ c_slash :: x) with ((d :: dir) ++ c_slash :: x).
    apply basename_after_slash. exact H.
Qed.

(** Cutting the extension of a name that ends in [.pdf] gives the name back,
    unless the name is made of dots only. *)
Lemma splitext_root_pdf (safe : str) :
  ~ In c_slash safe ->
  splitext_root (safe ++ lit ".pdf") =
  if forallb (N.eqb c_dot) safe then safe ++ lit ".pdf" else safe.
Proof.
  intros H. unfold splitext_root.
  assert (rfind c_slash (safe ++ lit ".pdf") = (-1)%Z) as ->.
  { apply rfind_absent. intros Hin. apply in_app_or in Hin as [Hin|Hin];
      [exact (H Hin)|]. vm_compute in Hin. intuition discriminate. }
  assert (rfind c_dot (safe ++ lit ".pdf") = Z.of_nat (length safe)) as ->.
  { change (lit ".pdf") with (c_dot :: lit "pdf"). apply rfind_last.
    vm_compute. intuition discriminate. }
  destruct (Z.ltb_spec (-1) (Z.of_nat (length safe))); [|lia].
  unfold slice_to, slice_from.
  replace (Z.to_nat (-1 + 1)) with 0%nat by lia. cbn [skipn].
  replace (Z.to_nat (Z.of_nat (length safe) - (-1 + 1))) with (length safe)
    by lia.
  rewrite Nat2Z.id.
  assert (firstn (length safe) (safe ++ lit ".pdf") = safe) as Hf.
  { rewrite firstn_app, firstn_all, Nat.sub_diag. cbn [firstn].
    apply app_nil_r. }
  change (skipn 0 (safe ++ lit ".pdf")) with (safe ++ lit ".pdf").
  rewrite !Hf. reflexivity.
Qed.

(** Replacing one character by another is a map. *)
Lemma replace_go_char_map (a b : N) (s : str) :
  replace_go [a] [b] 0 s = List.map (fun c => if c =? a then b else c) s.
Proof.
  induction s as [|x s IH]; [reflexivity|].
  cbn [replace_go length Nat.pred startswith List.map].
  rewrite andb_true_r, IH. rewrite (N.eqb_sym a x).
  destruct (x =? a); reflexivity.
Qed.

Lemma sanitize_filename_eq (filename : str) :
  _sanitize_filename filename = firstn 50 (List.map safe_char filename).
Proof.
  unfold _sanitize_filename. fold safe_char.
  destruct (Nat.ltb_spec 50 (length (List.map safe_char filename)));
    [reflexivity|].
  symmetry. apply firstn_all2. exact H.
Qed.

Lemma safe_char_safe (c : N) : unsafe_char (safe_char c) = false.
Proof.
  unfold safe_char. destruct (unsafe_char c) eqn:E; [reflexivity | exact E].
Qed.

Lemma sanitize_filename_chars (filename : str) (c : N) :
  In c (_sanitize_filename filename) -> unsafe_char c = false.
Proof.
  rewrite sanitize_filename_eq. intros H.
  apply list_elem_of_In, (subseteq_take 50), list_elem_of_In in H.
  apply in_map_iff in H as (x & <- & _). apply safe_char_safe.
Qed.

End NameFacts.

(** ** Further properties of the renderer and the merger *)

Import NameFacts Derived PDFMerger.


(** X2: the chapter name the merger takes from the path of a generated
    sheet PDF is the sanitised sheet name with every underscore turned into
    a space, whatever the output directory; only when the sanitised name is
    made of dots alone (or is empty) does the extension stay in the
    name. *)
Theorem chapter_name_of_generated_pdf (output_dir sheet_name : str) :
  _extract_chapter_name
    (join output_dir (_sanitize_filename sheet_name ++ lit ".pdf"))
  = List.map (fun c => if c =? c_underscore then c_space else c)
      (if forallb (N.eqb c_dot) (_sanitize_filename sheet_name)
       then _sanitize_filename sheet_name ++ lit ".pdf"
       else _sanitize_filename sheet_name).
Proof.
  assert (~ In c_slash (_sanitize_filename sheet_name)) as Hs.
  { intros H. apply sanitize_filename_chars in H. discriminate. }
  unfold _extract_chapter_name.
  rewrite basename_join.
  - rewrite (splitext_root_pdf _ Hs). apply replace_go_char_map.
  - intros H. apply in_app_or in H as [H|H]; [exact (Hs H)|].
    vm_compute in H. intuition discriminate.
Qed.

(** X3: [generate_sheet_pdf] raises no [Exception]; without content blocks
    it returns None; returning None it leaves every file as it was; and a
    path it returns is the sanitised sheet name with the extension .pdf in
    the output directory, where the file then holds the story of the
    sheet. *)
Theorem generate_sheet_pdf_outcome (U : UnicodeData) (W : World)
    (styles : gmap string ParagraphStyle) (output_dir sheet_name : str)
    (content_blocks : list block) (st : State) :
  let r := generate_sheet_pdf W styles output_dir sheet_name content_blocks st in
  (forall e, fst r = Raise e -> is_Exception e = false) /\
  (content_blocks = [] -> fst r = Ok None) /\
  (fst r = Ok None -> fs (snd r) = fs st) /\
  (forall path, fst r = Ok (Some path) ->
     path = join output_dir (_sanitize_filename sheet_name ++ lit ".pdf") /\
     exists n story,
       _build_story W styles sheet_name content_blocks = Ok story /\
       doc_build W path story = Ok n /\
       fs (snd r)
       = <[path := {| nbytes := n; doc := SheetPDF sheet_name story |}]>
           (fs st)).
Proof.
  destruct content_blocks as [|b blocks].
  { cbn. split; [discriminate|]. split; [reflexivity|].
    split; [reflexivity|]. discriminate. }
  cbn zeta. rewrite TaskFacts.generate_sheet_pdf_eq. cbn zeta.
  destruct (_build_story W styles sheet_name (b :: blocks)) as [story|e1].
  - destruct (doc_build W _ story) as [n|e2] eqn:Ed.
    + cbn [fst snd]. split; [discriminate|]. split; [discriminate|].
      split; [discriminate|]. intros path [= <-]. split; [reflexivity|].
      exists n, story. split; [reflexivity|]. split; [exact Ed|reflexivity].
    + destruct (is_Exception e2) eqn:Ee; cbn [fst snd].
      * split; [discriminate|]. split; [discriminate|].
        split; [reflexivity|]. discriminate.
      * split; [intros e [= <-]; exact Ee|]. split; [discriminate|].
        split; discriminate.
  - destruct (is_Exception e1) eqn:Ee; cbn [fst snd].
    + split; [discriminate|]. split; [discriminate|].
      split; [reflexivity|]. discriminate.
    + split; [intros e [= <-]; exact Ee|]. split; [discriminate|].
      split; discriminate.
Qed.

(** ** The merger and the last stage of [main] *)

Module MergeFacts.

Import PDFMerger OrderFacts Scenarios MainFacts.

Section WithWorld.
Context (W : World).

Lemma append_state (add_bookmarks : bool) (pdf_file chapter_name : str)
    (st : State) :
  snd (append W add_bookmarks pdf_file chapter_name st) = st.
Proof.
  unfold append, raise_if, bind, ret, raise.
  destruct add_bookmarks.
  - destruct (append_outline_item W pdf_file) as [e|]; [|reflexivity].
    destruct e; try reflexivity.
    destruct (append_bookmark W pdf_file); reflexivity.
  - destruct (append_plain W pdf_file); reflexivity.
Qed.

(** Appending writes no file. *)
Lemma append_all_fs (add_bookmarks : bool) (files : list str) (st : State) :
  fs (snd (append_all W add_bookmarks files st)) = fs st.
Proof.
  revert st. induction files as [|pdf_file rest IH]; intros st; [reflexivity|].
  cbn [append_all]. unfold bind at 1.
  pose proof (append_state add_bookmarks pdf_file
                (_extract_chapter_name pdf_file) st) as Hs.
  destruct (append W _ _ _ st) as [[part|e] st1]; cbn [snd] in Hs; subst st1;
    [|reflexivity].
  unfold bind at 1. cbn [emit modify]. unfold bind at 1.
  specialize (IH (logged (Log INFO "Added" (_extract_chapter_name pdf_file)) st)).
  destruct (append_all W _ rest _) as [[parts|e] st2]; cbn [snd] in *;
    exact IH.
Qed.

(** The merge of a list with an existing file, case by case. *)
Lemma merge_sheets_to_ebook_eq (output_dir : str) (f0 : str)
    (existing : list str) (pdf_files : list str) (output_filename : str)
    (add_bookmarks : bool) (st : State) :
  List.filter (exists_ st) pdf_files = f0 :: existing ->
  merge_sheets_to_ebook W output_dir pdf_files output_filename add_bookmarks st
  = match append_all W add_bookmarks (f0 :: existing)
            (logged (Log INFO "Merging PDFs into ebook" []) st) with
    | (Ok parts, st2) =>
        match merger_write W parts with
        | Ok n =>
            (Ok (Some (join output_dir output_filename)),
             logged (Log INFO "Ebook created" (join output_dir output_filename))
               (written (join output_dir output_filename)
                  {| nbytes := n; doc := MergedPDF parts |} st2))
        | Raise e =>
            if is_Exception e
            then (Ok None, logged (Log ERROR "Failed to merge PDFs" []) st2)
            else (Raise e, st2)
        end
    | (Raise e, st2) =>
        if is_Exception e
        then (Ok None, logged (Log ERROR "Failed to merge PDFs" []) st2)
        else (Raise e, st2)
    end.
Proof.
  intros Hf. unfold merge_sheets_to_ebook.
  destruct pdf_files as [|p0 files]; [discriminate Hf|].
  unfold bind at 1. cbn [get]. rewrite Hf.
  unfold bind at 1. cbn [emit modify].
  unfold try_except, bind at 1.
  destruct (append_all W add_bookmarks (f0 :: existing) _)
    as [[parts|e] st2].
  - unfold lift, bind at 1.
    destruct (merger_write W parts) as [n|e].
    + reflexivity.
    + destruct (is_Exception e); reflexivity.
  - destruct (is_Exception e); reflexivity.
Qed.

Lemma merge_sheets_to_ebook_none (output_dir : str) (pdf_files : list str)
    (output_filename : str) (add_bookmarks : bool) (st : State) :
  List.filter (exists_ st) pdf_files = [] ->
  fst (merge_sheets_to_ebook W output_dir pdf_files output_filename
         add_bookmarks st) = Ok None /\
  fs (snd (merge_sheets_to_ebook W output_dir pdf_files output_filename
             add_bookmarks st)) = fs st.
Proof.
  intros Hf. unfold merge_sheets_to_ebook.
  destruct pdf_files as [|p0 files]; [split; reflexivity|].
  unfold bind, get. cbn beta iota. rewrite Hf. split; reflexivity.
Qed.

(** The statistics of a file whose pages can be read. *)
Lemma get_ebook_stats_full (path : str) (st : State) (f : file) (n : nat) :
  fs st !! path = Some f -> (0 < nbytes f)%N -> pdf_reader W path = Ok n ->
  get_ebook_stats W path st
  = (Ok (Some (<["file_path"%string := VStr path]>
              (<["file_size_kb"%string := VRound2 (nbytes f) 1024]>
              (<["file_size_mb"%string := VRound2 (nbytes f) (1024 * 1024)]>
              (<["num_pages"%string := VInt (Z.of_nat n)]>
              (<["title"%string := VStr (lit "Vietnamese Business Ebook")]>
               ∅)))))), st).
Proof.
  intros Hf Hsz Hr.
  unfold get_ebook_stats, bind. rewrite validate_ebook_eq, Hf.
  apply N.ltb_lt in Hsz. rewrite Hsz. cbn [negb].
  unfold try_except, bind, lift, getsize, ret. rewrite Hr, Hf. reflexivity.
Qed.

Lemma finish_valid_Ok (path : str) (st : State) (f : file) (n : nat)
    (chapters succeeded requested : nat) :
  fs st !! path = Some f -> (0 < nbytes f)%N -> pdf_reader W path = Ok n ->
  fst (Main.finish W path chapters succeeded requested st) = Ok 0%Z.
Proof.
  intros Hf Hsz Hr. unfold Main.finish, bind at 1.
  rewrite validate_ebook_eq, Hf.
  pose proof Hsz as Hsz'. apply N.ltb_lt in Hsz'. rewrite Hsz'. cbn [negb].
  unfold bind at 1. rewrite (get_ebook_stats_full _ _ _ _ Hf Hsz Hr).
  unfold Main.summary, bind, emit, modify, Main.subscript. cbn [fst snd].
  rewrite !lookup_insert_ne by discriminate. rewrite lookup_insert_eq.
  cbn [ret fst snd].
  rewrite !lookup_insert_ne by discriminate. rewrite lookup_insert_eq.
  cbn [ret fst snd].
  rewrite !lookup_insert_ne by discriminate. rewrite lookup_insert_eq.
  reflexivity.
Qed.

Lemma finish_valid_Raise (path : str) (st : State) (f : file) (e : exn)
    (chapters succeeded requested : nat) :
  fs st !! path = Some f -> (0 < nbytes f)%N -> pdf_reader W path = Raise e ->
  exists e',
    fst (Main.finish W path chapters succeeded requested st) = Raise e'.
Proof.
  intros Hf Hsz Hr. destruct (is_Exception e) eqn:Ee.
  - exists KeyError.
    apply (finish_fallback W path st f e _ _ _ Hf Hsz Hr Ee).
  - exists e. unfold Main.finish, bind at 1.
    rewrite validate_ebook_eq, Hf.
    apply N.ltb_lt in Hsz. rewrite Hsz. cbn [negb].
    unfold bind at 1, get_ebook_stats, bind at 1.
    rewrite validate_ebook_eq, Hf, Hsz. cbn [negb].
    unfold try_except, bind at 1, lift. rewrite Hr, Ee. reflexivity.
Qed.

Lemma finish_invalid (path : str) (st : State)
    (chapters succeeded requested : nat) :
  match fs st !! path with Some f => nbytes f = 0%N | None => True end ->
  fst (Main.finish W path chapters succeeded requested st) = Ok 1%Z.
Proof.
  intros H. unfold Main.finish, bind at 1. rewrite validate_ebook_eq.
  destruct (fs st !! path) as [f|]; [rewrite H|]; reflexivity.
Qed.

End WithWorld.

End MergeFacts.

Import MergeFacts.

(** X4: [merge_sheets_to_ebook] raises no [Exception]; it returns None when
    none of the given files exists (in particular for an empty list);
    returning None it leaves every file as it was; and a path it returns is
    the output file name in the output directory, where the merged file
    then holds the existing files in the order given, each with its chapter
    name when bookmarks are on. *)
Theorem merge_sheets_to_ebook_outcome (W : World) (output_dir : str)
    (pdf_files : list str) (output_filename : str) (add_bookmarks : bool)
    (st : State) :
  let r := merge_sheets_to_ebook W output_dir pdf_files output_filename
             add_bookmarks st in
  let parts := List.map (chapter_entry add_bookmarks)
                 (List.filter (exists_ st) pdf_files) in
  (forall e, fst r = Raise e -> is_Exception e = false) /\
  (List.filter (exists_ st) pdf_files = [] -> fst r = Ok None) /\
  (fst r = Ok None -> fs (snd r) = fs st) /\
  (forall path, fst r = Ok (Some path) ->
     path = join output_dir output_filename /\
     exists n,
       merger_write W parts = Ok n /\
       fs (snd r)
       = <[path := {| nbytes := n; doc := MergedPDF parts |}]> (fs st)).
Proof.
  cbn zeta.
  destruct (List.filter (exists_ st) pdf_files) as [|f0 existing] eqn:Hf.
  { destruct (merge_sheets_to_ebook_none W output_dir pdf_files
                output_filename add_bookmarks st Hf) as [H1 H2].
    rewrite H1. split; [discriminate|]. split; [reflexivity|].
    split; [intros _; exact H2 | discriminate]. }
  rewrite (merge_sheets_to_ebook_eq W output_dir f0 existing pdf_files
             output_filename add_bookmarks st Hf).
  pose proof (append_all_fs W add_bookmarks (f0 :: existing)
                (logged (Log INFO "Merging PDFs into ebook" []) st)) as Hfs.
  pose proof (append_all_Ok W add_bookmarks (f0 :: existing)
                (logged (Log INFO "Merging PDFs into ebook" []) st)) as Hok.
  destruct (append_all W add_bookmarks (f0 :: existing) _)
    as [[parts|e] st2]; cbn [snd] in Hfs.
  - destruct (Hok _ _ eq_refl) as [-> _].
    destruct (merger_write W _) as [n|e] eqn:Ew.
    + cbn [fst snd]. split; [discriminate|]. split; [discriminate|].
      split; [discriminate|]. intros path [= <-]. split; [reflexivity|].
      exists n. split; [reflexivity|]. cbn [fs logged written].
      rewrite Hfs. reflexivity.
    + destruct (is_Exception e) eqn:Ee; cbn [fst snd].
      * split; [discriminate|]. split; [discriminate|].
        split; [intros _; exact Hfs | discriminate].
      * split; [intros e' [= <-]; exact Ee|]. split; [discriminate|].
        split; discriminate.
  - destruct (is_Exception e) eqn:Ee; cbn [fst snd].
    + split; [discriminate|]. split; [discriminate|].
      split; [intros _; exact Hfs | discriminate].
    + split; [intros e' [= <-]; exact Ee|]. split; [discriminate|].
      split; discriminate.
Qed.

(** X5: the last stage of [main] returns the exit code 0 exactly when the
    merged file exists, is not empty and its pages can be read, and the exit
    code 1 exactly when the file is missing or empty; it writes no file. *)
Theorem finish_exit_code (W : World) (path : str)
    (chapters succeeded requested : nat) (st : State) :
  let r := Main.finish W path chapters succeeded requested st in
  (fst r = Ok 0%Z <->
   exists f n, fs st !! path = Some f /\ (0 < nbytes f)%N /\
               pdf_reader W path = Ok n) /\
  (fst r = Ok 1%Z <->
   match fs st !! path with
   | Some f => nbytes f = 0%N
   | None => True
   end) /\
  fs (snd r) = fs st.
Proof.
  cbn zeta. split; [|split; [|apply finish_fs]].
  - split.
    + intros H0. destruct (fs st !! path) as [f|] eqn:Hf.
      * destruct (N.eq_dec (nbytes f) 0) as [Hz|Hnz].
        -- rewrite (finish_invalid W path st _ _ _) in H0;
             [discriminate H0 | rewrite Hf; exact Hz].
        -- assert (0 < nbytes f)%N as Hsz by lia.
           destruct (pdf_reader W path) as [n|e] eqn:Hr.
           ++ exists f, n. auto.
           ++ destruct (finish_valid_Raise W path st f e chapters succeeded
                          requested Hf Hsz Hr) as [e' He'].
              rewrite He' in H0. discriminate H0.
      * rewrite (finish_invalid W path st _ _ _) in H0;
          [discriminate H0 | rewrite Hf; exact I].
    + intros (f & n & Hf & Hsz & Hr).
      exact (finish_valid_Ok W path st f n _ _ _ Hf Hsz Hr).
  - split; [|apply finish_invalid].
    intros H1. destruct (fs st !! path) as [f|] eqn:Hf; [|exact I].
    destruct (N.eq_dec (nbytes f) 0) as [Hz|Hnz]; [exact Hz|].
    assert (0 < nbytes f)%N as Hsz by lia.
    destruct (pdf_reader W path) as [n|e] eqn:Hr.
    + rewrite (finish_valid_Ok W path st f n _ _ _ Hf Hsz Hr) in H1.
      discriminate H1.
    + destruct (finish_valid_Raise W path st f e chapters succeeded
                  requested Hf Hsz Hr) as [e' He'].
      rewrite He' in H1. discriminate H1.
Qed.

(** ** The exit code of [main] and the sheets it processes *)

Module ExitFacts.

Import Main PDFMerger ThreadManager Scenarios MainFacts OrderFacts MergeFacts
  Derived.

Lemma bind_Ok_inv {S A B} (m : M S A) (k : A -> M S B) (st : S) (b : B) :
  fst (bind m k st) = Ok b ->
  exists a st', m st = (Ok a, st') /\ bind m k st = k a st'.
Proof.
  unfold bind. destruct (m st) as [[a|e] st']; [eauto | discriminate].
Qed.

Lemma elem_In (s : str) (l : list str) : elem s l = true <-> In s l.
Proof.
  unfold elem. rewrite existsb_exists. split.
  - intros (x & Hx & Hb). apply bool_decide_eq_true in Hb. subst; exact Hx.
  - intros H. exists s. split; [exact H|]. apply bool_decide_eq_true.
    reflexivity.
Qed.

Lemma filter_idem {A} (g : A -> bool) (l : list A) :
  List.filter g (List.filter g l) = List.filter g l.
Proof. apply filter_all. intros a Ha. apply filter_In in Ha. tauto. Qed.

Lemma filter_elem_self (names : list str) :
  List.filter (fun s => elem s names) names = names.
Proof. apply filter_all. intros a Ha. apply elem_In, Ha. Qed.

Lemma select_sheets_eq (args : Args) (sheet_names : list str) (st : State) :
  fst (select_sheets args sheet_names st)
  = Ok (sheets_to_process args sheet_names) /\
  fs (snd (select_sheets args sheet_names st)) = fs st /\
  (snd (select_sheets args sheet_names st) = st \/
   snd (select_sheets args sheet_names st)
   = logged (Log WARNING "Sheets not found" []) st).
Proof.
  unfold select_sheets, sheets_to_process.
  destruct (sheets args) as [[|s0 requested]|].
  - rewrite filter_elem_self. repeat split. left; reflexivity.
  - cbv beta iota.
    destruct (existsb (fun s => negb (elem s sheet_names)) (s0 :: requested))
      eqn:E.
    + split; [reflexivity|]. split; [reflexivity|]. right; reflexivity.
    + split; [|split; [reflexivity | left; reflexivity]].
      cbn [ret fst]. f_equal. symmetry. apply filter_all. intros a Ha.
      destruct (elem a sheet_names) eqn:Ea; [reflexivity|].
      assert (existsb (fun s => negb (elem s sheet_names)) (s0 :: requested)
              = true) as E'; [|congruence].
      apply existsb_exists. exists a. rewrite Ea. split; [exact Ha|reflexivity].
  - rewrite filter_elem_self. repeat split. left; reflexivity.
Qed.

Lemma sheets_to_process_filter (args : Args) (sheet_names : list str) :
  List.filter (fun s => elem s sheet_names)
    (sheets_to_process args sheet_names)
  = sheets_to_process args sheet_names.
Proof. apply filter_idem. Qed.

Lemma exit_ret_0 : exit_code_or_raise (ret 0%Z).
Proof. intros st; left; reflexivity. Qed.

Lemma exit_ret_1 : exit_code_or_raise (ret 1%Z).
Proof. intros st; right; left; reflexivity. Qed.

Lemma exit_bind {A} (m : M State A) (k : A -> M State Z) :
  (forall a, exit_code_or_raise (k a)) -> exit_code_or_raise (bind m k).
Proof.
  intros Hk st. unfold bind. destruct (m st) as [[a|e] st'].
  - apply Hk.
  - right; right; exists e; reflexivity.
Qed.

Section WithWorld.
Context {U : UnicodeData} (W : World).

Lemma exit_finish (path : str) (chapters succeeded requested : nat) :
  exit_code_or_raise (finish W path chapters succeeded requested).
Proof.
  unfold finish. apply exit_bind. intros valid. destruct valid; cbn [negb].
  - apply exit_bind. intros stats. apply exit_bind. intros _. apply exit_ret_0.
  - apply exit_bind. intros _. apply exit_ret_1.
Qed.

Lemma exit_merge_and_report (args : Args) (sheets_to_process : list str)
    (results : gmap (list N) (list N)) :
  exit_code_or_raise (merge_and_report W args sheets_to_process results).
Proof.
  unfold merge_and_report. destruct (bool_decide (results = ∅)).
  - apply exit_bind. intros _. apply exit_ret_1.
  - destruct (pdf_files_of sheets_to_process results).
    + apply exit_bind. intros _. apply exit_ret_1.
    + apply exit_bind. intros final.
      destruct (negb (truthy_result final)).
      * apply exit_bind. intros _. apply exit_ret_1.
      * apply exit_finish.
Qed.

Lemma exit_run (args : Args) (completed : list nat) :
  exit_code_or_raise (run W args completed).
Proof.
  unfold run.
  apply exit_bind; intros _.
  apply exit_bind; intros styles.
  apply exit_bind; intros info.
  apply exit_bind; intros sheets_to_process.
  destruct sheets_to_process; [apply exit_ret_1|].
  apply exit_bind; intros _.
  unfold pipeline. apply exit_bind; intros _.
  apply exit_bind; intros results.
  apply exit_merge_and_report.
Qed.

(** [main], case by case on what [run] does after the banner. *)
Lemma main_eq (args : Args) (completed : list nat) (st : State) :
  main W args completed st
  = let st0 := logged (Print "Vietnamese PDF Ebook Generator" []) st in
    if negb (validate_setup W args)
    then (Ok 1%Z, logged (Print "Setup validation failed" []) st0)
    else match run W args completed st0 with
         | (Ok code, st') => (Ok code, st')
         | (Raise KeyboardInterrupt, st') =>
             (Ok 1%Z, logged (Log INFO "Process interrupted by user" []) st')
         | (Raise e, st') =>
             (Ok 1%Z, logged (Log ERROR "Unexpected error" (lit (exn_name e)))
                        st')
         end.
Proof.
  unfold main, bind at 1. cbn [emit modify]. cbn zeta.
  destruct (negb (validate_setup W args)); [reflexivity|].
  destruct (run W args completed _) as [[code|e] st']; [reflexivity|].
  destruct e; reflexivity.
Qed.

(** [run] with more than one sheet to process stops at the estimate. *)
Lemma run_several_sheets (args : Args) (completed : list nat) (st : State)
    (title : str) (sheet_names : list str) :
  spreadsheet_info W = Ok (title, sheet_names) ->
  (1 < length (sheets_to_process args sheet_names))%nat ->
  exists e st', run W args completed st = (Raise e, st') /\ fs st' = fs st.
Proof.
  intros Hinfo Hlen. unfold run.
  unfold bind at 1, lift.
  destruct (reader_init W) as [u|e]; [|eauto].
  unfold bind at 1.
  destruct (StyleManager.BusinessStyleManager _ _) as [styles|e]; [|eauto].
  unfold bind at 1. rewrite Hinfo. cbn [snd].
  unfold bind at 1.
  destruct (select_sheets_eq args sheet_names st) as (Hsel & Hfs & _).
  destruct (select_sheets args sheet_names st) as [[l|e] st1];
    cbn [fst snd] in Hsel, Hfs; [|discriminate Hsel].
  injection Hsel as ->.
  pose proof (sheets_to_process_filter args sheet_names) as Hfil.
  destruct (sheets_to_process args sheet_names) as [|s0 rest] eqn:El;
    [simpl in Hlen; lia|].
  rewrite Hfil. apply Nat.ltb_lt in Hlen. rewrite Hlen.
  unfold bind at 1. cbn [getattr methods existsb String.eqb].
  eexists _, _. split; [reflexivity | exact Hfs].
Qed.

(** [run] when its collaborators can be set up. *)
Lemma run_eq (args : Args) (completed : list nat) (st : State) (u : unit)
    (styles : gmap string StyleManager.ParagraphStyle) (title : str)
    (sheet_names : list str) :
  reader_init W = Ok u ->
  StyleManager.BusinessStyleManager (sample_styles W) (base_font W)
  = Ok styles ->
  spreadsheet_info W = Ok (title, sheet_names) ->
  run W args completed st
  = match sheets_to_process args sheet_names with
    | [] => (Ok 1%Z, snd (select_sheets args sheet_names st))
    | [s] =>
        pipeline W args styles
          (ThreadManager.__init__ (cpu_count W) (Some (max_threads W args)))
          [s] completed (snd (select_sheets args sheet_names st))
    | _ :: _ :: _ =>
        (Raise AttributeError, snd (select_sheets args sheet_names st))
    end.
Proof.
  intros Hr Hs Hi. unfold run. unfold bind at 1, lift. rewrite Hr.
  unfold bind at 1. rewrite Hs. unfold bind at 1. rewrite Hi. cbn [snd].
  unfold bind at 1.
  destruct (select_sheets_eq args sheet_names st) as (Hsel & _ & _).
  destruct (select_sheets args sheet_names st) as [[l|e] st1];
    cbn [fst snd] in *; [|discriminate Hsel].
  injection Hsel as ->.
  pose proof (sheets_to_process_filter args sheet_names) as Hfil.
  destruct (sheets_to_process args sheet_names) as [|s0 rest];
    [reflexivity|].
  rewrite Hfil. destruct rest as [|s1 rest].
  - reflexivity.
  - reflexivity.
Qed.

(** [run] returns 0 only from the pipeline on a single sheet. *)
Lemma run_Ok_0 (args : Args) (completed : list nat) (st : State) :
  fst (run W args completed st) = Ok 0%Z ->
  exists styles title sheet_names s st1,
    spreadsheet_info W = Ok (title, sheet_names) /\
    sheets_to_process args sheet_names = [s] /\
    run W args completed st
    = pipeline W args styles
        (ThreadManager.__init__ (cpu_count W) (Some (max_threads W args)))
        [s] completed st1.
Proof.
  intros H0.
  destruct (reader_init W) as [u|e] eqn:Hr.
  2:{ unfold run, bind at 1, lift in H0. rewrite Hr in H0. discriminate H0. }
  destruct (StyleManager.BusinessStyleManager (sample_styles W) (base_font W))
    as [styles|e] eqn:Hs.
  2:{ unfold run, bind at 1, lift in H0. rewrite Hr in H0.
      unfold bind at 1 in H0. rewrite Hs in H0. discriminate H0. }
  destruct (spreadsheet_info W) as [[title names]|e] eqn:Hi.
  2:{ unfold run, bind at 1, lift in H0. rewrite Hr in H0.
      unfold bind at 1 in H0. rewrite Hs in H0.
      unfold bind at 1 in H0. rewrite Hi in H0. discriminate H0. }
  rewrite (run_eq args completed st u styles title names Hr Hs Hi) in *.
  destruct (sheets_to_process args names) as [|s0 [|s1 rest]] eqn:El;
    [discriminate H0 | | discriminate H0].
  exists styles, title, names, s0, (snd (select_sheets args names st)).
  auto.
Qed.

Lemma finish_Ok_0_inv (path : str) (chapters succeeded requested : nat)
    (st : State) :
  fst (finish W path chapters succeeded requested st) = Ok 0%Z ->
  exists f n, fs st !! path = Some f /\ (0 < nbytes f)%N /\
              pdf_reader W path = Ok n.
Proof.
  intros H0. destruct (fs st !! path) as [f|] eqn:Hf.
  - destruct (N.eq_dec (nbytes f) 0) as [Hz|Hnz].
    + rewrite (finish_invalid W path st _ _ _) in H0;
        [discriminate H0 | rewrite Hf; exact Hz].
    + assert (0 < nbytes f)%N as Hsz by lia.
      destruct (pdf_reader W path) as [n|e] eqn:Hr.
      * exists f, n. auto.
      * destruct (finish_valid_Raise W path st f e chapters succeeded
                    requested Hf Hsz Hr) as [e' He'].
        rewrite He' in H0. discriminate H0.
  - rewrite (finish_invalid W path st _ _ _) in H0;
      [discriminate H0 | rewrite Hf; exact I].
Qed.

(** When the stages after the scheduler return 0, the merged file is in
    place, with the existing task files as its chapters. *)
Lemma merge_and_report_Ok_0 (args : Args) (sheets_to_process : list str)
    (results : gmap (list N) (list N)) (st : State) :
  fst (merge_and_report W args sheets_to_process results st) = Ok 0%Z ->
  let path := join (join (env_output_dir W) (lit "final")) (output args) in
  let files := List.filter (exists_ st)
                 (pdf_files_of sheets_to_process results) in
  files <> [] /\
  exists f n,
    fs (snd (merge_and_report W args sheets_to_process results st)) !! path
    = Some f /\
    (0 < nbytes f)%N /\ pdf_reader W path = Ok n /\
    doc f = MergedPDF (List.map (chapter_entry (negb (no_bookmarks args)))
                         files).
Proof.
  cbn zeta. unfold merge_and_report.
  destruct (bool_decide (results = ∅)); [discriminate|].
  destruct (pdf_files_of sheets_to_process results) as [|p0 files] eqn:Ep;
    [discriminate|].
  intros H0. destruct (bind_Ok_inv _ _ _ _ H0) as (final & st1 & Hm & Hb).
  rewrite Hb in *. clear Hb.
  destruct final as [path|]; [|discriminate H0].
  cbn [truthy_result] in *. destruct (truthy path); [|discriminate H0].
  cbn [negb default from_option] in *. unfold id in *.
  split.
  { intros Hnil.
    destruct (merge_sheets_to_ebook_none W
                (join (env_output_dir W) (lit "final")) (p0 :: files)
                (output args) (negb (no_bookmarks args)) st Hnil) as [Hn _].
    rewrite Hm in Hn. discriminate Hn. }
  destruct (merge_sheets_to_ebook_Ok W _ _ _ _ _ _ _ Hm) as (-> & n & Hp).
  destruct (finish_Ok_0_inv _ _ _ _ _ H0) as (f & pages & Hf & Hsz & Hr).
  exists f, pages. rewrite finish_fs. rewrite Hp in Hf. injection Hf as <-.
  rewrite Hp. repeat split; [exact Hsz | exact Hr].
Qed.

End WithWorld.

End ExitFacts.

Import ExitFacts.

(** X6: the sheets [main] selects are the requested names that the
    spreadsheet has, in the requested order and with their repetitions, or
    all the names of the spreadsheet when no name is requested; the
    selection writes no file, every selected name is a sheet of the
    spreadsheet, and filtering the selection by the spreadsheet's names
    again, as [main] does, changes nothing. *)
Theorem select_sheets_selection (args : Main.Args) (sheet_names : list str)
    (st : State) :
  let r := Main.select_sheets args sheet_names st in
  let requested := match Main.sheets args with
                   | Some ((_ :: _) as l) => l
                   | _ => sheet_names
                   end in
  exists selected,
    fst r = Ok selected /\
    selected = List.filter (fun s => bool_decide (s ∈ sheet_names)) requested /\
    (forall s, In s selected -> In s sheet_names) /\
    List.filter (fun s => Main.elem s sheet_names) selected = selected /\
    (Main.sheets args = None -> selected = sheet_names) /\
    fs (snd r) = fs st.
Proof.
  cbn zeta. destruct (select_sheets_eq args sheet_names st) as (Hs & Hfs & _).
  exists (sheets_to_process args sheet_names).
  split; [exact Hs|]. split.
  { unfold sheets_to_process. apply filter_ext. intros s.
    destruct (Main.elem s sheet_names) eqn:E.
    - symmetry. apply bool_decide_eq_true, list_elem_of_In, elem_In, E.
    - symmetry. apply bool_decide_eq_false. intros Hin.
      apply list_elem_of_In, elem_In in Hin. congruence. }
  split.
  { intros s Hin. unfold sheets_to_process in Hin. apply filter_In in Hin.
    apply elem_In, Hin. }
  split; [apply filter_idem|]. split; [|exact Hfs].
  intros Hnone. unfold sheets_to_process. rewrite Hnone.
  apply filter_elem_self.
Qed.

(** X7: once the command line and the configuration are parsed, [main]
    raises nothing: for every setup, every answer of its collaborators and
    every completion order it returns the exit code 0 or the exit code 1. *)
Theorem main_returns_0_or_1 (U : UnicodeData) (W : World) (args : Main.Args)
    (completed : list nat) (st : State) :
  fst (Main.main W args completed st) = Ok 0%Z \/
  fst (Main.main W args completed st) = Ok 1%Z.
Proof.
  rewrite main_eq. cbn zeta.
  destruct (negb (Main.validate_setup W args)); [right; reflexivity|].
  pose proof (exit_run W args completed
                (logged (Print "Vietnamese PDF Ebook Generator" []) st)) as H.
  destruct (Main.run W args completed _) as [[code|e] st']; cbn [fst] in *.
  - destruct H as [H|[H|[e H]]]; [left|right|discriminate H]; exact H.
  - right. destruct e; reflexivity.
Qed.

(** X8: when the spreadsheet has more than one sheet to process, [main]
    returns the exit code 1 and writes no file, whatever the collaborators
    answer: the run stops at the processing-time estimate, before any task
    is scheduled. *)
Theorem main_several_sheets_exit_1 (U : UnicodeData) (W : World)
    (args : Main.Args) (completed : list nat) (st : State)
    (title : str) (sheet_names : list str) :
  spreadsheet_info W = Ok (title, sheet_names) ->
  (1 < length (sheets_to_process args sheet_names))%nat ->
  fst (Main.main W args completed st) = Ok 1%Z /\
  fs (snd (Main.main W args completed st)) = fs st.
Proof.
  intros Hinfo Hlen. rewrite main_eq. cbn zeta.
  destruct (negb (Main.validate_setup W args)); [split; reflexivity|].
  destruct (run_several_sheets W args completed
              (logged (Print "Vietnamese PDF Ebook Generator" []) st)
              title sheet_names Hinfo Hlen) as (e & st' & Hrun & Hfs).
  rewrite Hrun. destruct e; split; first [reflexivity | exact Hfs].
Qed.

Lemma main_several_sheets_exit_1_witness :
  spreadsheet_info world_ABC_full = Ok (lit "Book", [sheet_A; sheet_B; sheet_C])
  /\ (1 < length (sheets_to_process (args_all None)
                    [sheet_A; sheet_B; sheet_C]))%nat
  /\ fst (Main.main (U:=basic_latin) world_ABC_full (args_all None) []
            empty_state) = Ok 1%Z
  /\ fs (snd (Main.main (U:=basic_latin) world_ABC_full (args_all None) []
                empty_state)) = fs empty_state.
Proof.
  split; [reflexivity|]. split; [vm_compute; lia|].
  apply (main_several_sheets_exit_1 basic_latin world_ABC_full (args_all None)
           [] empty_state (lit "Book") [sheet_A; sheet_B; sheet_C]);
    [reflexivity | vm_compute; lia].
Defined.

(** X9: when [main] returns the exit code 0, the setup is valid, exactly one
    sheet was to be processed, and the merged ebook is in place under the
    requested file name in the final directory: a file that is not empty,
    whose pages can be read, and that holds one chapter. *)
Theorem main_exit_0_ebook (U : UnicodeData) (W : World) (args : Main.Args)
    (completed : list nat) (st : State) :
  fst (Main.main W args completed st) = Ok 0%Z ->
  let path := join (join (env_output_dir W) (lit "final")) (Main.output args) in
  Main.validate_setup W args = true /\
  (exists title sheet_names s,
     spreadsheet_info W = Ok (title, sheet_names) /\
     sheets_to_process args sheet_names = [s]) /\
  exists f n pdf_file,
    fs (snd (Main.main W args completed st)) !! path = Some f /\
    (0 < nbytes f)%N /\ pdf_reader W path = Ok n /\
    doc f = MergedPDF [chapter_entry (negb (Main.no_bookmarks args)) pdf_file].
Proof.
  rewrite main_eq. cbn zeta.
  destruct (Main.validate_setup W args); cbn [negb]; [|discriminate].
  intros H0. split; [reflexivity|].
  destruct (Main.run W args completed
              (logged (Print "Vietnamese PDF Ebook Generator" []) st))
    as [[code|e] st'] eqn:Erun; [|destruct e; discriminate H0].
  cbn [fst snd] in *. injection H0 as ->.
  assert (fst (Main.run W args completed
                 (logged (Print "Vietnamese PDF Ebook Generator" []) st))
          = Ok 0%Z) as Hrun by (rewrite Erun; reflexivity).
  destruct (run_Ok_0 W args completed _ Hrun)
    as (styles & title & names & s & st1 & Hinfo & Hsel & Heq).
  replace st' with (snd (Main.run W args completed
                           (logged (Print "Vietnamese PDF Ebook Generator" [])
                              st))) by (rewrite Erun; reflexivity).
  clear Erun.
  split; [exists title, names, s; auto|].
  rewrite Heq in *. clear Heq. unfold Main.pipeline in *.
  destruct (bind_Ok_inv _ _ _ _ Hrun) as ([] & st2 & _ & Hb).
  rewrite Hb in *. clear Hb.
  destruct (bind_Ok_inv _ _ _ _ Hrun) as (results & st3 & _ & Hb).
  rewrite Hb in *. clear Hb.
  destruct (merge_and_report_Ok_0 W args [s] results st3 Hrun)
    as (Hne & f & n & Hf & Hsz & Hr & Hdoc).
  exists f, n.
  assert (exists p, List.filter (exists_ st3) (Main.pdf_files_of [s] results)
                    = [p]) as [p Hp].
  { unfold Main.pdf_files_of in *. cbn [flat_map] in *.
    rewrite app_nil_r in *.
    destruct (results !! s) as [q|]; [|contradiction Hne; reflexivity].
    destruct (truthy q); [|contradiction Hne; reflexivity].
    cbn [List.filter] in *. destruct (exists_ st3 q);
      [eauto | contradiction Hne; reflexivity]. }
  exists p. rewrite Hp in Hdoc. auto.
Qed.

Lemma main_exit_0_ebook_witness :
  fst (Main.main (U:=basic_latin) world_ABC_full (args_all (Some [sheet_A]))
         [0%nat] empty_state) = Ok 0%Z /\
  Main.validate_setup world_ABC_full (args_all (Some [sheet_A])) = true /\
  (exists title sheet_names s,
     spreadsheet_info world_ABC_full = Ok (title, sheet_names) /\
     sheets_to_process (args_all (Some [sheet_A])) sheet_names = [s]) /\
  exists f n pdf_file,
    fs (snd (Main.main (U:=basic_latin) world_ABC_full
               (args_all (Some [sheet_A])) [0%nat] empty_state))
      !! join (join (env_output_dir world_ABC_full) (lit "final"))
           (Main.output (args_all (Some [sheet_A])))
    = Some f /\
    (0 < nbytes f)%N /\
    pdf_reader world_ABC_full
      (join (join (env_output_dir world_ABC_full) (lit "final"))
         (Main.output (args_all (Some [sheet_A])))) = Ok n /\
    doc f = MergedPDF [chapter_entry
                         (negb (Main.no_bookmarks (args_all (Some [sheet_A]))))
                         pdf_file].
Proof.
  assert (fst (Main.main (U:=basic_latin) world_ABC_full
                 (args_all (Some [sheet_A])) [0%nat] empty_state) = Ok 0%Z)
    as H0 by (vm_compute; reflexivity).
  split; [exact H0|].
  exact (main_exit_0_ebook basic_latin world_ABC_full
           (args_all (Some [sheet_A])) [0%nat] empty_state H0).
Defined.

(** ** Blocks, their kinds and the story made of them *)

Module BlockFacts.

Import ContentProcessor PyFacts ContentFacts RowFacts Scenarios Derived
  StyleManager PDFGenerator.

Section WithUnicode.
Context {U : UnicodeData}.

Lemma process_row_eq (i : nat) (raw : str) :
  process_row i raw
  = if kept_row raw
    then Some {| type := detect_content_type (clean_vietnamese_text raw);
                 content := clean_vietnamese_text raw;
                 original_index := i;
                 original_length := length raw |}
    else None.
Proof.
  unfold process_row, kept_row.
  destruct (truthy raw); [|reflexivity].
  destruct (truthy (strip raw)); [|reflexivity].
  cbn [negb orb andb].
  destruct (length (clean_vietnamese_text raw) <? paragraph_min_length)%nat;
    reflexivity.
Qed.

Lemma process_rows_content (k : nat) (rows : list str) :
  List.map content (process_rows k rows)
  = List.map clean_vietnamese_text (List.filter kept_row rows).
Proof.
  revert k. induction rows as [|raw rest IH]; intros k; [reflexivity|].
  cbn [process_rows List.filter]. rewrite process_row_eq.
  destruct (kept_row raw); cbn [List.map content]; rewrite IH; reflexivity.
Qed.

Lemma process_rows_length (k : nat) (rows : list str) :
  (length (process_rows k rows) <= length rows)%nat.
Proof.
  revert k. induction rows as [|raw rest IH]; intros k; [reflexivity|].
  cbn [process_rows]. specialize (IH (S k)).
  destruct (process_row k raw); cbn [length]; lia.
Qed.

Lemma process_rows_index_ge (k : nat) (rows : list str) (b : block) :
  In b (process_rows k rows) -> (k <= original_index b)%nat.
Proof.
  intros H. apply process_rows_In in H as (j & raw & _ & Hb).
  apply process_row_Some in Hb as (Hi & _). lia.
Qed.

(** The blocks come in the order of their rows. *)
Lemma process_rows_increasing (k : nat) (rows : list str) (i j : nat)
    (b1 b2 : block) :
  process_rows k rows !! i = Some b1 -> process_rows k rows !! j = Some b2 ->
  (i < j)%nat -> (original_index b1 < original_index b2)%nat.
Proof.
  revert k i j. induction rows as [|raw rest IH]; intros k i j.
  - destruct i; discriminate.
  - cbn [process_rows]. destruct (process_row k raw) as [b0|] eqn:E;
      [|apply IH].
    destruct j as [|j]; [lia|]. destruct i as [|i].
    + intros H1 H2 _.
      change (Some b0 = Some b1) in H1. injection H1 as <-.
      change (process_rows (S k) rest !! j = Some b2) in H2.
      apply process_row_Some in E as (Hi & _).
      apply list_elem_of_lookup_2, list_elem_of_In, process_rows_index_ge in H2.
      lia.
    + intros H1 H2 Hlt. apply (IH (S k) i j); [exact H1 | exact H2 | lia].
Qed.

Lemma detect_content_type_empty (text : str) :
  detect_content_type text = empty <-> text = [].
Proof.
  unfold detect_content_type. destruct text as [|c text]; [tauto|].
  cbn [truthy negb]. split; [|discriminate].
  destruct (_ || _ || _); [discriminate|].
  destruct (_ && _); discriminate.
Qed.

Lemma startswith_single (c : N) (s : str) :
  startswith [c] s = true -> In c s.
Proof.
  destruct s as [|x s]; [discriminate|]. cbn [startswith].
  rewrite andb_true_r. intros H. apply N.eqb_eq in H. left. auto.
Qed.

Lemma detect_content_type_dialog (text : str) :
  detect_content_type text = dialog <->
  text <> [] /\
  (In c_dquote (strip text) \/ startswith [c_em_dash] (strip text) = true).
Proof.
  unfold detect_content_type. destruct text as [|c text].
  - cbn [truthy negb]. split; [discriminate | intros [H _]; contradiction].
  - cbn [truthy negb]. cbv zeta.
    destruct (has_char c_dquote (strip (c :: text))) eqn:Eh.
    + cbn [orb]. split; [|reflexivity]. intros _. split; [discriminate|].
      left. apply has_char_In, Eh.
    + cbn [orb].
      destruct (startswith [c_dquote] (strip (c :: text))) eqn:Eq.
      { apply startswith_single, has_char_In in Eq. congruence. }
      cbn [orb].
      destruct (startswith [c_em_dash] (strip (c :: text))) eqn:Em.
      * split; [|reflexivity]. intros _. split; [discriminate|]. right.
        reflexivity.
      * split.
        -- destruct (_ && _); discriminate.
        -- intros [_ [H|H]]; [|discriminate H].
           apply has_char_In in H. congruence.
Qed.

Lemma detect_content_type_header (text : str) :
  detect_content_type text = header -> (length (strip text) < 100)%nat.
Proof.
  unfold detect_content_type. destruct (negb (truthy text)); [discriminate|].
  cbv zeta. destruct (_ || _ || _); [discriminate|].
  destruct (length (strip text) <? 100)%nat eqn:E; [|discriminate].
  intros _. apply Nat.ltb_lt, E.
Qed.

Lemma detect_content_type_strip (text : str) :
  strip text <> [] -> detect_content_type (strip text) = detect_content_type text.
Proof.
  intros Hs. unfold detect_content_type. rewrite strip_idem.
  destruct text as [|c text]; [contradiction Hs; reflexivity|].
  destruct (strip (c :: text)) as [|d r] eqn:E; [contradiction Hs; reflexivity|].
  reflexivity.
Qed.

(** Every character of a cleaned text is one of the normalised text or one
    the table puts in. *)
Lemma apply_replacements_In (c : N) (t : str) :
  In c (apply_replacements replacements t) ->
  In c t \/ In c replacement_chars.
Proof.
  rewrite apply_replacements_eq. intros H.
  apply replace_go_In in H as [H|H];
    [|right; simpl in *; destruct H as [<-|[]]; tauto].
  apply replace_go_In in H as [H|H];
    [|right; simpl in *; destruct H as [<-|[]]; tauto].
  apply replace_go_In in H as [H|H];
    [|right; simpl in *; destruct H as [<-|[]]; tauto].
  apply replace_go_In in H as [H|H];
    [|right; simpl in *; destruct H as [<-|[]]; tauto].
  apply replace_go_In in H as [H|H];
    [left; exact H | right; simpl in *; destruct H as [<-|[]]; tauto].
Qed.

Section WithWorld.
Context (W : World) (styles : gmap string ParagraphStyle).

Lemma build_blocks_texts (blocks : list block) (story : list flowable) :
  build_blocks W styles blocks = Ok story ->
  paragraph_texts story
  = List.map content
      (List.filter (fun b => truthy (strip (content b))) blocks) /\
  length story = (2 * length (paragraph_texts story))%nat.
Proof.
  revert story. induction blocks as [|b rest IH]; intros story.
  - cbn [build_blocks]. intros [= <-]. split; reflexivity.
  - cbn [build_blocks List.filter].
    destruct (truthy (strip (content b))); cbn [negb]; [|apply IH].
    destruct (get_style styles _) as [style|e]; cbn [rbind]; [|discriminate].
    unfold make_paragraph. destruct (paragraph_error W (content b));
      cbn [rbind]; [discriminate|].
    destruct (build_blocks W styles rest) as [story'|e]; cbn [rbind];
      [|discriminate].
    intros [= <-]. destruct (IH _ eq_refl) as [IH1 IH2].
    cbn [paragraph_texts flat_map app List.map length].
    fold (paragraph_texts story'). rewrite IH1, IH2.
    split; [reflexivity|]. rewrite IH1. lia.
Qed.

Lemma build_story_texts (sheet_name : str) (blocks : list block)
    (story : list flowable) :
  _build_story W styles sheet_name blocks = Ok story ->
  paragraph_texts story
  = (if _is_chapter_title sheet_name then [sheet_name] else []) ++
    List.map content
      (List.filter (fun b => truthy (strip (content b))) blocks) /\
  length story = (2 * length (paragraph_texts story))%nat.
Proof.
  unfold _build_story. destruct (_is_chapter_title sheet_name).
  - destruct (get_style styles "BusinessChapter") as [style|e]; cbn [rbind];
      [|discriminate].
    unfold make_paragraph. destruct (paragraph_error W sheet_name);
      cbn [rbind]; [discriminate|].
    destruct (build_blocks W styles blocks) as [body|e] eqn:Eb; cbn [rbind];
      [|discriminate].
    intros [= <-]. destruct (build_blocks_texts _ _ Eb) as [H1 H2].
    cbn [app paragraph_texts flat_map length]. fold (paragraph_texts body).
    rewrite H1, H2. split; [reflexivity|]. rewrite H1. lia.
  - cbn [rbind].
    destruct (build_blocks W styles blocks) as [body|e] eqn:Eb; cbn [rbind];
      [|discriminate].
    intros [= <-]. exact (build_blocks_texts _ _ Eb).
Qed.

End WithWorld.

(** No block of the content processor has blank content. *)
Lemma process_rows_not_blank (k : nat) (rows : list str) :
  List.filter (fun b => truthy (strip (content b))) (process_rows k rows)
  = process_rows k rows.
Proof.
  apply OrderFacts.filter_all. intros b Hb.
  apply process_rows_In in Hb as (j & raw & _ & Hrow).
  apply process_row_Some in Hrow as (_ & Hc & Hlen).
  rewrite Hc, clean_strip_fixed.
  unfold paragraph_min_length in Hlen.
  destruct (clean_vietnamese_text raw); [simpl in Hlen; lia | reflexivity].
Qed.

End WithUnicode.

End BlockFacts.

Import BlockFacts.

(** X10: the blocks [process_sheet_content] returns are the cleaned texts of
    the rows that are not blank and clean to at least ten characters, in the
    order of the rows.  Each block records the index and the length of its
    row and the kind of its content; its content has at least ten
    characters, no white space at either end, no en dash and no three dots
    in a row, and its kind is never the kind of an empty text.  There are no
    more blocks than rows. *)
Theorem process_sheet_content_blocks (U : UnicodeData) (rows : list str) :
  let blocks := fst (process_sheet_content rows) in
  List.map content blocks
  = List.map clean_vietnamese_text (List.filter kept_row rows) /\
  (forall b, In b blocks ->
     exists raw,
       rows !! original_index b = Some raw /\ kept_row raw = true /\
       content b = clean_vietnamese_text raw /\
       original_length b = length raw /\
       type b = detect_content_type (content b) /\ type b <> empty /\
       (10 <= length (content b))%nat /\
       strip (content b) = content b /\
       ~ In c_en_dash (content b) /\
       contains three_dots (content b) = false) /\
  (forall i j b1 b2,
     blocks !! i = Some b1 -> blocks !! j = Some b2 -> (i < j)%nat ->
     (original_index b1 < original_index b2)%nat) /\
  (length blocks <= length rows)%nat.
Proof.
  assert (fst (process_sheet_content rows) = process_rows 0 rows) as ->
    by (destruct rows; reflexivity).
  cbn zeta. split; [apply process_rows_content|]. split; [|split].
  - intros b Hb. apply process_rows_In in Hb as (j & raw & Hj & Hrow).
    cbn [Nat.add] in Hrow. pose proof Hrow as Hrow'.
    apply process_row_Some in Hrow' as (_ & _ & Hlen).
    rewrite process_row_eq in Hrow.
    destruct (kept_row raw) eqn:Ek; [|discriminate Hrow].
    injection Hrow as <-. cbn [original_index content original_length type].
    exists raw. split; [exact Hj|]. split; [exact Ek|].
    split; [reflexivity|]. split; [reflexivity|]. split; [reflexivity|].
    split.
    { intros He. apply detect_content_type_empty in He. rewrite He in Hlen.
      unfold paragraph_min_length in Hlen. simpl in Hlen. lia. }
    split; [exact Hlen|]. split; [apply clean_strip_fixed|].
    split; [apply clean_no_en_dash | apply clean_no_dots].
  - apply process_rows_increasing.
  - apply process_rows_length.
Qed.

(** X11: [detect_content_type] answers empty for the empty text only; it
    answers dialog exactly when the text is not empty and, once stripped,
    holds the quotation mark U+0022 anywhere or starts with an em dash (the
    test for a leading quotation mark adds nothing); it answers header only
    for texts of fewer than 100 characters once stripped; and white space
    around a text that is not blank does not change the answer. *)
Theorem detect_content_type_cases (U : UnicodeData) (text : str) :
  (detect_content_type text = empty <-> text = []) /\
  (detect_content_type text = dialog <->
   text <> [] /\
   (In c_dquote (strip text) \/ startswith [c_em_dash] (strip text) = true)) /\
  (detect_content_type text = header -> (length (strip text) < 100)%nat) /\
  (strip text <> [] ->
   detect_content_type (strip text) = detect_content_type text).
Proof.
  split; [apply detect_content_type_empty|].
  split; [apply detect_content_type_dialog|].
  split; [apply detect_content_type_header | apply detect_content_type_strip].
Qed.

(** X12: [clean_vietnamese_text] never returns more characters than the
    normalised text has; every character it returns is a character of the
    normalised text or one of the five the replacement table writes; and a
    text that is not empty and whose normal form holds no two adjacent
    spaces, no en dash and no three dots in a row is only normalised and
    stripped, typographic quotation marks included. *)
Theorem clean_vietnamese_text_effect (U : UnicodeData) (text : str) :
  (length (clean_vietnamese_text text) <= length (normalize_NFC text))%nat /\
  (forall c, In c (clean_vietnamese_text text) ->
     In c (normalize_NFC text) \/ In c replacement_chars) /\
  (text <> [] ->
   contains two_spaces (normalize_NFC text) = false ->
   ~ In c_en_dash (normalize_NFC text) ->
   contains three_dots (normalize_NFC text) = false ->
   clean_vietnamese_text text = strip (normalize_NFC text)).
Proof.
  destruct text as [|x text].
  - rewrite clean_nil. split; [simpl; lia|].
    split; [intros c []|]. intros H; contradiction H; reflexivity.
  - rewrite clean_cons. split; [|split].
    + etransitivity; [apply strip_length | apply apply_replacements_length].
    + intros c Hc. apply In_strip in Hc. apply apply_replacements_In, Hc.
    + intros _ Hsp Hen Hdots.
      rewrite (apply_replacements_fixed _ Hsp Hen Hdots). reflexivity.
Qed.

(** X13: a story that [_build_story] returns holds the texts it was given
    and nothing else: the sheet name first when it is a chapter title, then
    the content of every block that is not blank, in the order of the
    blocks, each paragraph followed by one spacer.  For the blocks of
    [process_sheet_content] these are the cleaned texts of the rows it
    keeps.  When no story is returned, a style was missing or ReportLab
    refused a paragraph. *)
Theorem build_story_keeps_texts (U : UnicodeData) (W : World)
    (styles : gmap string ParagraphStyle) (sheet_name : str)
    (content_blocks : list block) (rows : list str) :
  let title := if _is_chapter_title sheet_name then [sheet_name] else [] in
  match _build_story W styles sheet_name content_blocks with
  | Ok story =>
      paragraph_texts story
      = title ++ List.map content
                   (List.filter (fun b => truthy (strip (content b)))
                      content_blocks) /\
      length story = (2 * length (paragraph_texts story))%nat
  | Raise e => e = KeyError \/ exists t, paragraph_error W t = Some e
  end /\
  match _build_story W styles sheet_name (fst (process_sheet_content rows)) with
  | Ok story =>
      paragraph_texts story
      = title ++ List.map clean_vietnamese_text (List.filter kept_row rows)
  | Raise e => e = KeyError \/ exists t, paragraph_error W t = Some e
  end.
Proof.
  cbn zeta. split.
  - destruct (_build_story W styles sheet_name content_blocks) as [story|e]
      eqn:E.
    + exact (build_story_texts W styles _ _ _ E).
    + exact (TaskFacts.build_story_raise W styles _ _ _ E).
  - assert (fst (process_sheet_content rows) = process_rows 0 rows) as ->
      by (destruct rows; reflexivity).
    destruct (_build_story W styles sheet_name (process_rows 0 rows))
      as [story|e] eqn:E.
    + destruct (build_story_texts W styles _ _ _ E) as [H _].
      rewrite H, process_rows_not_blank, process_rows_content. reflexivity.
    + exact (TaskFacts.build_story_raise W styles _ _ _ E).
Qed.

(** ** The style sheet of the manager *)

Module SheetFacts.

Import StyleManager StyleFacts Derived.

Local Open Scope string_scope.

Lemma bold_font_eq (base_font : string) :
  (if String.eqb base_font "Helvetica" then "Helvetica-Bold"
   else base_font ++ "-Bold") = base_font ++ "-Bold".
Proof.
  destruct (String.eqb_spec base_font "Helvetica") as [->|]; reflexivity.
Qed.

(** [_create_business_styles], by the four names it adds. *)
Lemma create_business_styles_eq (sample : gmap string ParagraphStyle)
    (base_font : string) :
  _create_business_styles sample base_font
  = match sample !! "BusinessChapter", sample !! "BusinessBody",
          sample !! "BusinessDialog", sample !! "BusinessFirst" with
    | None, None, None, None =>
        Ok (<["BusinessFirst" := BusinessFirst (BusinessBody base_font)]>
           (<["BusinessDialog"
               := BusinessDialog (BusinessBody base_font)
                    (if String.eqb base_font "Helvetica"
                     then "Helvetica-Oblique" else base_font ++ "-Italic")]>
           (<["BusinessBody" := BusinessBody base_font]>
           (<["BusinessChapter" := BusinessChapter (base_font ++ "-Bold")]>
            sample))))
    | _, _, _, _ => Raise KeyError
    end.
Proof.
  unfold _create_business_styles. rewrite bold_font_eq.
  set (italic_font := if String.eqb base_font "Helvetica" then _ else _).
  unfold add at 1. simpl name.
  destruct (sample !! "BusinessChapter") eqn:Hc; [reflexivity|].
  cbn [rbind]. unfold add at 1. simpl name.
  rewrite lookup_insert_ne by discriminate.
  destruct (sample !! "BusinessBody") eqn:Hb; [reflexivity|].
  cbn [rbind]. unfold getitem at 1. rewrite lookup_insert_eq. cbn [rbind].
  unfold add at 1. simpl name.
  rewrite !lookup_insert_ne by discriminate.
  destruct (sample !! "BusinessDialog") eqn:Hd; [reflexivity|].
  cbn [rbind]. unfold getitem at 1.
  rewrite lookup_insert_ne, lookup_insert_eq by discriminate. cbn [rbind].
  unfold add at 1. simpl name.
  rewrite !lookup_insert_ne by discriminate.
  destruct (sample !! "BusinessFirst") eqn:Hf; reflexivity.
Qed.

(** [_create_business_styles] adds the four styles to a sheet that has none
    of the four names, and raises [KeyError] on any other sheet. *)
Lemma create_business_styles_cases (sample : gmap string ParagraphStyle)
    (base_font : string) :
  ((forall n, In n business_style_names -> sample !! n = None) /\
   _create_business_styles sample base_font
   = Ok (<["BusinessFirst" := BusinessFirst (BusinessBody base_font)]>
        (<["BusinessDialog"
            := BusinessDialog (BusinessBody base_font)
                 (if String.eqb base_font "Helvetica"
                  then "Helvetica-Oblique" else base_font ++ "-Italic")]>
        (<["BusinessBody" := BusinessBody base_font]>
        (<["BusinessChapter" := BusinessChapter (base_font ++ "-Bold")]>
         sample))))) \/
  ((exists n, In n business_style_names /\ sample !! n <> None) /\
   _create_business_styles sample base_font = Raise KeyError).
Proof.
  rewrite create_business_styles_eq.
  destruct (sample !! "BusinessChapter") eqn:Hc.
  { right. split; [|reflexivity]. exists "BusinessChapter".
    split; [simpl; tauto | congruence]. }
  destruct (sample !! "BusinessBody") eqn:Hb.
  { right. split; [|reflexivity]. exists "BusinessBody".
    split; [simpl; tauto | congruence]. }
  destruct (sample !! "BusinessDialog") eqn:Hd.
  { right. split; [|reflexivity]. exists "BusinessDialog".
    split; [simpl; tauto | congruence]. }
  destruct (sample !! "BusinessFirst") eqn:Hf.
  { right. split; [|reflexivity]. exists "BusinessFirst".
    split; [simpl; tauto | congruence]. }
  left. split; [|reflexivity].
  intros n [<-|[<-|[<-|[<-|[]]]]]; assumption.
Qed.

End SheetFacts.

Import SheetFacts.

(** X14: the style manager is built exactly when ReportLab's sample sheet
    has none of the names BusinessChapter, BusinessBody, BusinessDialog and
    BusinessFirst, and fails with KeyError otherwise.  The sheet it builds
    keeps every other style as it was and has the four styles under their
    names; the dialog style is the body style with an indent of a quarter
    inch, the italic font and its own colour; the first-paragraph style
    differs from the body style by its name only; and [get_style] on it
    never fails: a name the sheet does not have gives the body style. *)
Theorem business_style_manager_styles
    (sample : gmap string ParagraphStyle) (base_font : string) :
  let r := BusinessStyleManager sample base_font in
  ((exists styles, r = Ok styles) <->
   forall n, In n business_style_names -> sample !! n = None) /\
  (forall e, r = Raise e -> e = KeyError) /\
  (forall styles, r = Ok styles ->
     (forall n, ~ In n business_style_names -> styles !! n = sample !! n) /\
     (forall n, In n business_style_names ->
        exists st, styles !! n = Some st /\ name st = n) /\
     styles !! "BusinessBody"%string = Some (BusinessBody base_font) /\
     (exists dialog,
        styles !! "BusinessDialog"%string = Some dialog /\
        leftIndent dialog = 18%Z /\
        fontSize dialog = fontSize (BusinessBody base_font) /\
        leading dialog = leading (BusinessBody base_font) /\
        align dialog = align (BusinessBody base_font) /\
        spaceAfter dialog = spaceAfter (BusinessBody base_font) /\
        wordWrap dialog = wordWrap (BusinessBody base_font)) /\
     (exists first,
        styles !! "BusinessFirst"%string = Some first /\
        first = {| name := "BusinessFirst";
                   fontName := fontName (BusinessBody base_font);
                   fontSize := fontSize (BusinessBody base_font);
                   leading := leading (BusinessBody base_font);
                   align := align (BusinessBody base_font);
                   spaceBefore := spaceBefore (BusinessBody base_font);
                   spaceAfter := spaceAfter (BusinessBody base_font);
                   firstLineIndent :=
                     firstLineIndent (BusinessBody base_font);
                   leftIndent := leftIndent (BusinessBody base_font);
                   textColor := textColor (BusinessBody base_font);
                   wordWrap := wordWrap (BusinessBody base_font) |}) /\
     (forall n,
        get_style styles n
        = Ok (match styles !! n with
              | Some st => st
              | None => BusinessBody base_font
              end))).
Proof.
  cbn zeta. unfold BusinessStyleManager.
  destruct (create_business_styles_cases sample base_font)
    as [[Hfresh ->]|[(n0 & Hn0 & Hold) ->]].
  - split; [split; [intros _; exact Hfresh | intros _; eexists; reflexivity]|].
    split; [discriminate|]. intros styles [= <-].
    split.
    { intros n Hn. rewrite !lookup_insert_ne; [reflexivity|..];
        intros <-; apply Hn; simpl; tauto. }
    split.
    { intros n [<-|[<-|[<-|[<-|[]]]]]; eexists;
        (split; [rewrite ?lookup_insert_ne by discriminate;
                 apply lookup_insert_eq | reflexivity]). }
    split.
    { rewrite !lookup_insert_ne by discriminate. apply lookup_insert_eq. }
    split.
    { eexists. split.
      - rewrite lookup_insert_ne by discriminate. apply lookup_insert_eq.
      - repeat split. }
    split.
    { eexists. split; [apply lookup_insert_eq | reflexivity]. }
    intros n. unfold get_style, getitem.
    destruct (_ !! n) as [st|]; [reflexivity|].
    rewrite !lookup_insert_ne by discriminate. rewrite lookup_insert_eq.
    reflexivity.
  - split.
    + split; [intros [styles H]; discriminate H|].
      intros Hfresh. contradiction Hold. apply Hfresh, Hn0.
    + split; [intros e [= <-]; reflexivity | discriminate].
Qed.

(** ** The scheduler, whatever the order of completion *)

Module ScheduleFacts.

Import ThreadManager SchedulerFacts OrderFacts ExitFacts Scenarios.

Section Scheduler.
Variable f : str -> M State (option str).

(** What a task returns does not depend on the state it starts from. *)
Hypothesis result_independent :
  forall s st1 st2, fst (f s st1) = fst (f s st2).

(** The entry of a sheet in the returned mapping. *)
Lemma scheduled_lookup (max_workers : Z) (sheets : list str)
    (completed : list nat) (st st0 : State) (res : gmap (list N) (list N))
    (s : str) :
  (0 < max_workers)%Z -> completion_order sheets completed ->
  fst (process_sheets_parallel max_workers sheets f completed st) = Ok res ->
  res !! s
  = if Main.elem s sheets
    then match fst (f s st0) with
         | Ok (Some p) => if truthy p then Some p else None
         | _ => None
         end
    else None.
Proof.
  intros Hpos Hperm Hres.
  assert (forall q, res !! s = Some q ->
            In s sheets /\ truthy q = true /\ fst (f s st0) = Ok (Some q))
    as Hentry.
  { intros q Hq.
    destruct (process_sheets_parallel_entries _ _ _ _ _ _ _ _ Hpos Hres Hq)
      as (Hin & Ht & st1 & Hf).
    rewrite (result_independent s st1 st0) in Hf. auto. }
  destruct (Main.elem s sheets) eqn:Es.
  - apply elem_In in Es.
    destruct (fst (f s st0)) as [[p|]|e] eqn:E.
    + destruct (truthy p) eqn:Et.
      * destruct sheets as [|s0 sheets']; [contradiction|].
        rewrite process_sheets_parallel_eq in Hres by (discriminate || lia).
        destruct (collect _ _ _ _ _) as [[res'|e'] st'] eqn:Ec;
          [|discriminate].
        injection Hres as ->. apply (f_equal fst) in Ec. cbn [fst] in Ec.
        apply (collect_keeps _ _ st0 result_independent s p _ _ _ _ E Et Ec).
        right. apply list_elem_of_In, list_elem_of_lookup in Es as [i Hi].
        exists i. split; [|rewrite future_to_sheet_lookup; exact Hi].
        apply (Permutation_in _ (Permutation_sym Hperm)).
        apply in_seq. apply lookup_lt_Some in Hi. lia.
      * destruct (res !! s) as [q|] eqn:Eq; [|reflexivity].
        destruct (Hentry q eq_refl) as (_ & Hq & Hf). congruence.
    + destruct (res !! s) as [q|] eqn:Eq; [|reflexivity].
      destruct (Hentry q eq_refl) as (_ & _ & Hf). discriminate Hf.
    + destruct (res !! s) as [q|] eqn:Eq; [|reflexivity].
      destruct (Hentry q eq_refl) as (_ & _ & Hf). discriminate Hf.
  - destruct (res !! s) as [q|] eqn:Eq; [|reflexivity].
    destruct (Hentry q eq_refl) as (Hin & _). apply elem_In in Hin.
    congruence.
Qed.

End Scheduler.

(** Tasks without a result leave the mapping and the files as they were. *)
Lemma collect_no_result (futures : gmap nat (list N))
    (f : str -> M State (option str)) (completed : list nat)
    (results : gmap (list N) (list N)) (st : State) :
  (forall i s st1, futures !! i = Some s -> f s st1 = (Ok None, st1)) ->
  fst (collect futures f completed results st) = Ok results /\
  fs (snd (collect futures f completed results st)) = fs st.
Proof.
  intros Hf. revert st. induction completed as [|i rest IH]; intros st.
  - split; reflexivity.
  - rewrite collect_cons. destruct (futures !! i) as [s|] eqn:Ei; [|apply IH].
    rewrite record_result_eq, (Hf i s st Ei). cbn [truthy_result].
    destruct (IH (logged (Log WARNING "No result for" s) st)) as [H1 H2].
    split; [exact H1 | rewrite H2; reflexivity].
Qed.

End ScheduleFacts.

Import ScheduleFacts.

(** X15: the mapping [process_sheets_parallel] returns does not depend on the
    order in which the tasks complete, when what a task returns does not
    depend on the state it starts from: a sheet of the list has the non-empty
    result of its task as its entry, and no entry when the task gives none;
    a name outside the list has no entry. *)
Theorem scheduler_completion_order_irrelevant (max_workers : Z)
    (sheets : list str) (f : str -> M State (option str))
    (completed1 completed2 : list nat) (st : State)
    (res1 res2 : gmap (list N) (list N)) :
  (forall s sa sb, fst (f s sa) = fst (f s sb)) ->
  (0 < max_workers)%Z ->
  ThreadManager.completion_order sheets completed1 ->
  ThreadManager.completion_order sheets completed2 ->
  fst (ThreadManager.process_sheets_parallel max_workers sheets f completed1 st)
  = Ok res1 ->
  fst (ThreadManager.process_sheets_parallel max_workers sheets f completed2 st)
  = Ok res2 ->
  res1 = res2 /\
  forall s,
    res1 !! s
    = if Main.elem s sheets
      then match fst (f s st) with
           | Ok (Some p) => if truthy p then Some p else None
           | _ => None
           end
      else None.
Proof.
  intros Hind Hpos Hc1 Hc2 H1 H2. split.
  - apply map_eq. intros s.
    rewrite (scheduled_lookup f Hind _ _ _ _ st _ s Hpos Hc1 H1).
    rewrite (scheduled_lookup f Hind _ _ _ _ st _ s Hpos Hc2 H2).
    reflexivity.
  - intros s. exact (scheduled_lookup f Hind _ _ _ _ st _ s Hpos Hc1 H1).
Qed.

Lemma scheduler_completion_order_irrelevant_witness :
  (0 < 4)%Z /\
  ThreadManager.completion_order [sheet_A; sheet_B; sheet_C] [0; 1; 2]%nat /\
  ThreadManager.completion_order [sheet_A; sheet_B; sheet_C] [2; 0; 1]%nat /\
  exists res1 res2,
    fst (schedule world_ABC [sheet_A; sheet_B; sheet_C] [0; 1; 2]%nat)
    = Ok res1 /\
    fst (schedule world_ABC [sheet_A; sheet_B; sheet_C] [2; 0; 1]%nat)
    = Ok res2 /\
    res1 = res2.
Proof.
  assert (ThreadManager.completion_order [sheet_A; sheet_B; sheet_C]
            [0; 1; 2]%nat) as Hc1.
  { unfold ThreadManager.completion_order. simpl. apply Permutation_refl. }
  assert (ThreadManager.completion_order [sheet_A; sheet_B; sheet_C]
            [2; 0; 1]%nat) as Hc2.
  { unfold ThreadManager.completion_order. simpl.
    apply (Permutation_cons_app [0; 1]%nat [] 2%nat). apply Permutation_refl. }
  split; [lia|]. split; [exact Hc1|]. split; [exact Hc2|].
  destruct (fst (schedule world_ABC [sheet_A; sheet_B; sheet_C]
                   [0; 1; 2]%nat)) as [res1|e] eqn:E1;
    [|vm_compute in E1; discriminate].
  destruct (fst (schedule world_ABC [sheet_A; sheet_B; sheet_C]
                   [2; 0; 1]%nat)) as [res2|e] eqn:E2;
    [|vm_compute in E2; discriminate].
  exists res1, res2. split; [reflexivity|]. split; [reflexivity|].
  apply (scheduler_completion_order_irrelevant 4 [sheet_A; sheet_B; sheet_C]
           (Main.sheet_task (U:=basic_latin) world_ABC helvetica_styles)
           [0; 1; 2]%nat [2; 0; 1]%nat empty_state res1 res2
           (TaskFacts.sheet_task_result_independent world_ABC helvetica_styles)
           ltac:(lia) Hc1 Hc2 E1 E2).
Defined.

(** X16: when the reader finds no row in any of the sheets, the stages of
    [main] from the scheduler on return the exit code 1 and write no file,
    whatever the order of completion: nothing is merged. *)
Theorem pipeline_without_rows_exit_1 (U : UnicodeData) (W : World)
    (args : Main.Args) (styles : gmap string ParagraphStyle)
    (max_workers : Z) (sheets : list str) (completed : list nat)
    (st : State) :
  (0 < max_workers)%Z ->
  (forall s, In s sheets -> read_column_d W s = []) ->
  fst (Main.pipeline W args styles max_workers sheets completed st) = Ok 1%Z /\
  fs (snd (Main.pipeline W args styles max_workers sheets completed st))
  = fs st.
Proof.
  intros Hpos Hrows.
  assert (exists st1,
            ThreadManager.process_sheets_parallel max_workers sheets
              (Main.sheet_task W styles) completed
              (logged (Log INFO "Starting multi-threaded processing" []) st)
            = (Ok ∅, st1) /\ fs st1 = fs st) as (st1 & Hp & Hfs).
  { destruct sheets as [|s0 sheets'].
    - eexists. split; reflexivity.
    - rewrite SchedulerFacts.process_sheets_parallel_eq
        by (discriminate || lia).
      destruct (collect_no_result
                  (ThreadManager.future_to_sheet (s0 :: sheets'))
                  (Main.sheet_task W styles) completed ∅
                  (logged (Log INFO "Starting multi-threaded processing" [])
                     st)) as [H1 H2].
      { intros i s st1 Hi. rewrite TaskFacts.sheet_task_eq.
        rewrite SchedulerFacts.future_to_sheet_lookup in Hi.
        rewrite Hrows; [reflexivity|].
        apply list_elem_of_In, list_elem_of_lookup. exists i. exact Hi. }
      destruct (ThreadManager.collect _ _ _ _ _) as [[res|e] st'];
        cbn [fst snd] in *; [|discriminate H1].
      injection H1 as ->. eexists. split; [reflexivity|]. exact H2. }
  unfold Main.pipeline, bind. cbn [emit modify fst snd]. rewrite Hp.
  unfold Main.merge_and_report. rewrite bool_decide_eq_true_2 by reflexivity.
  unfold bind. cbn [emit modify ret fst snd logged fs].
  split; [reflexivity | exact Hfs].
Qed.

Lemma pipeline_without_rows_exit_1_witness :
  (0 < 4)%Z /\
  (forall s, In s [sheet_B] -> read_column_d world_ABC s = []) /\
  fst (Main.pipeline (U:=basic_latin) world_ABC (args_all None)
         helvetica_styles 4 [sheet_B] [0%nat] empty_state) = Ok 1%Z /\
  fs (snd (Main.pipeline (U:=basic_latin) world_ABC (args_all None)
             helvetica_styles 4 [sheet_B] [0%nat] empty_state))
  = fs empty_state.
Proof.
  assert (forall s, In s [sheet_B] -> read_column_d world_ABC s = []) as Hrows.
  { intros s [<-|[]]. reflexivity. }
  split; [lia|]. split; [exact Hrows|].
  apply (pipeline_without_rows_exit_1 basic_latin world_ABC (args_all None)
           helvetica_styles 4 [sheet_B] [0%nat] empty_state ltac:(lia) Hrows).
Defined.

(** ** The reader of column D and its retries *)

Module ReaderFacts.

Import SheetsReader ContentProcessor Derived.

Lemma first_cells_In (values : list (list str)) (cell : str) :
  In cell (first_cells values) <->
  exists row, In (cell :: row) values /\ truthy (strip cell) = true.
Proof.
  unfold first_cells. rewrite in_flat_map. split.
  - intros ([|c row] & Hrow & Hin); [contradiction|].
    destruct (truthy (strip c)) eqn:E; [|contradiction].
    destruct Hin as [<-|[]]. eauto.
  - intros (row & Hrow & Ht). exists (cell :: row). split; [exact Hrow|].
    rewrite Ht. left; reflexivity.
Qed.

Section WithService.
Variable execute : str -> str -> nat -> result (option (list (list str))).
Variables spreadsheet_id sheet_name : str.

Local Abbreviation caught := (Derived.caught execute spreadsheet_id sheet_name).

Lemma attempt_body_eq (attempt : nat) (st : State) :
  exists st1,
    fs st1 = fs st /\
    attempt_body execute spreadsheet_id sheet_name attempt st
    = match execute spreadsheet_id (range_name sheet_name) attempt with
      | Ok values =>
          (Ok (first_cells (default [] values)),
           logged (Log (match first_cells (default [] values) with
                        | [] => WARNING
                        | _ :: _ => INFO
                        end)
                     (match first_cells (default [] values) with
                      | [] => "No content found in Column D"
                      | _ :: _ => "Retrieved content blocks"
                      end) sheet_name) st1)
      | Raise e => (Raise e, st1)
      end.
Proof.
  unfold attempt_body. unfold bind at 1. cbn [emit modify].
  unfold bind at 1.
  exists (if (0 <? attempt)%nat
          then logged (Log INFO "Retry, waiting" sheet_name)
                 (logged (Log INFO "Reading Column D" sheet_name) st)
          else logged (Log INFO "Reading Column D" sheet_name) st).
  split; [destruct (0 <? attempt)%nat; reflexivity|].
  destruct (0 <? attempt)%nat; cbn [emit modify ret];
    unfold bind at 1, lift;
    (destruct (execute spreadsheet_id (range_name sheet_name) attempt)
       as [values|e]; [|reflexivity]);
    cbv zeta; destruct (first_cells (default [] values)); reflexivity.
Qed.

(** The loop from [attempt] on: it returns the cells of the first answer
    that is not a failure, re-raises the first failure it does not catch,
    and returns no cell when every attempt fails. *)
Lemma read_loop_outcome (attempt remaining : nat) (st : State) :
  (attempt + remaining = max_retries)%nat ->
  let r := read_loop execute spreadsheet_id sheet_name attempt remaining st in
  fs (snd r) = fs st /\
  ((exists k values,
      (attempt <= k < max_retries)%nat /\
      execute spreadsheet_id (range_name sheet_name) k = Ok values /\
      fst r = Ok (first_cells (default [] values)) /\
      forall j, (attempt <= j < k)%nat -> caught j) \/
   (exists k e,
      (attempt <= k < max_retries)%nat /\
      execute spreadsheet_id (range_name sheet_name) k = Raise e /\
      is_Exception e = false /\ fst r = Raise e /\
      forall j, (attempt <= j < k)%nat -> caught j) \/
   (fst r = Ok [] /\
    forall j, (attempt <= j < max_retries)%nat -> caught j)).
Proof.
  revert attempt st. induction remaining as [|remaining IH];
    intros attempt st Hsum; cbn zeta.
  - cbn [read_loop]. split; [reflexivity|]. right. right.
    split; [reflexivity|]. intros j Hj. lia.
  - cbn [read_loop]. unfold try_except.
    destruct (attempt_body_eq attempt st) as (st1 & Hfs1 & ->).
    destruct (execute spreadsheet_id (range_name sheet_name) attempt)
      as [values|e] eqn:Ex.
    + cbn [fst snd logged fs]. split; [exact Hfs1|]. left.
      exists attempt, values. split; [lia|]. split; [exact Ex|].
      split; [reflexivity|]. intros j Hj. lia.
    + destruct (is_Exception e) eqn:Ee.
      * assert (caught attempt) as Hc by (exists e; auto).
        destruct (attempt =? max_retries - 1)%nat eqn:Elast.
        -- apply Nat.eqb_eq in Elast. unfold bind. cbn [emit modify ret].
           cbn [fst snd logged fs]. split; [exact Hfs1|]. right. right.
           split; [reflexivity|]. intros j Hj.
           assert (j = attempt) as -> by lia. exact Hc.
        -- apply Nat.eqb_neq in Elast. unfold bind at 1. cbn [emit modify].
           destruct (IH (S attempt)
                       (logged (Log WARNING "Attempt failed" sheet_name) st1)
                       ltac:(lia)) as [Hfs H].
           cbn zeta in *. cbn [logged fs] in Hfs.
           split; [rewrite Hfs; exact Hfs1|].
           assert (forall k, (forall j, (S attempt <= j < k)%nat -> caught j) ->
                             forall j, (attempt <= j < k)%nat -> caught j)
             as Hext.
           { intros k Hk j Hj. destruct (decide (j = attempt)) as [->|Hne];
               [exact Hc | apply Hk; lia]. }
           destruct H as [(k & values & Hk & Hx & Hr & Hj)
                         |[(k & e' & Hk & Hx & He' & Hr & Hj)|[Hr Hj]]].
           ++ left. exists k, values. split; [lia|]. split; [exact Hx|].
              split; [exact Hr | apply Hext, Hj].
           ++ right. left. exists k, e'. split; [lia|]. split; [exact Hx|].
              split; [exact He'|]. split; [exact Hr | apply Hext, Hj].
           ++ right. right. split; [exact Hr | apply Hext, Hj].
      * cbn [fst snd]. split; [exact Hfs1|]. right. left.
        exists attempt, e. split; [lia|]. split; [exact Ex|].
        split; [exact Ee|]. split; [reflexivity|]. intros j Hj. lia.
Qed.

End WithService.

End ReaderFacts.

Import ReaderFacts.

(** X17: [read_column_d] writes no file and raises no [Exception]: what it
    raises is a failure of the service that is none, at one of the three
    attempts.  The cells it returns are the first cells, not
    blank, of the rows of the first answer that is not a failure, every
    attempt before it having failed; it returns no cell when all three
    attempts fail.  A cell it returns is never skipped as blank by the
    content processor: it gives a block exactly when it cleans to at least
    ten characters. *)
Theorem read_column_d_outcome (U : UnicodeData)
    (execute : str -> str -> nat -> result (option (list (list str))))
    (spreadsheet_id sheet_name : str) (st : State) :
  let r := SheetsReader.read_column_d execute spreadsheet_id sheet_name st in
  let answer := execute spreadsheet_id (SheetsReader.range_name sheet_name) in
  let failed k := exists e, answer k = Raise e /\ is_Exception e = true in
  fs (snd r) = fs st /\
  (forall e, fst r = Raise e ->
     is_Exception e = false /\
     exists k, (k < 3)%nat /\ answer k = Raise e /\
               forall j, (j < k)%nat -> failed j) /\
  (forall cells, fst r = Ok cells ->
     (forall cell, In cell cells ->
        strip cell <> [] /\
        forall i,
          process_row i cell = None <->
          (length (clean_vietnamese_text cell) < paragraph_min_length)%nat) /\
     ((cells = [] /\ forall j, (j < 3)%nat -> failed j) \/
      exists k values,
        (k < 3)%nat /\ answer k = Ok values /\
        cells = SheetsReader.first_cells (default [] values) /\
        forall j, (j < k)%nat -> failed j)) /\
  ((forall j, (j < 3)%nat -> failed j) -> fst r = Ok []).
Proof.
  cbn zeta. unfold SheetsReader.read_column_d.
  destruct (read_loop_outcome execute spreadsheet_id sheet_name 0
              SheetsReader.max_retries st eq_refl) as [Hfs H].
  cbn zeta in *. unfold SheetsReader.max_retries, caught in *.
  split; [exact Hfs|].
  assert (forall k (P : nat -> Prop),
            (forall j, (0 <= j < k)%nat -> P j) ->
            forall j, (j < k)%nat -> P j) as Hrange.
  { intros k P HP j Hj. apply HP. lia. }
  destruct H as [(k & values & Hk & Hx & Hr & Hj)
                |[(k & e' & Hk & Hx & He' & Hr & Hj)|[Hr Hj]]].
  - rewrite Hr. split; [discriminate|]. split.
    + intros cells [= <-]. split.
      * intros cell Hc. apply first_cells_In in Hc as (row & _ & Ht).
        assert (strip cell <> []) as Hs
          by (intros E; rewrite E in Ht; discriminate Ht).
        split; [exact Hs|]. intros i. rewrite BlockFacts.process_row_eq.
        unfold kept_row.
        destruct cell as [|c cell]; [contradiction Hs; reflexivity|].
        rewrite Ht. cbn [truthy andb].
        destruct (Nat.ltb_spec (length (clean_vietnamese_text (c :: cell)))
                    paragraph_min_length) as [Hlt|Hge]; cbn [negb].
        -- split; [intros _; exact Hlt | reflexivity].
        -- split; [discriminate | intros Hlt; lia].
      * right. exists k, values. split; [lia|]. split; [exact Hx|].
        split; [reflexivity|]. apply (Hrange k _ Hj).
    + intros Hall. destruct (Hall k ltac:(lia)) as (e & He & _).
      rewrite Hx in He. discriminate He.
  - rewrite Hr. split.
    + intros e [= <-]. split; [exact He'|]. exists k. split; [lia|].
      split; [exact Hx|]. apply (Hrange k _ Hj).
    + split; [discriminate|].
      intros Hall. destruct (Hall k ltac:(lia)) as (e & He & Hex).
      rewrite Hx in He. injection He as <-. congruence.
  - rewrite Hr. split; [discriminate|]. split.
    + intros cells [= <-]. split; [intros cell []|]. left.
      split; [reflexivity|]. apply (Hrange 3%nat _ Hj).
    + intros _. reflexivity.
Qed.

(** X18: when the service fails on the first attempts and answers at a
    later one of the three, [read_column_d] returns the non-blank first
    cells of the rows of that answer, and none when the answer has no
    rows. *)
Theorem read_column_d_first_answer
    (execute : str -> str -> nat -> result (option (list (list str))))
    (spreadsheet_id sheet_name : str) (st : State) (k : nat)
    (values : option (list (list str))) :
  (k < 3)%nat ->
  (forall j, (j < k)%nat ->
     exists e,
       execute spreadsheet_id (SheetsReader.range_name sheet_name) j = Raise e /\
       is_Exception e = true) ->
  execute spreadsheet_id (SheetsReader.range_name sheet_name) k = Ok values ->
  fst (SheetsReader.read_column_d execute spreadsheet_id sheet_name st)
  = Ok (SheetsReader.first_cells (default [] values)) /\
  (values = None ->
   fst (SheetsReader.read_column_d execute spreadsheet_id sheet_name st)
   = Ok []).
Proof.
  intros Hk Hfail Hx.
  assert (fst (SheetsReader.read_column_d execute spreadsheet_id sheet_name st)
          = Ok (SheetsReader.first_cells (default [] values))) as Hres.
  { unfold SheetsReader.read_column_d.
    destruct (read_loop_outcome execute spreadsheet_id sheet_name 0
                SheetsReader.max_retries st eq_refl) as [_ H].
    cbn zeta in *. unfold SheetsReader.max_retries, caught in *.
    destruct H as [(k' & values' & Hk' & Hx' & Hr & Hj)
                  |[(k' & e' & Hk' & Hx' & He' & Hr & Hj)|[Hr Hj]]].
    - destruct (Nat.lt_trichotomy k' k) as [Hlt|[->|Hgt]].
      + destruct (Hfail k' Hlt) as (e & He & _). rewrite Hx' in He.
        discriminate He.
      + rewrite Hx in Hx'. injection Hx' as <-. exact Hr.
      + destruct (Hj k ltac:(lia)) as (e & He & _). rewrite Hx in He.
        discriminate He.
    - destruct (Nat.lt_trichotomy k' k) as [Hlt|[->|Hgt]].
      + destruct (Hfail k' Hlt) as (e & He & Hex). rewrite Hx' in He.
        injection He as <-. congruence.
      + rewrite Hx in Hx'. discriminate Hx'.
      + destruct (Hj k ltac:(lia)) as (e & He & _). rewrite Hx in He.
        discriminate He.
    - destruct (Hj k ltac:(lia)) as (e & He & _). rewrite Hx in He.
      discriminate He. }
  split; [exact Hres|]. intros ->. exact Hres.
Qed.

Lemma read_column_d_first_answer_witness :
  (2 < 3)%nat /\
  fst (SheetsReader.read_column_d flaky_service (lit "1BxiMVs") sheet_A
         empty_state)
  = Ok [lit "Dong thu nhat."; lit "Hai"].
Proof.
  split; [lia|].
  apply (read_column_d_first_answer flaky_service (lit "1BxiMVs") sheet_A
           empty_state 2
           (Some [[lit "Dong thu nhat."]; []; [lit "  "];
                  [lit "Hai"; lit "x"]])).
  - lia.
  - intros j Hj. exists OSError.
    destruct j as [|[|j]]; [split; reflexivity | split; reflexivity | lia].
  - reflexivity.
Defined.

(** ** A run of [main] that succeeds *)

Module SuccessFacts.

Import Main PDFMerger PDFGenerator ThreadManager ContentProcessor Scenarios
  MainFacts OrderFacts MergeFacts ExitFacts SchedulerFacts TaskFacts Derived.

Lemma join_truthy_r (a b : str) : truthy b = true -> truthy (join a b) = true.
Proof.
  intros Hb. unfold join. destruct (startswith [c_slash] b); [exact Hb|].
  destruct a as [|x a]; [exact Hb|].
  destruct (N.eqb _ _); reflexivity.
Qed.

Lemma join_truthy_l (a b : str) : truthy a = true -> truthy (join a b) = true.
Proof.
  intros Ha. unfold join. destruct (startswith [c_slash] b) eqn:E.
  - destruct b; [discriminate E | reflexivity].
  - destruct a as [|x a]; [discriminate Ha|].
    destruct (N.eqb _ _); reflexivity.
Qed.

Lemma pdf_path_truthy (dir s : str) :
  truthy (join dir (_sanitize_filename s ++ lit ".pdf")) = true.
Proof.
  apply join_truthy_r. destruct (_sanitize_filename s); reflexivity.
Qed.

Section WithWorld.
Context {U : UnicodeData} (W : World).
Variable styles : gmap string StyleManager.ParagraphStyle.

(** The task of a sheet whose rows give blocks that can be rendered. *)
Lemma sheet_task_success (s : str) (st : State) (story : list flowable)
    (n : N) :
  let blocks := fst (process_sheet_content (read_column_d W s)) in
  let path := join (join (env_output_dir W) (lit "temp"))
                (_sanitize_filename s ++ lit ".pdf") in
  blocks <> [] ->
  _build_story W styles s blocks = Ok story ->
  doc_build W path story = Ok n ->
  exists st',
    sheet_task W styles s st = (Ok (Some path), st') /\
    fs st' = <[path := {| nbytes := n; doc := SheetPDF s story |}]> (fs st).
Proof.
  cbn zeta. intros Hne Hstory Hbuild. rewrite sheet_task_eq.
  destruct (read_column_d W s) as [|r0 rows]; [contradiction Hne; reflexivity|].
  cbn zeta.
  destruct (fst (process_sheet_content (r0 :: rows))) as [|b blocks];
    [contradiction Hne; reflexivity|].
  rewrite generate_sheet_pdf_eq. cbn zeta. rewrite Hstory, Hbuild.
  eexists. split; reflexivity.
Qed.

(** The scheduler on one sheet whose task gives a file. *)
Lemma schedule_single (max_workers : Z) (f : str -> M State (option str))
    (s path : str) (st st' : State) :
  (0 < max_workers)%Z -> f s st = (Ok (Some path), st') ->
  truthy path = true ->
  process_sheets_parallel max_workers [s] f [0%nat] st
  = (Ok (<[s := path]> ∅),
     logged (Log INFO "Processing completed" [])
       (logged (Log INFO "Completed" s) st')).
Proof.
  intros Hpos Hf Ht.
  rewrite process_sheets_parallel_eq by (discriminate || lia).
  rewrite collect_cons, future_to_sheet_lookup.
  change ([s] !! 0%nat) with (Some s). cbv beta iota.
  rewrite record_result_eq, Hf. cbn [truthy_result]. rewrite Ht.
  reflexivity.
Qed.

(** The merge of one existing file that the merger accepts. *)
Lemma merge_single (output_dir path output_filename : str)
    (add_bookmarks : bool) (st : State) (m : N) :
  exists_ st path = true ->
  append_outline_item W path = None -> append_plain W path = None ->
  merger_write W [chapter_entry add_bookmarks path] = Ok m ->
  exists st',
    merge_sheets_to_ebook W output_dir [path] output_filename add_bookmarks st
    = (Ok (Some (join output_dir output_filename)), st') /\
    fs st'
    = <[join output_dir output_filename
        := {| nbytes := m;
              doc := MergedPDF [chapter_entry add_bookmarks path] |}]> (fs st).
Proof.
  intros Hex Hout Hplain Hw.
  rewrite (merge_sheets_to_ebook_eq W output_dir path [] [path]
             output_filename add_bookmarks st)
    by (cbn [List.filter]; rewrite Hex; reflexivity).
  assert (append_all W add_bookmarks [path]
            (logged (Log INFO "Merging PDFs into ebook" []) st)
          = (Ok [chapter_entry add_bookmarks path],
             logged (Log INFO "Added" (_extract_chapter_name path))
               (logged (Log INFO "Merging PDFs into ebook" []) st))) as ->.
  { cbn [append_all]. unfold bind at 1, append, raise_if.
    destruct add_bookmarks.
    - rewrite Hout. reflexivity.
    - rewrite Hplain. reflexivity. }
  rewrite Hw. eexists. split; reflexivity.
Qed.

End WithWorld.

End SuccessFacts.

Import SuccessFacts.

(** X19: a run of [main] on a valid setup with one sheet to process succeeds
    when the sheet has rows that give at least one block, the story of the
    blocks can be built and rendered, the merger accepts the rendered file
    and writes a file that is not empty, and the pages of that file can be
    read.  It then returns the exit code 0, and the files after the run are
    the files before it, the rendered sheet under its sanitised name in the
    temp directory and the ebook under the requested name in the final
    directory, with the rendered sheet as its only chapter. *)
Theorem main_single_sheet_success (U : UnicodeData) (W : World)
    (args : Main.Args) (completed : list nat) (st : State)
    (styles : gmap string ParagraphStyle) (title : str)
    (sheet_names : list str) (s : str) (story : list flowable) (n m : N)
    (pages : nat) :
  let blocks := fst (process_sheet_content (read_column_d W s)) in
  let path := join (join (env_output_dir W) (lit "temp"))
                (_sanitize_filename s ++ lit ".pdf") in
  let final := join (join (env_output_dir W) (lit "final"))
                 (Main.output args) in
  let entry := chapter_entry (negb (Main.no_bookmarks args)) path in
  Main.validate_setup W args = true ->
  reader_init W = Ok tt ->
  BusinessStyleManager (sample_styles W) (base_font W) = Ok styles ->
  spreadsheet_info W = Ok (title, sheet_names) ->
  sheets_to_process args sheet_names = [s] ->
  (0 < Main.max_threads W args)%Z ->
  ThreadManager.completion_order [s] completed ->
  blocks <> [] ->
  _build_story W styles s blocks = Ok story ->
  doc_build W path story = Ok n ->
  append_outline_item W path = None -> append_plain W path = None ->
  merger_write W [entry] = Ok m -> (0 < m)%N ->
  pdf_reader W final = Ok pages ->
  fst (Main.main W args completed st) = Ok 0%Z /\
  fs (snd (Main.main W args completed st))
  = <[final := {| nbytes := m; doc := MergedPDF [entry] |}]>
      (<[path := {| nbytes := n; doc := SheetPDF s story |}]> (fs st)).
Proof.
  cbn zeta.
  intros Hvalid Hinit Hstyles Hinfo Hsel Hpos Horder Hne Hstory Hbuild
    Hout Hplain Hwrite Hm Hpages.
  assert (completed = [0%nat]) as ->.
  { unfold ThreadManager.completion_order in Horder. cbn [length seq] in Horder.
    apply Permutation_sym, Permutation_length_1_inv in Horder. exact Horder. }
  destruct (select_sheets_eq args sheet_names
              (logged (Print "Vietnamese PDF Ebook Generator" []) st))
    as (_ & Hfs0 & _).
  cbn [logged fs] in Hfs0.
  set (st0 := snd (Main.select_sheets args sheet_names _)) in *.
  destruct (sheet_task_success W styles s
              (logged (Log INFO "Starting multi-threaded processing" []) st0)
              story n Hne Hstory Hbuild) as (st1 & Htask & Hfs1).
  cbn [logged fs] in Hfs1.
  set (path := join (join (env_output_dir W) (lit "temp"))
                 (_sanitize_filename s ++ lit ".pdf")) in *.
  set (final := join (join (env_output_dir W) (lit "final"))
                  (Main.output args)) in *.
  set (st2 := logged (Log INFO "Processing completed" [])
                (logged (Log INFO "Completed" s) st1)).
  assert (fs st2 = fs st1) as Hfs2 by reflexivity.
  destruct (merge_single W (join (env_output_dir W) (lit "final")) path
              (Main.output args) (negb (Main.no_bookmarks args)) st2 m)
    as (st3 & Hmerge & Hfs3); try assumption.
  { unfold exists_. rewrite Hfs2, Hfs1, lookup_insert_eq. reflexivity. }
  fold final in Hmerge, Hfs3.
  assert (exists a b c,
            Main.main W args [0%nat] st = Main.finish W final a b c st3)
    as (a & b & c & ->).
  { rewrite main_eq. cbn zeta. rewrite Hvalid. cbn [negb].
    rewrite (run_eq W args [0%nat] _ tt styles title sheet_names
               Hinit Hstyles Hinfo), Hsel.
    fold st0. cbn [ThreadManager.__init__].
    assert (forall r : result Z * State,
              (exists a b c, r = Main.finish W final a b c st3) ->
              exists a b c,
                match r with
                | (Ok code, st') => (Ok code, st')
                | (Raise KeyboardInterrupt, st') =>
                    (Ok 1%Z,
                     logged (Log INFO "Process interrupted by user" []) st')
                | (Raise e, st') =>
                    (Ok 1%Z,
                     logged (Log ERROR "Unexpected error"
                               (lit (Main.exn_name e))) st')
                end = Main.finish W final a b c st3) as Hwrap.
    { intros r (a & b & c & ->). exists a, b, c.
      pose proof (finish_valid_Ok W final st3 _ pages a b c
                    ltac:(rewrite Hfs3; apply lookup_insert_eq) Hm Hpages)
        as H0.
      destruct (Main.finish W final a b c st3) as [[code|e] st'];
        [reflexivity | discriminate H0]. }
    apply Hwrap. clear Hwrap.
    unfold Main.pipeline. unfold bind at 1. cbn [emit modify].
    unfold bind at 1.
    rewrite (schedule_single _ _ s path _ st1 Hpos Htask
               (pdf_path_truthy _ s)).
    fold st2. unfold Main.merge_and_report.
    rewrite bool_decide_eq_false_2 by apply insert_non_empty.
    unfold Main.pdf_files_of. cbn [flat_map]. rewrite lookup_insert_eq.
    rewrite (pdf_path_truthy _ s : truthy path = true). cbn [app].
    unfold bind at 1. rewrite Hmerge. cbn [ThreadManager.truthy_result].
    rewrite (join_truthy_l _ _ (join_truthy_r _ (lit "final") eq_refl)
             : truthy final = true).
    cbn [negb default from_option]. unfold id.
    eexists _, _, _. reflexivity. }
  split.
  - exact (finish_valid_Ok W final st3 _ pages a b c
             ltac:(rewrite Hfs3; apply lookup_insert_eq) Hm Hpages).
  - rewrite finish_fs, Hfs3, Hfs2, Hfs1, Hfs0. reflexivity.
Qed.

Lemma main_single_sheet_success_witness :
  exists story,
    fst (Main.main (U:=basic_latin) world_ABC_full (args_all (Some [sheet_A]))
           [0%nat] empty_state) = Ok 0%Z /\
    fs (snd (Main.main (U:=basic_latin) world_ABC_full
               (args_all (Some [sheet_A])) [0%nat] empty_state))
    = <[lit "output/final/book.pdf"
        := {| nbytes := 5000;
              doc := MergedPDF [(lit "output/temp/A.pdf", Some (lit "A"))] |}]>
        (<[lit "output/temp/A.pdf"
           := {| nbytes := 1000; doc := SheetPDF sheet_A story |}]>
           (fs empty_state)).
Proof.
  destruct (_build_story (U:=basic_latin) world_ABC_full helvetica_styles
              sheet_A
              (fst (process_sheet_content (U:=basic_latin)
                      (read_column_d world_ABC_full sheet_A))))
    as [story|e] eqn:E; [|vm_compute in E; discriminate E].
  exists story.
  apply (main_single_sheet_success basic_latin world_ABC_full
           (args_all (Some [sheet_A])) [0%nat] empty_state helvetica_styles
           (lit "Book") [sheet_A; sheet_B; sheet_C] sheet_A story 1000 5000
           7%nat).
  - reflexivity.
  - reflexivity.
  - exact StyleFacts.helvetica_styles_eq.
  - reflexivity.
  - vm_compute. reflexivity.
  - reflexivity.
  - apply Permutation_refl.
  - vm_compute. discriminate.
  - exact E.
  - reflexivity.
  - reflexivity.
  - reflexivity.
  - reflexivity.
  - reflexivity.
  - reflexivity.
Defined.

(** ** The quotation marks the classifier knows *)

Module QuoteFacts.

Import ContentProcessor PyFacts BlockFacts Derived.

Section WithUnicode.
Context {U : UnicodeData}.



End WithUnicode.

End QuoteFacts.

Import QuoteFacts.



(** ** What a task returns and writes *)

Module FileFacts.

Import Main PDFGenerator ThreadManager ContentProcessor Scenarios TaskFacts
  SchedulerFacts SuccessFacts NameFacts Derived.

Section WithWorld.
Context {U : UnicodeData} (W : World).
Variable styles : gmap string StyleManager.ParagraphStyle.

(** A task without blocks returns None. *)
Lemma sheet_task_no_blocks (s : str) (st : State) :
  fst (process_sheet_content (read_column_d W s)) = [] ->
  fst (sheet_task W styles s st) = Ok None.
Proof.
  intros H. rewrite sheet_task_eq.
  destruct (read_column_d W s) as [|r0 rows]; [reflexivity|].
  cbn zeta. rewrite H. reflexivity.
Qed.

(** A task whose story cannot be built returns None. *)
Lemma sheet_task_story_fails (s : str) (st : State) (e : exn) :
  _build_story W styles s (fst (process_sheet_content (read_column_d W s)))
  = Raise e ->
  is_Exception e = true ->
  fst (sheet_task W styles s st) = Ok None.
Proof.
  intros Hs He. rewrite sheet_task_eq.
  destruct (read_column_d W s) as [|r0 rows]; [reflexivity|].
  cbn zeta.
  destruct (fst (process_sheet_content (r0 :: rows))) as [|b blocks];
    [reflexivity|].
  rewrite generate_sheet_pdf_eq. cbn zeta. rewrite Hs, He. reflexivity.
Qed.

(** A task whose story cannot be rendered returns None. *)
Lemma sheet_task_build_fails (s : str) (st : State) (story : list flowable)
    (e : exn) :
  _build_story W styles s (fst (process_sheet_content (read_column_d W s)))
  = Ok story ->
  doc_build W (join (join (env_output_dir W) (lit "temp"))
                 (_sanitize_filename s ++ lit ".pdf")) story = Raise e ->
  is_Exception e = true ->
  fst (sheet_task W styles s st) = Ok None.
Proof.
  intros Hs Hd He. rewrite sheet_task_eq.
  destruct (read_column_d W s) as [|r0 rows]; [reflexivity|].
  cbn zeta.
  destruct (fst (process_sheet_content (r0 :: rows))) as [|b blocks];
    [reflexivity|].
  rewrite generate_sheet_pdf_eq. cbn zeta. rewrite Hs, Hd, He. reflexivity.
Qed.

(** The files after a task: the file of the sheet is written when the task
    succeeds, and nothing else changes. *)
Lemma sheet_task_fs (s : str) (st : State) :
  fs (snd (sheet_task W styles s st))
  = match task_file W styles s with
    | Some (p, f) => <[p := f]> (fs st)
    | None => fs st
    end.
Proof.
  unfold task_file. rewrite sheet_task_eq.
  destruct (read_column_d W s) as [|r0 rows]; [reflexivity|].
  cbn zeta.
  destruct (fst (process_sheet_content (r0 :: rows))) as [|b blocks];
    [reflexivity|].
  rewrite generate_sheet_pdf_eq. cbn zeta.
  destruct (_build_story W styles s (b :: blocks)) as [story|e].
  - destruct (doc_build W _ story) as [n|e]; [reflexivity|].
    destruct (is_Exception e) eqn:Ee; cbn beta iota; rewrite ?Ee;
      reflexivity.
  - destruct (is_Exception e) eqn:Ee; cbn beta iota; rewrite ?Ee;
      reflexivity.
Qed.

(** The non-empty result of a task is the path of the file it writes. *)
Lemma sheet_task_result_file (s : str) (st : State) :
  match fst (sheet_task W styles s st) with
  | Ok (Some p) => if truthy p then Some p else None
  | _ => None
  end
  = match task_file W styles s with
    | Some (p, _) => Some p
    | None => None
    end.
Proof.
  unfold task_file. rewrite sheet_task_eq.
  destruct (read_column_d W s) as [|r0 rows]; [reflexivity|].
  cbn zeta.
  destruct (fst (process_sheet_content (r0 :: rows))) as [|b blocks];
    [reflexivity|].
  rewrite generate_sheet_pdf_eq. cbn zeta.
  destruct (_build_story W styles s (b :: blocks)) as [story|e].
  - destruct (doc_build W _ story) as [n|e].
    + cbn [fst]. rewrite pdf_path_truthy. reflexivity.
    + destruct (is_Exception e) eqn:Ee; cbn beta iota; rewrite ?Ee;
      reflexivity.
  - destruct (is_Exception e) eqn:Ee; cbn beta iota; rewrite ?Ee;
      reflexivity.
Qed.

Lemma task_file_path (s p : str) (f : file) :
  task_file W styles s = Some (p, f) ->
  p = join (join (env_output_dir W) (lit "temp"))
        (_sanitize_filename s ++ lit ".pdf") /\
  exists n story, f = {| nbytes := n; doc := SheetPDF s story |}.
Proof.
  unfold task_file.
  destruct (fst (process_sheet_content (read_column_d W s))); [discriminate|].
  destruct (_build_story W styles s _) as [story|e]; [|discriminate].
  destruct (doc_build W _ story) as [n|e]; [|discriminate].
  intros [= <- <-]. split; [reflexivity | eauto].
Qed.

End WithWorld.

(** Sanitised names that differ give different paths. *)
Lemma pdf_path_inj (dir s s' : str) :
  join dir (_sanitize_filename s ++ lit ".pdf")
  = join dir (_sanitize_filename s' ++ lit ".pdf") ->
  _sanitize_filename s = _sanitize_filename s'.
Proof.
  assert (forall x, startswith [c_slash] (_sanitize_filename x ++ lit ".pdf")
                    = false) as Hs.
  { intros x. destruct (_sanitize_filename x) as [|c r] eqn:E; [reflexivity|].
    cbn [app startswith]. rewrite andb_true_r. apply N.eqb_neq. intros <-.
    pose proof (sanitize_filename_chars x c_slash) as H. rewrite E in H.
    specialize (H (or_introl eq_refl)). discriminate H. }
  unfold join. rewrite !Hs. intros H.
  assert (_sanitize_filename s ++ lit ".pdf"
          = _sanitize_filename s' ++ lit ".pdf") as H'.
  { destruct dir as [|d dir]; [exact H|].
    destruct (N.eqb _ _).
    - apply app_inv_head in H. exact H.
    - apply app_inv_head in H. apply app_inv_head in H. exact H. }
  apply app_inv_tail in H'. exact H'.
Qed.

End FileFacts.

Import FileFacts.

(** Claim C2, amended: a failure inside a sheet task (no rows or no blocks,
    a story that cannot be built, a renderer failure) is caught at the task
    boundary and turned into the result None, and a task that renders its
    sheet returns the path of the file; no [Exception] leaves a task.  One
    turn of the scheduler's loop has four outcomes and no other: a true
    result is recorded under the sheet name, a result that is none is only
    logged, an [Exception] of the task is only logged, and what is no
    [Exception] is raised again; no outcome is a timeout.  With a positive
    pool bound no [Exception] leaves the scheduler, and the mapping it
    returns records the successful tasks and nothing else: the entry of a
    sheet of the list is the path its task returns, a sheet whose task
    gives none has no entry, and neither has a name outside the list. *)
Theorem C2_failures_caught_not_recorded (U : UnicodeData) (W : World)
    (styles : gmap string ParagraphStyle) (max_workers : Z)
    (sheets : list str) (completed : list nat) (st : State) :
  (0 < max_workers)%Z -> completion_order sheets completed ->
  let task := Main.sheet_task W styles in
  let blocks s := fst (process_sheet_content (read_column_d W s)) in
  let path s := join (join (env_output_dir W) (lit "temp"))
                  (_sanitize_filename s ++ lit ".pdf") in
  (forall s st1,
     (read_column_d W s = [] -> fst (task s st1) = Ok None) /\
     (blocks s = [] -> fst (task s st1) = Ok None) /\
     (forall e,
        _build_story W styles s (blocks s) = Raise e ->
        is_Exception e = true -> fst (task s st1) = Ok None) /\
     (forall story e,
        _build_story W styles s (blocks s) = Ok story ->
        doc_build W (path s) story = Raise e ->
        is_Exception e = true -> fst (task s st1) = Ok None) /\
     (forall story n,
        blocks s <> [] ->
        _build_story W styles s (blocks s) = Ok story ->
        doc_build W (path s) story = Ok n ->
        fst (task s st1) = Ok (Some (path s))) /\
     (forall e, fst (task s st1) = Raise e -> is_Exception e = false)) /\
  (forall read process generate s st1 e,
     fst (process_single_sheet read process generate s st1) = Raise e ->
     is_Exception e = false) /\
  (forall (f : str -> M State (option str)) s results st1,
     record_result f s results st1
     = match f s st1 with
       | (Ok o, st') =>
           if truthy_result o
           then (Ok (<[s := default [] o]> results),
                 logged (Log INFO "Completed" s) st')
           else (Ok results, logged (Log WARNING "No result for" s) st')
       | (Raise e, st') =>
           if is_Exception e
           then (Ok results, logged (Log ERROR "Failed" s) st')
           else (Raise e, st')
       end) /\
  (forall (f : str -> M State (option str)) e,
     fst (process_sheets_parallel max_workers sheets f completed st) = Raise e ->
     is_Exception e = false /\ exists s st1, fst (f s st1) = Raise e) /\
  (forall (f : str -> M State (option str)) res,
     fst (process_sheets_parallel max_workers sheets f completed st) = Ok res ->
     (forall s p, res !! s = Some p ->
        In s sheets /\ truthy p = true /\
        exists st1, fst (f s st1) = Ok (Some p)) /\
     ((forall s sa sb, fst (f s sa) = fst (f s sb)) ->
      forall s,
        res !! s
        = if Main.elem s sheets
          then match fst (f s st) with
               | Ok (Some p) => if truthy p then Some p else None
               | _ => None
               end
          else None)) /\
  (forall res,
     fst (process_sheets_parallel max_workers sheets task completed st)
     = Ok res ->
     forall s,
       res !! s
       = if Main.elem s sheets
         then match task_file W styles s with
              | Some (p, _) => Some p
              | None => None
              end
         else None).
Proof.
  intros Hpos Hperm. cbn zeta.
  split; [|split; [|split; [|split; [|split]]]].
  - intros s st1.
    split.
    { intros H. apply sheet_task_no_blocks. rewrite H. reflexivity. }
    split; [apply sheet_task_no_blocks|].
    split; [apply sheet_task_story_fails|].
    split; [apply sheet_task_build_fails|].
    split.
    + intros story n Hne Hs Hd.
      destruct (SuccessFacts.sheet_task_success W styles s st1 story n
                  Hne Hs Hd) as (st' & H & _).
      rewrite H. reflexivity.
    + intros e He. apply (TaskFacts.sheet_task_raise W styles s st1 e He).
  - intros read process generate s st1 e.
    unfold process_single_sheet, try_except.
    match goal with |- context [match ?b st1 with _ => _ end] =>
      destruct (b st1) as [[o|e'] st'] end.
    + discriminate.
    + destruct (is_Exception e') eqn:Ee; [discriminate|].
      simpl. intros [= <-]. exact Ee.
  - intros f s results st1. apply record_result_eq.
  - intros f e. destruct sheets as [|s0 sheets']; [discriminate|].
    rewrite process_sheets_parallel_eq by (discriminate || lia).
    destruct (collect _ _ _ _ _) as [[res'|e'] st'] eqn:Ec; [discriminate|].
    simpl. intros [= <-]. apply (f_equal fst) in Ec.
    exact (collect_raise _ _ _ _ _ _ Ec).
  - intros f res Hres. split.
    + intros s p Hp.
      exact (process_sheets_parallel_entries _ _ _ _ _ _ _ _ Hpos Hres Hp).
    + intros Hind s.
      exact (ScheduleFacts.scheduled_lookup f Hind _ _ _ _ st _ s
               Hpos Hperm Hres).
  - intros res Hres s.
    rewrite (ScheduleFacts.scheduled_lookup _
               (TaskFacts.sheet_task_result_independent W styles)
               _ _ _ _ st _ s Hpos Hperm Hres).
    destruct (Main.elem s sheets); [|reflexivity].
    apply sheet_task_result_file.
Qed.

Lemma C2_failures_caught_not_recorded_witness :
  (0 < 4)%Z /\
  completion_order [sheet_A; sheet_B; sheet_C] [1; 2; 0]%nat /\
  exists res,
    fst (schedule world_ABC [sheet_A; sheet_B; sheet_C] [1; 2; 0]%nat)
    = Ok res /\
    res !! sheet_A = Some (lit "output/temp/A.pdf") /\
    res !! sheet_B = None /\
    res !! sheet_C = Some (lit "output/temp/C.pdf").
Proof.
  assert (completion_order [sheet_A; sheet_B; sheet_C] [1; 2; 0]%nat) as Hperm.
  { unfold completion_order. simpl.
    apply Permutation_sym, (Permutation_cons_app [1; 2]%nat []).
    apply Permutation_refl. }
  split; [lia|]. split; [exact Hperm|].
  destruct (fst (schedule world_ABC [sheet_A; sheet_B; sheet_C] [1; 2; 0]%nat))
    as [res|e] eqn:E; [|vm_compute in E; discriminate E].
  exists res. split; [reflexivity|].
  destruct (C2_failures_caught_not_recorded basic_latin world_ABC
              helvetica_styles 4 [sheet_A; sheet_B; sheet_C] [1; 2; 0]%nat
              empty_state ltac:(lia) Hperm) as (_ & _ & _ & _ & _ & H).
  rewrite !(H res E). vm_compute. repeat split.
Defined.

(** ** The chapters of the merged ebook *)

Module ChapterFacts.

Import Main PDFMerger PDFGenerator ThreadManager Scenarios SchedulerFacts
  OrderFacts MergeFacts FileFacts Derived.

Section WithWorld.
Context {U : UnicodeData} (W : World).
Variable styles : gmap string StyleManager.ParagraphStyle.

(** When every task that writes to [p] writes [f] there, [p] holds [f] at
    the end of the loop if it held it before or one of the completed tasks
    writes it. *)
Lemma collect_file_content (futures : gmap nat (list N))
    (completed : list nat) (results : gmap (list N) (list N)) (st : State)
    (res : gmap (list N) (list N)) (p : str) (f : file) :
  (forall i s f', In i completed -> futures !! i = Some s ->
                  task_file W styles s = Some (p, f') -> f' = f) ->
  fst (collect futures (sheet_task W styles) completed results st) = Ok res ->
  (fs st !! p = Some f \/
   exists i s, In i completed /\ futures !! i = Some s /\
               task_file W styles s = Some (p, f)) ->
  fs (snd (collect futures (sheet_task W styles) completed results st)) !! p
  = Some f.
Proof.
  revert results st. induction completed as [|i rest IH];
    intros results st Hall Hres Hin.
  - cbn [collect ret snd]. destruct Hin as [H|(i & s & [] & _)]. exact H.
  - rewrite collect_cons in *.
    assert (forall j s f', In j rest -> futures !! j = Some s ->
                           task_file W styles s = Some (p, f') -> f' = f)
      as Hall'.
    { intros j s f' Hj. apply Hall. right; exact Hj. }
    destruct (futures !! i) as [s'|] eqn:Ei.
    + rewrite record_result_eq in *.
      pose proof (sheet_task_fs W styles s' st) as Hfs.
      assert (fs (snd (sheet_task W styles s' st)) !! p = Some f \/
              exists j s, In j rest /\ futures !! j = Some s /\
                          task_file W styles s = Some (p, f)) as Hnext.
      { rewrite Hfs.
        destruct Hin as [H|(j & s & [<-|Hj] & Hfj & Hf)].
        - left. destruct (task_file W styles s') as [[p' f']|] eqn:Et;
            [|exact H].
          destruct (decide (p' = p)) as [->|Hne].
          + rewrite lookup_insert_eq.
            rewrite (Hall i s' f' (or_introl eq_refl) Ei Et). reflexivity.
          + rewrite lookup_insert_ne by exact Hne. exact H.
        - left. rewrite Hfj in Ei. injection Ei as <-. rewrite Hf.
          apply lookup_insert_eq.
        - right. exists j, s. auto. }
      destruct (sheet_task W styles s' st) as [[o|e] st'];
        cbn [snd] in Hnext.
      * destruct (truthy_result o); apply (IH _ _ Hall' Hres); exact Hnext.
      * destruct (is_Exception e); [|discriminate Hres].
        apply (IH _ _ Hall' Hres). exact Hnext.
    + apply (IH _ _ Hall' Hres).
      destruct Hin as [H|(j & s & [<-|Hj] & Hfj & Hf)].
      * left; exact H.
      * rewrite Hfj in Ei. discriminate Ei.
      * right. exists j, s. auto.
Qed.

(** The merger appends every file it accepts. *)
Lemma append_all_accepts (add_bookmarks : bool) (files : list str)
    (st : State) :
  (forall p, In p files ->
             append_outline_item W p = None /\ append_plain W p = None) ->
  exists st',
    append_all W add_bookmarks files st
    = (Ok (List.map (chapter_entry add_bookmarks) files), st') /\
    fs st' = fs st.
Proof.
  revert st. induction files as [|p rest IH]; intros st Hacc.
  - eexists. split; reflexivity.
  - destruct (Hacc p (or_introl eq_refl)) as [Hout Hplain].
    cbn [append_all]. unfold bind at 1.
    assert (append W add_bookmarks p (_extract_chapter_name p) st
            = (Ok (chapter_entry add_bookmarks p), st)) as ->.
    { unfold append, raise_if, chapter_entry. destruct add_bookmarks.
      - rewrite Hout. reflexivity.
      - unfold bind. rewrite Hplain. reflexivity. }
    unfold bind at 1. cbn [emit modify]. unfold bind at 1.
    destruct (IH (logged (Log INFO "Added" (_extract_chapter_name p)) st))
      as (st' & -> & Hfs).
    { intros q Hq. apply Hacc. right; exact Hq. }
    eexists. split; [reflexivity | exact Hfs].
Qed.

(** The merge of existing files that the merger accepts and writes. *)
Lemma merge_accepts (output_dir : str) (files : list str)
    (output_filename : str) (add_bookmarks : bool) (st : State) (n : N) :
  files <> [] ->
  (forall p, In p files -> exists_ st p = true) ->
  (forall p, In p files ->
             append_outline_item W p = None /\ append_plain W p = None) ->
  merger_write W (List.map (chapter_entry add_bookmarks) files) = Ok n ->
  exists st',
    merge_sheets_to_ebook W output_dir files output_filename add_bookmarks st
    = (Ok (Some (join output_dir output_filename)), st') /\
    fs st'
    = <[join output_dir output_filename
        := {| nbytes := n;
              doc := MergedPDF
                       (List.map (chapter_entry add_bookmarks) files) |}]>
        (fs st).
Proof.
  intros Hne Hex Hacc Hw.
  destruct files as [|f0 rest] eqn:Ef; [contradiction Hne; reflexivity|].
  rewrite <- Ef in *.
  rewrite (merge_sheets_to_ebook_eq W output_dir f0 rest files
             output_filename add_bookmarks st)
    by (rewrite (filter_all _ _ Hex); exact Ef).
  rewrite <- Ef.
  destruct (append_all_accepts add_bookmarks files
              (logged (Log INFO "Merging PDFs into ebook" []) st) Hacc)
    as (st1 & -> & Hfs).
  rewrite Hw. eexists. split; [reflexivity|].
  cbn [logged written fs]. rewrite Hfs. reflexivity.
Qed.

(** The files handed to the merger are the paths of the files the tasks of
    the requested sheets write, in the requested order. *)
Lemma successful_artifacts_files (sheets : list str) :
  successful_artifacts W styles sheets
  = omap (fun s => fst <$> task_file W styles s) sheets.
Proof.
  unfold successful_artifacts.
  induction sheets as [|s rest IH]; [reflexivity|].
  cbn [omap list_omap]. rewrite IH. unfold task_artifact at 1.
  rewrite (sheet_task_result_file W styles s empty_state).
  destruct (task_file W styles s) as [[p f]|]; reflexivity.
Qed.

End WithWorld.

End ChapterFacts.

Import ChapterFacts.

(** Claim C4, as stated, fails: the names of two sheets that differ after
    their fiftieth character only give one file name.  Both tasks write
    that file, so it holds the sheet whose task completed last, and both
    chapters of the merged ebook are that file: requested in the order 1, 2,
    the ebook holds sheet 2 twice when the tasks complete in that order and
    sheet 1 twice when they complete in the other, and never both sheets. *)
Lemma C4_colliding_names_follow_completion :
  _sanitize_filename sheet_long_1 = _sanitize_filename sheet_long_2 /\
  successful_artifacts (U:=basic_latin) world_long helvetica_styles
    [sheet_long_1; sheet_long_2] = [long_path; long_path] /\
  chapter_holds
    (snd (schedule world_long [sheet_long_1; sheet_long_2] [0; 1]%nat))
    long_path sheet_long_2 /\
  chapter_holds
    (snd (schedule world_long [sheet_long_1; sheet_long_2] [1; 0]%nat))
    long_path sheet_long_1 /\
  (exists n name,
     fs (snd (Main.pipeline (U:=basic_latin) world_long (args_all None)
                helvetica_styles 4 [sheet_long_1; sheet_long_2] [1; 0]%nat
                empty_state)) !! ebook_path
     = Some {| nbytes := n;
               doc := MergedPDF [(long_path, Some name);
                                 (long_path, Some name)] |}).
Proof.
  split; [vm_compute; reflexivity|].
  split; [vm_compute; reflexivity|].
  split; [eexists _, _; vm_compute; reflexivity|].
  split; [eexists _, _; vm_compute; reflexivity|].
  eexists _, _. vm_compute. reflexivity.
Qed.

(** Claim C4, amended: when the requested sheets have pairwise different
    sanitised names, the tasks raise nothing but [Exception]s, at least one
    task succeeds and the merger accepts and writes the rendered files,
    then for every order in which the tasks complete the scheduler returns
    its mapping, the files handed to the merger are the rendered files of
    the requested sheets whose tasks succeed, in the requested order, each
    of them holds the story of its own sheet, and the merge returns the
    output path, where the ebook then holds exactly these files as its
    chapters, in that order. *)
Theorem C4_chapters_in_requested_order (U : UnicodeData) (W : World)
    (styles : gmap string ParagraphStyle) (max_workers : Z)
    (sheets : list str) (completed : list nat) (st : State)
    (output_dir output_filename : str) (add_bookmarks : bool) (n : N) :
  let task := Main.sheet_task W styles in
  let artifacts := successful_artifacts W styles sheets in
  completion_order sheets completed ->
  (0 < max_workers)%Z ->
  (forall s st1 e, fst (task s st1) = Raise e -> is_Exception e = true) ->
  (forall s s', In s sheets -> In s' sheets ->
                _sanitize_filename s = _sanitize_filename s' -> s = s') ->
  artifacts <> [] ->
  (forall p, In p artifacts ->
             append_outline_item W p = None /\ append_plain W p = None) ->
  merger_write W (List.map (chapter_entry add_bookmarks) artifacts) = Ok n ->
  exists res st1 st2,
    process_sheets_parallel max_workers sheets task completed st
    = (Ok res, st1) /\
    Main.pdf_files_of sheets res = artifacts /\
    artifacts = omap (fun s => fst <$> task_file W styles s) sheets /\
    (forall s p f, In s sheets -> task_file W styles s = Some (p, f) ->
                   fs st1 !! p = Some f /\ chapter_holds st1 p s) /\
    PDFMerger.merge_sheets_to_ebook W output_dir
      (Main.pdf_files_of sheets res) output_filename add_bookmarks st1
    = (Ok (Some (join output_dir output_filename)), st2) /\
    fs st2
    = <[join output_dir output_filename
        := {| nbytes := n;
              doc := MergedPDF
                       (List.map (chapter_entry add_bookmarks) artifacts) |}]>
        (fs st1).
Proof.
  cbn zeta. intros Hperm Hpos Hraise Hinj Hne Hacc Hw.
  assert (sheets <> []) as Hsheets.
  { intros ->. apply Hne. reflexivity. }
  destruct (collect_returns (future_to_sheet sheets)
              (Main.sheet_task W styles) completed ∅ st Hraise)
    as [res Hres].
  pose proof (process_sheets_parallel_eq max_workers sheets
                (Main.sheet_task W styles) completed st Hsheets Hpos) as Heq.
  assert (forall s p f, In s sheets -> task_file W styles s = Some (p, f) ->
            fs (snd (collect (future_to_sheet sheets)
                       (Main.sheet_task W styles) completed ∅ st)) !! p
            = Some f) as Hcontent.
  { intros s p f Hs Hf.
    apply (collect_file_content W styles _ _ _ _ res p f); [|exact Hres|].
    - intros i s' f' _ Hi Hf'. rewrite future_to_sheet_lookup in Hi.
      assert (In s' sheets) as Hs'
        by (apply list_elem_of_In, list_elem_of_lookup; eauto).
      destruct (task_file_path W styles _ _ _ Hf) as [Hp _].
      destruct (task_file_path W styles _ _ _ Hf') as [Hp' _].
      rewrite Hp in Hp'. apply pdf_path_inj in Hp'.
      rewrite (Hinj s s' Hs Hs' Hp') in Hf. congruence.
    - right. apply list_elem_of_In, list_elem_of_lookup in Hs as [i Hi].
      exists i, s. split; [|split; [|exact Hf]].
      + apply (Permutation_in _ (Permutation_sym Hperm)).
        apply in_seq. apply lookup_lt_Some in Hi. lia.
      + rewrite future_to_sheet_lookup. exact Hi. }
  destruct (collect (future_to_sheet sheets) (Main.sheet_task W styles)
              completed ∅ st) as [[res'|e] st'] eqn:Ec;
    cbn [fst snd] in *; [|discriminate Hres].
  injection Hres as ->.
  set (st1 := logged (Log INFO "Processing completed" []) st') in *.
  assert (Main.pdf_files_of sheets res
          = successful_artifacts W styles sheets) as Hfiles.
  { apply (pdf_files_of_scheduled W styles max_workers sheets completed st
             res Hpos Hperm). rewrite Heq. reflexivity. }
  assert (forall p, In p (successful_artifacts W styles sheets) ->
                    exists_ st1 p = true) as Hexist.
  { intros p Hp. rewrite successful_artifacts_files in Hp.
    apply list_elem_of_In, list_elem_of_omap in Hp as (s & Hs & Hp).
    apply list_elem_of_In in Hs.
    destruct (task_file W styles s) as [[q f]|] eqn:Et; [|discriminate Hp].
    injection Hp as <-. unfold exists_. cbn [st1 logged fs].
    rewrite (Hcontent s q f Hs Et). reflexivity. }
  destruct (merge_accepts W output_dir (successful_artifacts W styles sheets)
              output_filename add_bookmarks st1 n Hne Hexist Hacc Hw)
    as (st2 & Hmerge & Hfs2).
  exists res, st1, st2. rewrite Hfiles.
  split; [exact Heq|]. split; [reflexivity|].
  split; [apply successful_artifacts_files|].
  split; [|split; [exact Hmerge | exact Hfs2]].
  intros s p f Hs Hf.
  assert (fs st1 !! p = Some f) as Hp by exact (Hcontent s p f Hs Hf).
  split; [exact Hp|].
  destruct (task_file_path W styles _ _ _ Hf) as (_ & m & story & ->).
  exists m, story. exact Hp.
Qed.

Lemma C4_chapters_in_requested_order_witness :
  completion_order [sheet_A; sheet_B; sheet_C] [1; 2; 0]%nat /\
  (0 < 4)%Z /\
  exists res st1 st2,
    schedule world_ABC_full [sheet_A; sheet_B; sheet_C] [1; 2; 0]%nat
    = (Ok res, st1) /\
    PDFMerger.merge_sheets_to_ebook world_ABC_full (lit "output/final")
      (Main.pdf_files_of [sheet_A; sheet_B; sheet_C] res) (lit "book.pdf")
      true st1
    = (Ok (Some ebook_path), st2) /\
    fs st2 !! ebook_path
    = Some {| nbytes := 5000;
              doc := MergedPDF
                       [(lit "output/temp/A.pdf", Some (lit "A"));
                        (lit "output/temp/B.pdf", Some (lit "B"));
                        (lit "output/temp/C.pdf", Some (lit "C"))] |} /\
    chapter_holds st1 (lit "output/temp/A.pdf") sheet_A /\
    chapter_holds st1 (lit "output/temp/B.pdf") sheet_B /\
    chapter_holds st1 (lit "output/temp/C.pdf") sheet_C.
Proof.
  assert (completion_order [sheet_A; sheet_B; sheet_C] [1; 2; 0]%nat) as Hperm.
  { unfold completion_order. simpl.
    apply Permutation_sym, (Permutation_cons_app [1; 2]%nat []).
    apply Permutation_refl. }
  split; [exact Hperm|]. split; [lia|].
  destruct (C4_chapters_in_requested_order basic_latin world_ABC_full
              helvetica_styles 4 [sheet_A; sheet_B; sheet_C] [1; 2; 0]%nat
              empty_state (lit "output/final") (lit "book.pdf") true 5000
              Hperm ltac:(lia))
    as (res & st1 & st2 & Hs & _ & _ & Hc & Hm & Hfs).
  - intros s st1 e H.
    apply TaskFacts.sheet_task_raise in H as [_ [[t Ht]|(path & story & Hd)]];
      discriminate.
  - intros s s' [<-|[<-|[<-|[]]]] [<-|[<-|[<-|[]]]] H;
      first [reflexivity | vm_compute in H; discriminate H].
  - vm_compute. discriminate.
  - intros p _. split; reflexivity.
  - reflexivity.
  - exists res, st1, st2. split; [exact Hs|]. split; [exact Hm|].
    split.
    { rewrite Hfs.
      change ebook_path with (join (lit "output/final") (lit "book.pdf")).
      rewrite lookup_insert_eq. f_equal. }
    assert (forall s p, In s [sheet_A; sheet_B; sheet_C] ->
              (exists f, task_file (U:=basic_latin) world_ABC_full
                           helvetica_styles s = Some (p, f)) ->
              chapter_holds st1 p s) as Hh.
    { intros s p Hin [f Hf]. exact (proj2 (Hc s p f Hin Hf)). }
    split; [|split]; apply Hh;
      first [ left; reflexivity | right; left; reflexivity
            | right; right; left; reflexivity
            | eexists; vm_compute; reflexivity ].
Defined.
